(** * AgriBot Graph RAG core ([graph_rag.py]): model and verified properties

    A shallow embedding of the [GraphRAG] class.  Python values are modelled
    by Rocq data (a [str] is its sequence of code points, an [int] is a [Z],
    a [float] is a binary64 [PrimFloat.float]); the external services
    (Ollama, Neo4j, Pinecone, the logger) are an explicit record of reply
    functions, and every method runs in a small monad that threads the
    trace of service calls and propagates exceptions.

    Embedded methods: [chunk_text_with_pages], [extract_entities_with_llm],
    [store_in_neo4j], [generate_embedding], [query_vector_search],
    [answer_question] and [get_statistics].  The file first gives the
    model, then the properties, claim by claim (C1 to C10). *)

From Stdlib Require Import ZArith NArith List String Ascii Bool Lia.
From Stdlib Require Import DecimalString DecimalZ PrimFloat.
From Stdlib Require Uint63.
From stdpp Require Import gmap.
Import ListNotations.
Local Open Scope Z_scope.
Set Warnings "-inexact-float".

(* ===================================================================== *)
(** ** Python strings and sequences *)
(* ===================================================================== *)

Module Py.

(** A Python [str]: the sequence of its Unicode code points. *)
Definition str := list N.

(** [len(x)] *)
Definition len {A : Type} (l : list A) : Z := Z.of_nat (length l).

(** Decoding of UTF-8 bytes into code points; [need] continuation bytes
    are still expected for the code point whose high bits are [acc]. *)
Fixpoint utf8_decode_from (need : nat) (acc : N) (bs : list N) : str :=
  match bs with
  | [] => []
  | b :: bs' =>
      match need with
      | O =>
          if (b <? 128)%N then b :: utf8_decode_from 0 0%N bs'
          else if (b <? 224)%N then utf8_decode_from 1 (b - 192)%N bs'
          else if (b <? 240)%N then utf8_decode_from 2 (b - 224)%N bs'
          else utf8_decode_from 3 (b - 240)%N bs'
      | S O => (acc * 64 + (b - 128))%N :: utf8_decode_from 0 0%N bs'
      | S k => utf8_decode_from k (acc * 64 + (b - 128))%N bs'
      end
  end.

(** A string literal of the program: the source file is UTF-8, and so is
    the literal given here. *)
Definition lit (s : string) : str :=
  utf8_decode_from 0 0%N (List.map N_of_ascii (list_ascii_of_string s)).

(** [str.isspace] on one character: the code points CPython treats as
    whitespace in [split()] and [strip()]. *)
Definition isspace (c : N) : bool :=
  ((9 <=? c) && (c <=? 13) || (28 <=? c) && (c <=? 32)
   || (c =? 133) || (c =? 160) || (c =? 5760)
   || (8192 <=? c) && (c <=? 8202)
   || (c =? 8232) || (c =? 8233) || (c =? 8239) || (c =? 8287)
   || (c =? 12288))%N.

Fixpoint lstrip (s : str) : str :=
  match s with
  | c :: s' => if isspace c then lstrip s' else s
  | [] => []
  end.

Definition rstrip (s : str) : str := rev (lstrip (rev s)).

(** [s.strip()] *)
Definition strip (s : str) : str := rstrip (lstrip s).

(** [s.split()]: the maximal runs of non-whitespace characters.  [cur] is
    the word being read. *)
Fixpoint split_from (cur : str) (s : str) : list str :=
  match s with
  | [] => match cur with [] => [] | _ => [cur] end
  | c :: s' =>
      if isspace c
      then match cur with
           | [] => split_from [] s'
           | _ => cur :: split_from [] s'
           end
      else split_from (cur ++ [c]) s'
  end.

Definition split (s : str) : list str := split_from [] s.

(** [sep.join(parts)] *)
Fixpoint join (sep : str) (parts : list str) : str :=
  match parts with
  | [] => []
  | [p] => p
  | p :: rest => p ++ sep ++ join sep rest
  end.

(** Index normalisation of a slice bound, as [slice.indices] does for a
    step of 1: a negative bound counts from the end, and both are clamped
    to [0 .. n]. *)
Definition clamp (n i : Z) : Z :=
  if i <? 0 then Z.max 0 (i + n) else Z.min i n.

(** [l[lo:hi]] *)
Definition slice {A : Type} (l : list A) (lo hi : Z) : list A :=
  let n := len l in
  let a := clamp n lo in
  let b := clamp n hi in
  firstn (Z.to_nat (b - a)) (skipn (Z.to_nat a) l).

(** [l[:hi]] *)
Definition slice_to {A : Type} (l : list A) (hi : Z) : list A :=
  slice l 0 hi.

(** [c in s] for a single character [c]. *)
Definition contains_char (c : N) (s : str) : bool :=
  existsb (N.eqb c) s.

(** [s.find(c)] for a single character: the first index, or -1. *)
Fixpoint find_from (c : N) (s : str) (i : Z) : Z :=
  match s with
  | [] => -1
  | d :: s' => if (d =? c)%N then i else find_from c s' (i + 1)
  end.

Definition find (c : N) (s : str) : Z := find_from c s 0.

(** [s.rfind(c)] for a single character: the last index, or -1. *)
Fixpoint rfind_from (c : N) (s : str) (i : Z) (last : Z) : Z :=
  match s with
  | [] => last
  | d :: s' => rfind_from c s' (i + 1) (if (d =? c)%N then i else last)
  end.

Definition rfind (c : N) (s : str) : Z := rfind_from c s 0 (-1).

(** [s.replace(a, b)] for single characters. *)
Definition replace (a b : N) (s : str) : str :=
  List.map (fun c => if (c =? a)%N then b else c) s.

(** [s.split(sep)] for a single-character separator: always at least one
    piece, empty pieces kept. *)
Fixpoint split_on_from (sep : N) (cur : str) (s : str) : list str :=
  match s with
  | [] => [cur]
  | c :: s' =>
      if (c =? sep)%N then cur :: split_on_from sep [] s'
      else split_on_from sep (cur ++ [c]) s'
  end.

Definition split_on (sep : N) (s : str) : list str := split_on_from sep [] s.

(** [s.startswith(p)] *)
Fixpoint startswith (p s : str) : bool :=
  match p, s with
  | [], _ => true
  | a :: p', b :: s' => (a =? b)%N && startswith p' s'
  | _ :: _, [] => false
  end.

(** [p in s] for a substring [p]. *)
Fixpoint contains (p s : str) : bool :=
  startswith p s ||
  match s with
  | [] => false
  | _ :: s' => contains p s'
  end.

End Py.


(* ===================================================================== *)
(** ** [str.encode()], [hashlib.sha256] and [int(s, 16)] *)
(* ===================================================================== *)

Module Utf8.

(** The UTF-8 bytes of one code point.  A surrogate (U+D800..U+DFFF) has
    none: CPython raises [UnicodeEncodeError]. *)
Definition encode_char (c : N) : option (list Z) :=
  let z := Z.of_N c in
  if z <? 128 then Some [z]
  else if z <? 2048 then
    Some [Z.lor 192 (Z.shiftr z 6); Z.lor 128 (Z.land z 63)]
  else if z <? 65536 then
    if (55296 <=? z) && (z <=? 57343) then None
    else Some [Z.lor 224 (Z.shiftr z 12);
               Z.lor 128 (Z.land (Z.shiftr z 6) 63);
               Z.lor 128 (Z.land z 63)]
  else if z <? 1114112 then
    Some [Z.lor 240 (Z.shiftr z 18);
          Z.lor 128 (Z.land (Z.shiftr z 12) 63);
          Z.lor 128 (Z.land (Z.shiftr z 6) 63);
          Z.lor 128 (Z.land z 63)]
  else None.

(** [text.encode()] *)
Fixpoint encode (s : Py.str) : option (list Z) :=
  match s with
  | [] => Some []
  | c :: s' =>
      match encode_char c, encode s' with
      | Some bs, Some rest => Some (bs ++ rest)
      | _, _ => None
      end
  end.

(** The texts [encode] accepts: sequences of Unicode scalar values. *)
Definition scalar_value (c : N) : bool :=
  ((c <? 55296) || (57343 <? c) && (c <? 1114112))%N.

Definition unicode_text (s : Py.str) : Prop :=
  Forall (fun c => scalar_value c = true) s.

End Utf8.

Module Sha256.

(** 32-bit words are integers in [0, 2^32). *)
Definition wrap (x : Z) : Z := x mod 4294967296.
Definition add32 (x y : Z) : Z := wrap (x + y).
Definition rotr (n x : Z) : Z :=
  Z.lor (Z.shiftr x n) (wrap (Z.shiftl x (32 - n))).
Definition neg32 (x : Z) : Z := 4294967295 - x.

Definition Ch (x y z : Z) : Z := Z.lxor (Z.land x y) (Z.land (neg32 x) z).
Definition Maj (x y z : Z) : Z :=
  Z.lxor (Z.lxor (Z.land x y) (Z.land x z)) (Z.land y z).
Definition Sigma0 (x : Z) : Z :=
  Z.lxor (Z.lxor (rotr 2 x) (rotr 13 x)) (rotr 22 x).
Definition Sigma1 (x : Z) : Z :=
  Z.lxor (Z.lxor (rotr 6 x) (rotr 11 x)) (rotr 25 x).
Definition sigma0 (x : Z) : Z :=
  Z.lxor (Z.lxor (rotr 7 x) (rotr 18 x)) (Z.shiftr x 3).
Definition sigma1 (x : Z) : Z :=
  Z.lxor (Z.lxor (rotr 17 x) (rotr 19 x)) (Z.shiftr x 10).

(** The round constants are not tabulated but derived as the standard
    defines them: the first 32 bits of the fractional parts of the cube
    roots of the first 64 primes, and for the initial hash value those of
    the square roots of the first 8 primes. *)
Definition is_prime (n : Z) : bool :=
  (1 <? n)
  && forallb (fun d => negb (n mod d =? 0) || (n <=? d))
             (List.map Z.of_nat (seq 2 (Z.to_nat (Z.sqrt n)))).

Definition first_primes (n : nat) : list Z :=
  firstn n (List.filter is_prime (List.map Z.of_nat (seq 2 320))).

(** The largest [r] below [2^bits] with [r^3 <= n]. *)
Fixpoint cube_root (bits : nat) (n r : Z) : Z :=
  match bits with
  | O => r
  | S b =>
      let r' := r + Z.shiftl 1 (Z.of_nat b) in
      cube_root b n (if r' * r' * r' <=? n then r' else r)
  end.

Definition K : list Z :=
  Eval vm_compute in
    List.map (fun q => wrap (cube_root 40 (Z.shiftl q 96) 0))
             (first_primes 64).

Definition H0 : list Z :=
  Eval vm_compute in
    List.map (fun q => wrap (Z.sqrt (Z.shiftl q 64))) (first_primes 8).

(** Padding: a 1 bit, zeros up to 56 mod 64 bytes, the bit length on 8
    bytes, most significant first. *)
Definition be_bytes (n : nat) (x : Z) : list Z :=
  List.map (fun k => Z.land (Z.shiftr x (8 * Z.of_nat k)) 255) (rev (seq 0 n)).

Definition pad (msg : list Z) : list Z :=
  let l := Z.of_nat (length msg) in
  let zeros := Z.to_nat ((55 - l) mod 64) in
  msg ++ [128] ++ repeat 0 zeros ++ be_bytes 8 (8 * l).

Definition be_word (bs : list Z) : Z :=
  fold_left (fun acc b => acc * 256 + b) bs 0.

(** The bytes cut into words of 4, and the words into blocks of 16. *)
Fixpoint words_of (n : nat) (bs : list Z) : list Z :=
  match n with
  | O => []
  | S n' => be_word (firstn 4 bs) :: words_of n' (skipn 4 bs)
  end.

Fixpoint blocks_of (n : nat) (ws : list Z) : list (list Z) :=
  match n with
  | O => []
  | S n' => firstn 16 ws :: blocks_of n' (skipn 16 ws)
  end.

(** Message schedule: [w] holds the last 16 words. *)
Fixpoint schedule (n : nat) (w : list Z) : list Z :=
  match n with
  | O => []
  | S n' =>
      let x := add32 (add32 (sigma1 (nth 14 w 0)) (nth 9 w 0))
                     (add32 (sigma0 (nth 1 w 0)) (nth 0 w 0)) in
      x :: schedule n' (skipn 1 w ++ [x])
  end.

Definition round (st : list Z) (kw : Z * Z) : list Z :=
  match st with
  | [a; b; c; d; e; f; g; h] =>
      let t1 := add32 (add32 (add32 h (Sigma1 e)) (add32 (Ch e f g) (fst kw)))
                      (snd kw) in
      let t2 := add32 (Sigma0 a) (Maj a b c) in
      [add32 t1 t2; a; b; c; add32 d t1; e; f; g]
  | _ => st
  end.

Definition compress (h : list Z) (block : list Z) : list Z :=
  let w := block ++ schedule 48 block in
  let st := fold_left round (combine K w) h in
  List.map (fun p => add32 (fst p) (snd p)) (combine h st).

Definition digest_words (msg : list Z) : list Z :=
  let p := pad msg in
  let nwords := Nat.div (length p) 4 in
  fold_left compress (blocks_of (Nat.div nwords 16) (words_of nwords p)) H0.

Definition hex_digit (d : Z) : N :=
  Z.to_N (if d <? 10 then 48 + d else 87 + d).

Definition hex_word (w : Z) : Py.str :=
  List.map (fun k => hex_digit (Z.land (Z.shiftr w (4 * Z.of_nat k)) 15))
           (rev (seq 0 8)).

(** [hashlib.sha256(data).hexdigest()] *)
Definition hexdigest (msg : list Z) : Py.str :=
  flat_map hex_word (digest_words msg).

End Sha256.

Module Hex.

Definition digit_value (c : N) : option Z :=
  let z := Z.of_N c in
  if (48 <=? z) && (z <=? 57) then Some (z - 48)
  else if (97 <=? z) && (z <=? 102) then Some (z - 87)
  else if (65 <=? z) && (z <=? 70) then Some (z - 55)
  else None.

(** The characters that are a hexadecimal digit. *)
Definition is_digit (c : N) : Prop :=
  exists d, 0 <= d <= 15 /\ digit_value c = Some d.

Fixpoint value_from (acc : Z) (s : Py.str) : option Z :=
  match s with
  | [] => Some acc
  | c :: s' =>
      match digit_value c with
      | Some d => value_from (16 * acc + d) s'
      | None => None
      end
  end.

(** [int(s, 16)] on a string of hexadecimal digits; [None] is the
    [ValueError] of an empty string or of a character that is no digit.
    Signs, blanks, underscores and a [0x] prefix, which a hex digest never
    holds, are not modelled. *)
Definition int16 (s : Py.str) : option Z :=
  match s with
  | [] => None
  | _ => value_from 0 s
  end.

End Hex.

(* ===================================================================== *)
(** ** Strings that depend on the Unicode database, numbers *)
(* ===================================================================== *)

Module Text.

(** The Unicode character database beyond ASCII: which characters are
    letters, and the case mappings ([upper] works character by character,
    [lower] looks at the context of a character). *)
Record ucd : Type := {
  ucd_isalpha : N -> bool;
  ucd_upper : N -> Py.str;
  ucd_lower : Py.str -> Py.str
}.

Definition ascii (c : N) : bool := (c <? 128)%N.
Definition ascii_upper_letter (c : N) : bool := ((65 <=? c) && (c <=? 90))%N.
Definition ascii_lower_letter (c : N) : bool := ((97 <=? c) && (c <=? 122))%N.

(** [c.isalpha()] for one character *)
Definition isalpha (db : ucd) (c : N) : bool :=
  if ascii c then ascii_upper_letter c || ascii_lower_letter c
  else ucd_isalpha db c.

(** [s.upper()] *)
Definition upper (db : ucd) (s : Py.str) : Py.str :=
  flat_map (fun c =>
              if ascii c then [if ascii_lower_letter c then (c - 32)%N else c]
              else ucd_upper db c) s.

(** [s.lower()] *)
Definition lower (db : ucd) (s : Py.str) : Py.str :=
  if forallb ascii s
  then List.map (fun c => if ascii_upper_letter c then (c + 32)%N else c) s
  else ucd_lower db s.

(** A literal in which a backquote stands for the double quote character,
    which a string of this file cannot hold. *)
Definition litq (s : string) : Py.str := Py.replace 96%N 34%N (Py.lit s).

Definition nl : Py.str := [10%N].

(** The lines of a multi-line literal. *)
Definition unlines (ls : list Py.str) : Py.str := Py.join nl ls.

(** [str(n)], as an f-string formats an [int]. *)
Definition dec (n : Z) : Py.str :=
  Py.lit (DecimalString.NilZero.string_of_int (Z.to_int n)).

(** An [int] as a [float]; exact below 2^53. *)
Fixpoint float_of_pos (p : positive) : float :=
  match p with
  | xH => 1%float
  | xO q => (2 * float_of_pos q)%float
  | xI q => (2 * float_of_pos q + 1)%float
  end.

Definition float_of_int (z : Z) : float :=
  match z with
  | Z0 => 0%float
  | Zpos p => float_of_pos p
  | Zneg p => (- float_of_pos p)%float
  end.

(** [range(n)] *)
Definition range (n : nat) : list Z := List.map Z.of_nat (seq 0 n).

(** [sorted(l)] on integers (a stable insertion sort). *)
Fixpoint insert_sorted (x : Z) (l : list Z) : list Z :=
  match l with
  | [] => [x]
  | y :: l' => if x <? y then x :: l else y :: insert_sorted x l'
  end.

Definition sorted (l : list Z) : list Z := fold_right insert_sorted [] l.

End Text.

(* ===================================================================== *)
(** ** Dynamic values, exceptions and the trace of effects *)
(* ===================================================================== *)

(** The values that come back from JSON and from the graph store. *)
#[local] Unset Elimination Schemes.
Inductive pyval : Type :=
| PNone
| PBool (b : bool)
| PInt (z : Z)
| PFloat (f : float)
| PStr (s : Py.str)
| PList (l : list pyval)
| PDict (d : list (Py.str * pyval)).
#[local] Set Elimination Schemes.

(** The exceptions of the model; each is an [Exception], so that
    [except Exception] catches every one of them. *)
Inductive exn : Type :=
| KeyError
| TypeError
| AttributeError
| ValueError
| UnicodeEncodeError
| ZeroDivisionError
| ExternalError (what : Py.str).

(** What a call to a collaborator (or to a library function that can fail)
    gives back. *)
Inductive reply (A : Type) : Type :=
| Returns (a : A)
| Fails (e : exn).
Arguments Returns {A} a.
Arguments Fails {A} e.

Inductive level : Type := DEBUG | INFO | SUCCESS | WARNING | ERROR.

(** One constructor per [logger] call of the class, with the values its
    message interpolates. *)
Inductive log_msg : Type :=
| CreatedChunks (chunks pages : Z)
| ExtractedEntities (entities : Z)
| EntityExtractionFailed (e : exn)
| CouldNotCreateRelationship (rel_type : Py.str) (e : exn)
| StoredEntities (entities relationships : Z)
| GeneratedEmbedding (dim : Z)
| EmbeddingGenerationFailed (e : exn)
| UsingFallbackEmbedding
| AnswerGenerationFailed (e : exn)
| StatisticsError (e : exn).

(** The [options] dictionary of a chat call. *)
Record chat_options : Type := {
  temperature : float;
  num_predict : option Z;
  top_p : option float;
  stop : list Py.str
}.

(** A match of the vector index, with the metadata fields the class reads
    ([None] for an absent key). *)
Record vmatch : Type := {
  md_text : option Py.str;
  md_original_filename : option Py.str;
  md_doc_id : option Py.str;
  md_page_num : option Z
}.

(** A record of a graph query result: its columns by name. *)
Definition neo_record : Type := list (Py.str * pyval).

Inductive event : Type :=
| OllamaEmbeddings (model prompt : Py.str)
| OllamaChat (model prompt : Py.str) (options : chat_options)
| Neo4jSession
| Neo4jRun (query : Py.str) (params : list (Py.str * pyval))
| Neo4jClose
| PineconeQuery (vector : list float) (top_k : Z)
| PineconeDescribeIndexStats
| Log (lvl : level) (msg : log_msg).

(** The calls made so far, oldest first. *)
Definition trace : Type := list event.

(** The events that are a chat call to the language model, and those that
    are a query run on the graph store. *)
Definition is_chat (ev : event) : bool :=
  match ev with
  | OllamaChat _ _ _ => true
  | _ => false
  end.

Definition is_run (ev : event) : bool :=
  match ev with
  | Neo4jRun _ _ => true
  | _ => false
  end.

(** The collaborators.  A reply may depend on everything that happened
    before the call. *)
Record services : Type := {
  (** [ollama_client.embeddings(...)['embedding']] *)
  ollama_embeddings : trace -> Py.str -> Py.str -> reply (list float);
  (** [ollama_client.chat(...)]: the response object *)
  ollama_chat : trace -> Py.str -> Py.str -> chat_options -> reply pyval;
  (** [neo4j_driver.session()] and the end of its [with] block *)
  neo4j_session : trace -> reply unit;
  neo4j_close : trace -> reply unit;
  (** [session.run(query, **params)]: the records of the result *)
  neo4j_run : trace -> Py.str -> list (Py.str * pyval) -> reply (list neo_record);
  (** [pinecone_index.query(...).matches] *)
  pinecone_query : trace -> list float -> Z -> reply (list vmatch);
  (** [pinecone_index.describe_index_stats().total_vector_count] *)
  pinecone_total_vector_count : trace -> reply pyval
}.

(** The parts of the Python runtime that are tables too large to write
    down: the decoder of [json.loads] and the Unicode character database
    beyond ASCII. *)
Record runtime : Type := {
  json_loads : Py.str -> reply pyval;
  unicode : Text.ucd
}.

(** How a method ends: with a value, with an exception, or never (a loop
    that is still running when the fuel is spent). *)
Inductive outcome (A : Type) : Type :=
| Ok (a : A)
| Raise (e : exn)
| Diverge.
Arguments Ok {A} a.
Arguments Raise {A} e.
Arguments Diverge {A}.

Definition M (A : Type) : Type := trace -> outcome A * trace.

#[global] Instance M_ret : MRet M := fun A a tr => (Ok a, tr).

#[global] Instance M_bind : MBind M := fun A B f m tr =>
  match m tr with
  | (Ok a, tr') => f a tr'
  | (Raise e, tr') => (Raise e, tr')
  | (Diverge, tr') => (Diverge, tr')
  end.

Definition raise {A : Type} (e : exn) : M A := fun tr => (Raise e, tr).

(** A computation that ends, with a value or an exception, from every
    trace. *)
Definition halts {A : Type} (m : M A) : Prop :=
  forall tr, exists tr',
    (exists a, m tr = (Ok a, tr')) \/ (exists e, m tr = (Raise e, tr')).

Definition diverge {A : Type} : M A := fun tr => (Diverge, tr).

(** [try: body  except Exception as e: handler(e)] *)
Definition try_except {A : Type} (body : M A) (handler : exn -> M A) : M A :=
  fun tr =>
    match body tr with
    | (Raise e, tr') => handler e tr'
    | r => r
    end.

Definition emit (ev : event) : M unit := fun tr => (Ok tt, tr ++ [ev]).

Definition log (lvl : level) (msg : log_msg) : M unit := emit (Log lvl msg).

(** A call: the event is recorded, then the collaborator replies to the
    trace as it was before the call. *)
Definition call {A : Type} (ev : event) (answer : trace -> reply A) : M A :=
  fun tr =>
    match answer tr with
    | Returns a => (Ok a, tr ++ [ev])
    | Fails e => (Raise e, tr ++ [ev])
    end.

(** The result of a library function that can raise. *)
Definition of_reply {A : Type} (r : reply A) : M A :=
  match r with
  | Returns a => mret a
  | Fails e => raise e
  end.

(** [for x in l: acc = body(x, acc)] *)
Fixpoint for_each {A S : Type} (l : list A) (body : A -> S -> M S) (acc : S)
  : M S :=
  match l with
  | [] => mret acc
  | x :: l' => acc' ← body x acc; for_each l' body acc'
  end.

Module Dyn.

(** [bool(v)] *)
Definition truthy (v : pyval) : bool :=
  match v with
  | PNone => false
  | PBool b => b
  | PInt z => negb (z =? 0)
  | PFloat f => negb (PrimFloat.eqb f 0%float)
  | PStr s => negb (Py.len s =? 0)
  | PList l => negb (Py.len l =? 0)
  | PDict d => negb (Py.len d =? 0)
  end.

Fixpoint assoc {V : Type} (k : Py.str) (d : list (Py.str * V)) : option V :=
  match d with
  | [] => None
  | (k', v) :: d' => if decide (k = k') then Some v else assoc k d'
  end.

(** [v[k]] for a string key [k] *)
Definition item (v : pyval) (k : Py.str) : reply pyval :=
  match v with
  | PDict d =>
      match assoc k d with
      | Some x => Returns x
      | None => Fails KeyError
      end
  | _ => Fails TypeError
  end.

Definition getitem (v : pyval) (k : Py.str) : M pyval := of_reply (item v k).

(** [v.get(k, dflt)] *)
Definition get (v : pyval) (k : Py.str) (dflt : pyval) : M pyval :=
  match v with
  | PDict d => mret (default dflt (assoc k d))
  | _ => raise AttributeError
  end.

(** [len(v)] *)
Definition len (v : pyval) : M Z :=
  match v with
  | PStr s => mret (Py.len s)
  | PList l => mret (Py.len l)
  | PDict d => mret (Py.len d)
  | _ => raise TypeError
  end.

(** The receiver of a [str] method. *)
Definition as_str (v : pyval) : M Py.str :=
  match v with
  | PStr s => mret s
  | _ => raise AttributeError
  end.

End Dyn.

(* ===================================================================== *)
(** ** The class [GraphRAG] *)
(* ===================================================================== *)

Module GraphRAG.

(** A page of [extract_text_from_pdf] and a chunk of
    [chunk_text_with_pages]: the dictionaries with keys ['text'] and
    ['page_num']. *)
Record page : Type := { text : Py.str; page_num : Z }.
Record chunk : Type := { chunk_text : Py.str; chunk_page_num : Z }.

(** The entities and relationships handed to [store_in_neo4j]; an absent
    ['type'] or ['description'] key is [None]. *)
Record entity : Type := {
  e_name : Py.str;
  e_type : option Py.str;
  e_description : option Py.str
}.

Record relationship : Type := {
  r_from : Py.str;
  r_to : Py.str;
  r_type : Py.str
}.

Record statistics : Type := {
  neo4j_nodes : pyval;
  neo4j_relationships : pyval;
  pinecone_vectors : pyval
}.

(** *** [chunk_text_with_pages] *)

(** The [while i < len(words)] loop of one page; [fuel] bounds the number
    of iterations run, and [None] means the loop was still running. *)
Fixpoint chunk_page (fuel : nat) (words : list Py.str)
    (page_num chunk_size overlap i : Z) (chunks : list chunk)
  : option (list chunk) :=
  if i <? Py.len words then
    match fuel with
    | O => None
    | S fuel' =>
        let chunk_text :=
          Py.join (Py.lit " ") (Py.slice words i (i + chunk_size)) in
        let chunks :=
          if Py.len (Py.strip chunk_text) >? 50
          then chunks ++ [{| chunk_text := chunk_text;
                             chunk_page_num := page_num |}]
          else chunks in
        chunk_page fuel' words page_num chunk_size overlap
                   (i + (chunk_size - overlap)) chunks
    end
  else Some chunks.

(** The [for page_data in pages_data] loop. *)
Fixpoint chunk_pages (fuel : nat) (pages_data : list page)
    (chunk_size overlap : Z) (chunks : list chunk) : option (list chunk) :=
  match pages_data with
  | [] => Some chunks
  | page_data :: rest =>
      let words := Py.split (text page_data) in
      match chunk_page fuel words (page_num page_data)
                       chunk_size overlap 0 chunks with
      | Some chunks' => chunk_pages fuel rest chunk_size overlap chunks'
      | None => None
      end
  end.

Definition chunk_text_with_pages (fuel : nat) (pages_data : list page)
    (chunk_size overlap : Z) : M (list chunk) :=
  match chunk_pages fuel pages_data chunk_size overlap [] with
  | None => diverge
  | Some chunks =>
      log INFO (CreatedChunks (Py.len chunks) (Py.len pages_data));;
      mret chunks
  end.

Definition default_chunk_size : Z := 600.
Definition default_overlap : Z := 100.

(** *** Labels of the graph schema ([store_in_neo4j]) *)

(** A name that a Cypher query can hold without escaping: ASCII letters,
    digits and underscores, the first one not a digit. *)
Definition name_char (c : N) : bool :=
  Text.ascii_upper_letter c || Text.ascii_lower_letter c
  || ((48 <=? c) && (c <=? 57))%N || (c =? 95)%N.

Definition plain_name (s : Py.str) : bool :=
  match s with
  | [] => false
  | c :: _ => negb ((48 <=? c) && (c <=? 57))%N && forallb name_char s
  end.

Definition pipe : N := 124%N.
Definition space : N := 32%N.
Definition underscore : N := 95%N.

(** The label interpolated after [MERGE (n:] for an entity. *)
Definition entity_label (rt : runtime) (e : entity) : Py.str :=
  let entity_type := default (Py.lit "Entity") (e_type e) in
  let entity_type :=
    if Py.contains_char pipe entity_type
    then Py.strip (hd [] (Py.split_on pipe entity_type))
    else entity_type in
  match entity_type with
  | [] => Py.lit "Entity"
  | c :: _ => if Text.isalpha (unicode rt) c then entity_type else Py.lit "Entity"
  end.

(** The type interpolated after [MERGE (a)-[r:] for a relationship. *)
Definition relationship_label (rt : runtime) (rel : relationship) : Py.str :=
  let rel_type :=
    Text.upper (unicode rt) (Py.replace pipe underscore
                     (Py.replace space underscore (r_type rel))) in
  if (Py.len rel_type =? 0) || (Py.len rel_type <? 2)
  then Py.lit "RELATED_TO"
  else rel_type.

Definition merge_node_query (entity_type : Py.str) : Py.str :=
  Text.unlines
    [ [];
      Py.lit "                MERGE (n:" ++ entity_type ++ Py.lit " {name: $name})";
      Py.lit "                SET n.description = $description";
      Py.lit "                RETURN elementId(n) as id";
      Py.lit "                " ].

Definition merge_relationship_query (rel_type : Py.str) : Py.str :=
  Text.unlines
    [ [];
      Py.lit "                    MATCH (a), (b)";
      Py.lit "                    WHERE elementId(a) = $from_id AND elementId(b) = $to_id";
      Py.lit "                    MERGE (a)-[r:" ++ rel_type ++ Py.lit "]->(b)";
      Py.lit "                    RETURN r";
      Py.lit "                    " ].

(** *** Prompts *)

Definition extraction_prompt (text : Py.str) : Py.str :=
  Text.unlines
    [ Py.lit "Extract agricultural entities from this Azerbaijani text. Return ONLY a JSON object:";
      Py.lit "{";
      Text.litq "  `entities`: [{`name`: `entity_name`, `type`: `Crop|Disease|Technique|Chemical`, `description`: `brief`}],";
      Text.litq "  `relationships`: [{`from`: `entity1`, `to`: `entity2`, `type`: `TREATS|AFFECTS|PREVENTS`}]";
      Py.lit "}";
      [];
      Py.lit "Text: " ++ Py.slice_to text 1000;
      [];
      Py.lit "Return ONLY valid JSON:" ].

Definition answer_prompt (context question : Py.str) : Py.str :=
  Text.unlines
    [ Py.lit "S…ôn k…ônd t…ôs…ôrr√ºfatƒ± √ºzr…ô eksperts…ôn. A≈üaƒüƒ±dakƒ± m…ôtn…ô …ôsas…ôn suala QISA v…ô KONKRET cavab ver.";
      [];
      Py.lit "M∆èTN:";
      context;
      [];
      Py.lit "SUAL: " ++ question;
      [];
      Py.lit "T∆èLƒ∞MAT:";
      Py.lit "- Yalnƒ±z sualƒ±n cavabƒ±nƒ± ver";
      Py.lit "- 2-3 c√ºml…ôd…ôn √ßox yazma";
      Py.lit "- Konkret adlar, r…ôq…ôml…ôr v…ô faktlar bildir";
      Text.litq "- ∆èg…ôr m…ôtnl…ôrd…ô d…ôqiq cavab yoxdursa, `M…ôlumat tapƒ±lmadƒ±` de";
      Py.lit "- M…ôtnd…ôn …ôlav…ô m…ôlumat …ôlav…ô etm…ô";
      [];
      Py.lit "CAVAB (qƒ±sa v…ô konkret):" ].

Definition extraction_options : chat_options :=
  {| temperature := 0.3%float; num_predict := None; top_p := None;
     stop := [] |}.

Definition answer_options : chat_options :=
  {| temperature := 0.2%float; num_predict := Some 150;
     top_p := Some 0.9%float;
     stop := [ Text.nl ++ Text.nl ++ Text.nl; Py.lit "SUAL:";
               Py.lit "M∆èTN:" ] |}.

Definition empty_extraction : pyval :=
  PDict [ (Py.lit "entities", PList []); (Py.lit "relationships", PList []) ].

Definition not_found_message : Py.str :=
  Py.lit "Verilmi≈ü s…ôn…ôdl…ôrd…ô bu sual √ºzr…ô m…ôlumat tapƒ±lmadƒ±.".
Definition no_answer_message : Py.str :=
  Py.lit "Cavab yaradƒ±la bilm…ôdi.".
Definition answer_error_message : Py.str :=
  Py.lit "Cavab yaradƒ±lark…ôn x…ôta ba≈ü verdi.".
Definition unknown_source : Py.str := Py.lit "Nam…ôlum m…ônb…ô".

Definition fallback_statistics : statistics :=
  {| neo4j_nodes := PInt 24; neo4j_relationships := PInt 2;
     pinecone_vectors := PInt 47 |}.

(** *** The answer's post-processing (pure parts of [answer_question]) *)

(** The loop over the matches: the texts kept for the context and, per
    file name in order of first appearance, the pages seen. *)
Definition sources : Type := list (Py.str * list Z).

Fixpoint add_source (filename : Py.str) (page_num : Z) (d : sources)
  : sources :=
  match d with
  | [] => [(filename, if page_num >? 0 then [page_num] else [])]
  | (f, pages) :: d' =>
      if decide (f = filename)
      then (f, if (page_num >? 0) && negb (existsb (Z.eqb page_num) pages)
               then pages ++ [page_num] else pages) :: d'
      else (f, pages) :: add_source filename page_num d'
  end.

Definition collect_match (acc : list Py.str * sources) (m : vmatch)
  : list Py.str * sources :=
  let text := default [] (md_text m) in
  let filename :=
    default (default unknown_source (md_doc_id m)) (md_original_filename m) in
  let page_num := default 0 (md_page_num m) in
  if Py.len text >? 100
  then (fst acc ++ [text], add_source filename page_num (snd acc))
  else acc.

Definition is_metadata_line (rt : runtime) (line : Py.str) : bool :=
  let line_lower := Text.lower (unicode rt) line in
  Py.startswith (Py.lit "uot") line_lower
  || Py.contains (Py.lit "n…ô≈üriyyat") line_lower && (Py.len line <? 50)
  || Py.startswith (Py.lit "r…ôy√ßil…ôr:") line_lower
  || Py.startswith (Py.lit "professor ") line_lower.

Definition clean_lines (rt : runtime) (answer : Py.str) : list Py.str :=
  flat_map (fun line =>
              if is_metadata_line rt line then []
              else match Py.strip line with
                   | [] => []
                   | stripped => [stripped]
                   end)
           (Py.split_on 10%N answer).

Definition page_prefix : Py.str := Py.lit "s…ôh. ".
Definition sources_heading : Py.str := Py.lit "üìö **M…ônb…ôl…ôr:** ".

Definition format_source (entry : Py.str * list Z) : Py.str :=
  let (filename, pages) := entry in
  match pages with
  | [] => filename
  | _ =>
      let pages_sorted := Text.sorted pages in
      let pages_str :=
        Py.join (Py.lit ", ")
          (List.map (fun p => page_prefix ++ Text.dec p)
                    (Py.slice_to pages_sorted 3)) in
      let pages_str :=
        if Py.len pages_sorted >? 3 then pages_str ++ Py.lit "..."
        else pages_str in
      filename ++ Py.lit " (" ++ pages_str ++ Py.lit ")"
  end.

Definition with_sources (d : sources) (answer : Py.str) : Py.str :=
  match d, answer with
  | _ :: _, _ :: _ =>
      if Py.len answer >? 20
      then answer ++ Text.nl ++ Text.nl ++ sources_heading
                  ++ Py.join (Py.lit " | ") (List.map format_source d)
      else answer
  | _, _ => answer
  end.

Section Methods.

Context (svc : services) (rt : runtime).

(** The collaborator calls. *)
Definition embeddings (model prompt : Py.str) : M (list float) :=
  call (OllamaEmbeddings model prompt)
       (fun tr => ollama_embeddings svc tr model prompt).

Definition chat (model prompt : Py.str) (options : chat_options) : M pyval :=
  call (OllamaChat model prompt options)
       (fun tr => ollama_chat svc tr model prompt options).

Definition run (query : Py.str) (params : list (Py.str * pyval))
  : M (list neo_record) :=
  call (Neo4jRun query params) (fun tr => neo4j_run svc tr query params).

(** Leaving the [with] block: the session is closed however the body
    ends, and a failure to close replaces the body's result. *)
Definition closing {A : Type} (body : M A) : M A :=
  fun tr =>
    match body tr with
    | (Ok a, tr') => (call Neo4jClose (neo4j_close svc);; mret a) tr'
    | (Raise e, tr') => (call Neo4jClose (neo4j_close svc);; raise e) tr'
    | (Diverge, tr') => (Diverge, tr')
    end.

(** [with self.neo4j_driver.session() as session: body] *)
Definition with_session {A : Type} (body : M A) : M A :=
  call Neo4jSession (neo4j_session svc);; closing body.

(** [result.single()]: the first record, [None] when there is none. *)
Definition single (records : list neo_record) : option neo_record :=
  head records.

(** [record[k]] on the value of [single()]; subscripting [None] is a
    [TypeError]. *)
Definition field (record : option neo_record) (k : Py.str) : M pyval :=
  match record with
  | None => raise TypeError
  | Some r =>
      match Dyn.assoc k r with
      | Some v => mret v
      | None => raise KeyError
      end
  end.

(** *** [extract_entities_with_llm] *)

Definition extract_entities_with_llm (text : Py.str) : M pyval :=
  let prompt := extraction_prompt text in
  try_except
    (response ← chat (Py.lit "gemma:2b") prompt extraction_options;
     message ← Dyn.getitem response (Py.lit "message");
     content ← Dyn.getitem message (Py.lit "content");
     content ← Dyn.as_str content;
     let start := Py.find 123%N content in
     let end_ := Py.rfind 125%N content + 1 in
     if (start >=? 0) && (end_ >? start) then
       let json_str := Py.slice content start end_ in
       result ← of_reply (json_loads rt json_str);
       entities ← Dyn.get result (Py.lit "entities") (PList []);
       n ← Dyn.len entities;
       log DEBUG (ExtractedEntities n);;
       mret result
     else mret empty_extraction)
    (fun e =>
       log ERROR (EntityExtractionFailed e);;
       mret empty_extraction).

(** *** [store_in_neo4j] *)

(** The body of [for entity in entities]. *)
Definition store_entity (entity : entity) (entity_ids : gmap Py.str pyval)
  : M (gmap Py.str pyval) :=
  let query := merge_node_query (entity_label rt entity) in
  result ← run query
             [ (Py.lit "name", PStr (e_name entity));
               (Py.lit "description",
                PStr (default [] (e_description entity))) ];
  match single result with
  | Some (c :: r) =>
      id ← field (Some (c :: r)) (Py.lit "id");
      mret (<[e_name entity := id]> entity_ids)
  | _ => mret entity_ids
  end.

(** The body of [for rel in relationships]. *)
Definition store_relationship (entity_ids : gmap Py.str pyval)
    (rel : relationship) (_ : unit) : M unit :=
  let from_id := default PNone (entity_ids !! r_from rel) in
  let to_id := default PNone (entity_ids !! r_to rel) in
  if Dyn.truthy from_id && Dyn.truthy to_id then
    let rel_type := relationship_label rt rel in
    let query := merge_relationship_query rel_type in
    try_except
      (run query [ (Py.lit "from_id", from_id); (Py.lit "to_id", to_id) ];;
       mret tt)
      (fun e => log WARNING (CouldNotCreateRelationship rel_type e))
  else mret tt.

Definition store_in_neo4j (entities : list entity)
    (relationships : list relationship) : M unit :=
  with_session
    (entity_ids ← for_each entities store_entity ∅;
     for_each relationships (store_relationship entity_ids) tt;;
     log INFO (StoredEntities (Z.of_nat (size entity_ids))
                              (Py.len relationships))).

(** *** [generate_embedding] *)

(** The value appended for a byte: [normalized + 0.01]. *)
Definition component (byte_val : Z) : float :=
  let normalized := (Text.float_of_int byte_val / 255.0 * 2 - 1)%float in
  (normalized + 0.01)%float.

(** [text_hash[(i % n):(i % n) + 2]] for a digest of [n > 0] characters. *)
Definition hash_window (text_hash : Py.str) (i : Z) : Py.str :=
  let k := i mod Py.len text_hash in
  Py.slice text_hash k (k + 2).

(** One turn of [for i in range(1024)] in the fallback. *)
Definition fallback_component (text_hash : Py.str) (i : Z) : M float :=
  if Py.len text_hash =? 0 then raise ZeroDivisionError else
  match Hex.int16 (hash_window text_hash i) with
  | None => raise ValueError
  | Some byte_val => mret (component byte_val)
  end.

(** The handler of [generate_embedding], after its log line. *)
Definition fallback_embedding (text : Py.str) : M (list float) :=
  match Utf8.encode text with
  | None => raise UnicodeEncodeError
  | Some data =>
      let text_hash := Sha256.hexdigest data in
      for_each (Text.range 1024)
               (fun i embedding =>
                  c ← fallback_component text_hash i;
                  mret (embedding ++ [c]))
               []
  end.

Definition embedding_model : Py.str := Py.lit "nomic-embed-text".

Definition generate_embedding (text : Py.str) : M (list float) :=
  try_except
    (embedding ← embeddings embedding_model text;
     let embedding :=
       if Py.len embedding <? 1024 then
         embedding ++ repeat 0%float (Z.to_nat (1024 - Py.len embedding))
       else if Py.len embedding >? 1024 then Py.slice_to embedding 1024
       else embedding in
     log DEBUG (GeneratedEmbedding (Py.len embedding));;
     mret embedding)
    (fun e =>
       log ERROR (EmbeddingGenerationFailed e);;
       embedding ← fallback_embedding text;
       log WARNING UsingFallbackEmbedding;;
       mret embedding).

(** *** [query_vector_search] and [answer_question] *)

Definition query_vector_search (query : Py.str) (top_k : Z)
  : M (list vmatch) :=
  query_embedding ← generate_embedding query;
  call (PineconeQuery query_embedding top_k)
       (fun tr => pinecone_query svc tr query_embedding top_k).

Definition answer_model : Py.str := Py.lit "llama3.1".

Definition context_separator : Py.str :=
  Text.nl ++ Text.nl ++ Py.lit "---" ++ Text.nl ++ Text.nl.

Definition answer_question (question : Py.str) : M Py.str :=
  vector_results ← query_vector_search question 10;
  let (context_parts, sources_dict) :=
    fold_left collect_match vector_results ([], []) in
  match context_parts with
  | [] => mret not_found_message
  | _ =>
      let context :=
        Py.join context_separator (Py.slice_to context_parts 5) in
      let prompt := answer_prompt context question in
      try_except
        (response ← chat answer_model prompt answer_options;
         message ← Dyn.getitem response (Py.lit "message");
         content ← Dyn.getitem message (Py.lit "content");
         content ← Dyn.as_str content;
         let answer := Py.strip content in
         let answer :=
           match clean_lines rt answer with
           | [] => answer
           | ls => Py.join Text.nl ls
           end in
         let answer := with_sources sources_dict answer in
         mret (match answer with
               | [] => no_answer_message
               | _ => answer
               end))
        (fun e =>
           log ERROR (AnswerGenerationFailed e);;
           mret answer_error_message)
  end.

(** *** [get_statistics] *)

Definition count_nodes_query : Py.str :=
  Py.lit "MATCH (n) RETURN count(n) as node_count".
Definition count_relationships_query : Py.str :=
  Py.lit "MATCH ()-[r]->() RETURN count(r) as rel_count".

(** The [try] block of [get_statistics]. *)
Definition read_statistics : M statistics :=
  counts ← with_session
    (result ← run count_nodes_query [];
     node_count ← field (single result) (Py.lit "node_count");
     result ← run count_relationships_query [];
     rel_count ← field (single result) (Py.lit "rel_count");
     mret (node_count, rel_count));
  total_vector_count ←
    call PineconeDescribeIndexStats (pinecone_total_vector_count svc);
  mret {| neo4j_nodes := fst counts;
          neo4j_relationships := snd counts;
          pinecone_vectors := total_vector_count |}.

Definition get_statistics : M statistics :=
  try_except read_statistics
    (fun e =>
       log ERROR (StatisticsError e);;
       mret fallback_statistics).

End Methods.

End GraphRAG.

(* ===================================================================== *)
(** ** Test doubles for the collaborators *)
(* ===================================================================== *)

Module Sample.

Definition down : exn := ExternalError (Py.lit "connection refused").

(** Every collaborator is unreachable. *)
Definition offline : services := {|
  ollama_embeddings := fun _ _ _ => Fails down;
  ollama_chat := fun _ _ _ _ => Fails down;
  neo4j_session := fun _ => Fails down;
  neo4j_close := fun _ => Returns tt;
  neo4j_run := fun _ _ _ => Fails down;
  pinecone_query := fun _ _ _ => Fails down;
  pinecone_total_vector_count := fun _ => Fails down
|}.

(** An embedding model of native dimension [dim], a language model that
    always says [content], a graph store that knows [nodes] nodes and
    [rels] relationships and gives every merged node the id ["4:0"], and
    a vector index of [matches]. *)
Definition online (dim : nat) (content : Py.str) (nodes rels : Z)
    (matches : list vmatch) : services := {|
  ollama_embeddings := fun _ _ _ => Returns (repeat 1%float dim);
  ollama_chat := fun _ _ _ _ =>
    Returns (PDict [ (Py.lit "model", PStr (Py.lit "m"));
                     (Py.lit "message",
                      PDict [ (Py.lit "role", PStr (Py.lit "assistant"));
                              (Py.lit "content", PStr content) ]) ]);
  neo4j_session := fun _ => Returns tt;
  neo4j_close := fun _ => Returns tt;
  neo4j_run := fun _ query _ =>
    if decide (query = GraphRAG.count_nodes_query)
    then Returns [ [ (Py.lit "node_count", PInt nodes) ] ]
    else if decide (query = GraphRAG.count_relationships_query)
    then Returns [ [ (Py.lit "rel_count", PInt rels) ] ]
    else Returns [ [ (Py.lit "id", PStr (Py.lit "4:0")) ] ];
  pinecone_query := fun _ _ _ => Returns matches;
  pinecone_total_vector_count := fun _ => Returns (PInt (Py.len matches))
|}.

(** A graph store in which every edge creation fails. *)
Definition no_edges : services := {|
  ollama_embeddings := fun _ _ _ => Fails down;
  ollama_chat := fun _ _ _ _ => Fails down;
  neo4j_session := fun _ => Returns tt;
  neo4j_close := fun _ => Returns tt;
  neo4j_run := fun _ _ params =>
    match Dyn.assoc (Py.lit "from_id") params with
    | Some _ => Fails down
    | None => Returns [ [ (Py.lit "id", PStr (Py.lit "4:0")) ] ]
    end;
  pinecone_query := fun _ _ _ => Fails down;
  pinecone_total_vector_count := fun _ => Fails down
|}.

(** A page of two lines (67 characters, 11 words), and a page of 550
    words. *)
Definition two_line_page : GraphRAG.page := {|
  GraphRAG.text :=
    Py.lit "Wheat rust is treated with fungicide sprays." ++ Text.nl
    ++ Py.lit "Apply in early spring.";
  GraphRAG.page_num := 1
|}.

Definition long_page : GraphRAG.page := {|
  GraphRAG.text := Py.join (Py.lit " ") (repeat (Py.lit "soil") 550);
  GraphRAG.page_num := 2
|}.

(** A match whose stored text is a short heading. *)
Definition heading_match : vmatch := {|
  md_text := Some (Py.lit "UOT 633.1");
  md_original_filename := Some (Py.lit "wheat.pdf");
  md_doc_id := None;
  md_page_num := Some 1
|}.

(** A character database that knows no letter beyond ASCII, and a JSON
    decoder that accepts only the text [{}]. *)
Definition ascii_only : Text.ucd := {|
  Text.ucd_isalpha := fun _ => false;
  Text.ucd_upper := fun c => [c];
  Text.ucd_lower := fun s => s
|}.

Definition rt : runtime := {|
  json_loads := fun s =>
    if decide (s = Py.lit "{}") then Returns (PDict []) else Fails ValueError;
  unicode := ascii_only
|}.

End Sample.
(* ===================================================================== *)
(** ** The remaining methods: documents, vector store, graph reader *)
(* ===================================================================== *)

Module Rest.
Import GraphRAG.

(** A chunk as [store_in_pinecone] accepts it: a dictionary with a text
    and maybe a page number, or, in the old format, a bare string. *)
Inductive chunk_data : Type :=
| ChunkDict (chunk_text : Py.str) (page_num : option Z)
| ChunkStr (chunk_text : Py.str).

(** The chunks of [chunk_text_with_pages] are of the first kind. *)
Definition of_chunk (c : chunk) : chunk_data :=
  ChunkDict (GraphRAG.chunk_text c) (Some (chunk_page_num c)).

(** The text and the page number that [store_in_pinecone] reads off a
    chunk of either kind. *)
Definition text_of (c : chunk_data) : Py.str :=
  match c with
  | ChunkDict chunk_text _ => chunk_text
  | ChunkStr chunk_text => chunk_text
  end.

Definition page_of (c : chunk_data) : Z :=
  match c with
  | ChunkDict _ page_num => default 0 page_num
  | ChunkStr _ => 0
  end.

Record vector_metadata : Type := {
  vm_text : Py.str;
  vm_doc_id : Py.str;
  vm_original_filename : Py.str;
  vm_chunk_num : Z;
  vm_page_num : Z
}.

(** An entry of the [vectors] list handed to [upsert]. *)
Record vector : Type := {
  v_id : Py.str;
  v_values : list float;
  v_metadata : vector_metadata
}.

Inductive xlog_msg : Type :=
| ExtractedCharacters (total_chars max_pages : Z) (basename : Py.str)
| StoredVectors (vectors : Z)
| ConnectionsClosed.

(** The events of these methods: those of the methods above, and the
    calls to the document reader, to [upsert] and to the driver. *)
Inductive xevent : Type :=
| Core (ev : event)
| FitzOpen (pdf_path : Py.str)
| FitzClose
| PineconeUpsert (vectors : list vector)
| DriverClose
| XLog (lvl : level) (msg : xlog_msg).

Definition xtrace : Type := list xevent.

Definition is_upsert (ev : xevent) : bool :=
  match ev with
  | PineconeUpsert _ => true
  | _ => false
  end.

(** The events that are a query of the vector index. *)
Definition is_query (ev : event) : bool :=
  match ev with
  | PineconeQuery _ _ => true
  | _ => false
  end.

Definition is_fitz_close (ev : xevent) : bool :=
  match ev with
  | FitzClose => true
  | _ => false
  end.

(** The collaborators the methods above do not use.  An open document is
    the list of its pages, each the reply of its [get_text()]. *)
Record more_services : Type := {
  fitz_open : xtrace -> Py.str -> reply (list (reply Py.str));
  pinecone_upsert : xtrace -> list vector -> reply unit;
  driver_close : xtrace -> reply unit
}.

Definition X (A : Type) : Type := xtrace -> outcome A * xtrace.

#[global] Instance X_ret : MRet X := fun A a tr => (Ok a, tr).

#[global] Instance X_bind : MBind X := fun A B f m tr =>
  match m tr with
  | (Ok a, tr') => f a tr'
  | (Raise e, tr') => (Raise e, tr')
  | (Diverge, tr') => (Diverge, tr')
  end.

Definition xraise {A : Type} (e : exn) : X A := fun tr => (Raise e, tr).

Definition xemit (ev : xevent) : X unit := fun tr => (Ok tt, tr ++ [ev]).

Definition xlog (lvl : level) (msg : xlog_msg) : X unit :=
  xemit (XLog lvl msg).

Definition xcall {A : Type} (ev : xevent) (answer : xtrace -> reply A)
  : X A :=
  fun tr =>
    match answer tr with
    | Returns a => (Ok a, tr ++ [ev])
    | Fails e => (Raise e, tr ++ [ev])
    end.

(** The events of the methods above within a trace. *)
Definition core_events (tr : xtrace) : trace :=
  flat_map (fun ev => match ev with Core e => [e] | _ => [] end) tr.

(** A method of the first part run here: it sees the events of its own
    kind, and the events it adds are added to the trace. *)
Definition lift {A : Type} (m : M A) : X A :=
  fun tr =>
    let (r, tr') := m (core_events tr) in
    (r, tr ++ List.map Core (skipn (length (core_events tr)) tr')).

Fixpoint xfor_each {A S : Type} (l : list A) (body : A -> S -> X S)
    (acc : S) : X S :=
  match l with
  | [] => mret acc
  | x :: l' => acc' ← body x acc; xfor_each l' body acc'
  end.

(** The parameters and the event of the [session.run] call that merges
    an entity in [store_in_neo4j]. *)
Definition entity_params (e : entity) : list (Py.str * pyval) :=
  [ (Py.lit "name", PStr (e_name e));
    (Py.lit "description", PStr (default [] (e_description e))) ].

Definition entity_run (rt : runtime) (e : entity) : event :=
  Neo4jRun (merge_node_query (entity_label rt e)) (entity_params e).

(** [enumerate(l)] *)
Definition enumerate {A : Type} (l : list A) : list (Z * A) :=
  combine (Text.range (length l)) l.

(** [os.path.basename(p)] (POSIX) *)
Definition basename (p : Py.str) : Py.str :=
  Py.slice p (Py.rfind 47%N p + 1) (Py.len p).

(** [sum(l)] *)
Definition sum (l : list Z) : Z := fold_left Z.add l 0.

Section Methods.

Context (svc : services) (more : more_services).

(** *** [extract_text_from_pdf] *)

Definition default_max_pages : Z := 10.

Definition extract_text_from_pdf (pdf_path : Py.str) (max_pages : Z)
  : X (list page) :=
  doc ← xcall (FitzOpen pdf_path) (fun tr => fitz_open more tr pdf_path);
  pages_data ←
    xfor_each (Text.range (Z.to_nat (Z.min max_pages (Py.len doc))))
      (fun page_num pages_data =>
         match nth_error doc (Z.to_nat page_num) with
         | None => xraise (ExternalError (Py.lit "page not in document"))
         | Some (Fails e) => xraise e
         | Some (Returns text) =>
             mret (pages_data ++ [{| text := text;
                                     GraphRAG.page_num := page_num + 1 |}])
         end)
      [];
  xemit FitzClose;;
  let total_chars :=
    sum (List.map (fun p => Py.len (text p)) pages_data) in
  xlog INFO (ExtractedCharacters total_chars max_pages (basename pdf_path));;
  mret pages_data.

(** *** [store_in_pinecone] *)

(** [original_filename or doc_id] *)
Definition filename_or (original_filename : option Py.str)
    (doc_id : Py.str) : Py.str :=
  match original_filename with
  | Some (c :: name) => c :: name
  | _ => doc_id
  end.

(** The ["id"] and the ["metadata"] of the vector of chunk [i]. *)
Definition vector_id (doc_id : Py.str) (i : Z) : Py.str :=
  doc_id ++ Py.lit "_chunk_" ++ Text.dec i.

Definition metadata (doc_id : Py.str) (original_filename : option Py.str)
    (i : Z) (chunk_text : Py.str) (page_num : Z) : vector_metadata :=
  {| vm_text := Py.slice_to chunk_text 1000;
     vm_doc_id := doc_id;
     vm_original_filename := filename_or original_filename doc_id;
     vm_chunk_num := i;
     vm_page_num := page_num |}.

(** The body of [for i, chunk_data in enumerate(chunks)]. *)
Definition store_chunk (doc_id : Py.str) (original_filename : option Py.str)
    (entry : Z * chunk_data) (vectors : list vector) : X (list vector) :=
  let (i, chunk_data) := entry in
  let (chunk_text, page_num) :=
    match chunk_data with
    | ChunkDict chunk_text page_num => (chunk_text, default 0 page_num)
    | ChunkStr chunk_text => (chunk_text, 0)
    end in
  embedding ← lift (generate_embedding svc chunk_text);
  mret (vectors
        ++ [{| v_id := vector_id doc_id i;
               v_values := embedding;
               v_metadata :=
                 metadata doc_id original_filename i chunk_text page_num |}]).

Definition store_in_pinecone (chunks : list chunk_data) (doc_id : Py.str)
    (original_filename : option Py.str) : X unit :=
  vectors ← xfor_each (enumerate chunks)
                      (store_chunk doc_id original_filename) [];
  xcall (PineconeUpsert vectors)
        (fun tr => pinecone_upsert more tr vectors);;
  xlog INFO (StoredVectors (Py.len vectors)).

(** *** [query_graph] *)

Definition graph_query : Py.str :=
  Text.unlines
    [ [];
      Py.lit "            MATCH (n)";
      Py.lit "            WHERE toLower(n.name) CONTAINS toLower($name)";
      Py.lit "            OPTIONAL MATCH (n)-[r]-(related)";
      Py.lit "            RETURN n.name as entity, labels(n) as types,";
      Py.lit "                   collect(DISTINCT related.name) as related_entities";
      Py.lit "            LIMIT 5";
      Py.lit "            " ].

Definition query_graph (entity_name : Py.str) : M (list neo_record) :=
  with_session svc
    (result ← run svc graph_query [ (Py.lit "name", PStr entity_name) ];
     mret result).

(** *** [close] *)

Definition close : X unit :=
  xcall DriverClose (driver_close more);;
  xlog INFO ConnectionsClosed.

End Methods.

(** The values that [i] takes in the loop of [chunk_text_with_pages] over
    [n] words when it advances by [step]: 0, [step], [2 * step], ... below
    [n]. *)
Definition window_starts (n step : Z) : list Z :=
  List.map (fun k => k * step) (Text.range (Z.to_nat ((n + step - 1) / step))).

End Rest.

(** Test doubles for the remaining collaborators. *)
Module Fixture.

(** A reader that opens every path as the same three-page document, an
    index that accepts every upsert. *)
Definition three_pages : list (reply Py.str) :=
  [ Returns (GraphRAG.text Sample.two_line_page); Returns (Py.lit "Barley.");
    Returns (Py.lit "Rye.") ].

Definition ready : Rest.more_services := {|
  Rest.fitz_open := fun _ _ => Returns three_pages;
  Rest.pinecone_upsert := fun _ _ => Returns tt;
  Rest.driver_close := fun _ => Returns tt
|}.

(** A reader whose second page cannot be read, an index that refuses. *)
Definition broken : Rest.more_services := {|
  Rest.fitz_open := fun _ _ =>
    Returns [ Returns (Py.lit "Wheat."); Fails Sample.down ];
  Rest.pinecone_upsert := fun _ _ => Fails Sample.down;
  Rest.driver_close := fun _ => Fails Sample.down
|}.

(** A graph store that opens sessions and refuses every query. *)
Definition refusing : services := {|
  ollama_embeddings := fun _ _ _ => Fails Sample.down;
  ollama_chat := fun _ _ _ _ => Fails Sample.down;
  neo4j_session := fun _ => Returns tt;
  neo4j_close := fun _ => Returns tt;
  neo4j_run := fun _ _ _ => Fails Sample.down;
  pinecone_query := fun _ _ _ => Fails Sample.down;
  pinecone_total_vector_count := fun _ => Fails Sample.down
|}.

(** A graph store that answers the first query of a trace and refuses
    every later one. *)
Definition one_write : services := {|
  ollama_embeddings := fun _ _ _ => Fails Sample.down;
  ollama_chat := fun _ _ _ _ => Fails Sample.down;
  neo4j_session := fun _ => Returns tt;
  neo4j_close := fun _ => Returns tt;
  neo4j_run := fun tr _ _ =>
    if existsb is_run tr then Fails Sample.down
    else Returns [ [ (Py.lit "id", PStr (Py.lit "4:0")) ] ];
  pinecone_query := fun _ _ _ => Fails Sample.down;
  pinecone_total_vector_count := fun _ => Fails Sample.down
|}.

(** A JSON decoder that gives [v] for every text. *)
Definition decoding (v : pyval) : runtime := {|
  json_loads := fun _ => Returns v;
  unicode := Sample.ascii_only
|}.

End Fixture.

(* ===================================================================== *)
(** * Properties *)
(* ===================================================================== *)

Import GraphRAG.

(* ===================================================================== *)
(** ** Sequences *)
(* ===================================================================== *)

Section SliceFacts.

Context {A : Type}.
Implicit Types l : list A.

Lemma len_nonneg l : 0 <= Py.len l.
Proof. unfold Py.len. lia. Qed.

Lemma len_app l1 l2 : Py.len (l1 ++ l2) = Py.len l1 + Py.len l2.
Proof. unfold Py.len. rewrite length_app. lia. Qed.

Lemma len_nil_inv l : Py.len l = 0 -> l = [].
Proof. destruct l; [reflexivity | unfold Py.len; simpl; lia]. Qed.

(** A slice from 0 that reaches the end is the whole list. *)
Lemma slice_whole l hi : Py.len l <= hi -> Py.slice l 0 hi = l.
Proof.
  intros H. pose proof (len_nonneg l) as Hn.
  unfold Py.slice, Py.clamp.
  replace (0 <? 0) with false by reflexivity.
  replace (hi <? 0) with false by (symmetry; apply Z.ltb_ge; lia).
  rewrite (Z.min_l 0) by lia. rewrite (Z.min_r hi) by lia.
  simpl. rewrite Z.sub_0_r. unfold Py.len. rewrite Nat2Z.id.
  apply firstn_all.
Qed.

(** A slice is never longer than asked for. *)
Lemma slice_length l lo hi :
  0 <= lo -> lo <= hi ->
  Py.len (Py.slice l lo hi) = Z.min hi (Py.len l) - Z.min lo (Py.len l).
Proof.
  intros H0 H1. pose proof (len_nonneg l) as Hn.
  unfold Py.slice, Py.clamp.
  replace (lo <? 0) with false by (symmetry; apply Z.ltb_ge; lia).
  replace (hi <? 0) with false by (symmetry; apply Z.ltb_ge; lia).
  unfold Py.len in *. rewrite length_firstn, length_skipn. lia.
Qed.

End SliceFacts.

(* ===================================================================== *)
(** ** [chunk_text_with_pages] *)
(* ===================================================================== *)

Module ChunkFacts.

(** The loop, one turn unfolded. *)
Lemma chunk_page_exit fuel words pn cs ov i acc :
  Py.len words <= i -> chunk_page fuel words pn cs ov i acc = Some acc.
Proof.
  intros H. destruct fuel; simpl;
    (replace (i <? Py.len words) with false
       by (symmetry; apply Z.ltb_ge; lia)); reflexivity.
Qed.

Lemma chunk_page_turn fuel words pn cs ov i acc :
  i < Py.len words ->
  chunk_page (S fuel) words pn cs ov i acc =
  chunk_page fuel words pn cs ov (i + (cs - ov))
    (let chunk_text :=
       Py.join (Py.lit " ") (Py.slice words i (i + cs)) in
     if Py.len (Py.strip chunk_text) >? 50
     then acc ++ [{| chunk_text := chunk_text; chunk_page_num := pn |}]
     else acc).
Proof.
  intros H. simpl.
  replace (i <? Py.len words) with true by (symmetry; apply Z.ltb_lt; lia).
  reflexivity.
Qed.

Lemma chunk_page_spent words pn cs ov i acc :
  i < Py.len words -> chunk_page 0 words pn cs ov i acc = None.
Proof.
  intros H. simpl.
  replace (i <? Py.len words) with true by (symmetry; apply Z.ltb_lt; lia).
  reflexivity.
Qed.

(** With [overlap >= chunk_size] the window start never moves forward, so
    the loop of a page that has a word is still running after any number
    of turns. *)
Lemma chunk_page_runs_forever fuel words pn cs ov :
  cs <= ov ->
  forall i acc, i < Py.len words ->
  chunk_page fuel words pn cs ov i acc = None.
Proof.
  intros Hov. induction fuel as [|fuel IH]; intros i acc Hi.
  - now apply chunk_page_spent.
  - rewrite chunk_page_turn by assumption. apply IH. lia.
Qed.

(** With [overlap < chunk_size] the start grows by at least one word per
    turn: [len(words) - i] turns are enough. *)
Lemma chunk_page_terminates fuel words pn cs ov :
  ov < cs ->
  forall i acc, Py.len words - i <= Z.of_nat fuel ->
  exists out, chunk_page fuel words pn cs ov i acc = Some out.
Proof.
  intros Hov. induction fuel as [|fuel IH]; intros i acc Hi.
  - exists acc. apply chunk_page_exit. lia.
  - destruct (Z_lt_le_dec i (Py.len words)) as [Hlt|Hge].
    + rewrite chunk_page_turn by assumption. apply IH. lia.
    + exists acc. now apply chunk_page_exit.
Qed.

(** The loop only appends to the chunks it was given. *)
Lemma chunk_page_appends fuel words pn cs ov :
  forall i acc,
  chunk_page fuel words pn cs ov i acc =
  option_map (app acc) (chunk_page fuel words pn cs ov i []).
Proof.
  induction fuel as [|fuel IH]; intros i acc.
  - destruct (Z_lt_le_dec i (Py.len words)).
    + now rewrite !chunk_page_spent.
    + rewrite !chunk_page_exit by assumption. simpl. now rewrite app_nil_r.
  - destruct (Z_lt_le_dec i (Py.len words)).
    + rewrite !chunk_page_turn by assumption. cbv zeta.
      destruct (Py.len _ >? 50).
      * rewrite IH. rewrite (IH _ ([] ++ _)).
        destruct (chunk_page fuel words pn cs ov _ []); simpl;
          [now rewrite <- app_assoc | reflexivity].
      * apply IH.
    + rewrite !chunk_page_exit by assumption. simpl. now rewrite app_nil_r.
Qed.

Lemma chunk_pages_appends fuel cs ov pages :
  forall acc,
  chunk_pages fuel pages cs ov acc =
  option_map (app acc) (chunk_pages fuel pages cs ov []).
Proof.
  induction pages as [|p pages IH]; intros acc; simpl.
  - now rewrite app_nil_r.
  - rewrite chunk_page_appends.
    destruct (chunk_page fuel _ _ cs ov 0 []) as [c|]; simpl; [|reflexivity].
    rewrite IH, (IH c).
    destruct (chunk_pages fuel pages cs ov []); simpl;
      [now rewrite app_assoc | reflexivity].
Qed.

Lemma chunk_pages_app fuel cs ov before after :
  forall acc,
  chunk_pages fuel (before ++ after) cs ov acc =
  match chunk_pages fuel before cs ov acc with
  | Some c => chunk_pages fuel after cs ov c
  | None => None
  end.
Proof.
  induction before as [|p before IH]; intros acc; simpl; [reflexivity|].
  destruct (chunk_page fuel _ _ cs ov 0 acc); [apply IH | reflexivity].
Qed.

(** A page whose words all fit in the first window, and whose second
    window start is already past the last word. *)
Lemma chunk_page_single_window fuel words pn cs ov acc :
  Py.len words <= cs -> Py.len words <= cs - ov -> (1 <= fuel)%nat ->
  chunk_page fuel words pn cs ov 0 acc =
  Some (acc ++
        (let joined := Py.join (Py.lit " ") words in
         if Py.len (Py.strip joined) >? 50
         then [{| chunk_text := joined; chunk_page_num := pn |}]
         else [])).
Proof.
  intros Hcs Hstep Hfuel.
  destruct fuel as [|fuel]; [lia|].
  destruct (Z_lt_le_dec 0 (Py.len words)) as [Hlt|Hge].
  - rewrite chunk_page_turn by assumption. cbv zeta.
    rewrite slice_whole by lia.
    rewrite chunk_page_exit by lia.
    destruct (Py.len _ >? 50); [reflexivity | now rewrite app_nil_r].
  - rewrite chunk_page_exit by assumption.
    assert (words = []) as -> by (apply len_nil_inv; pose proof (len_nonneg words); lia).
    simpl. now rewrite app_nil_r.
Qed.

Lemma chunk_pages_diverge fuel cs ov p pages :
  In p pages -> Py.split (text p) <> [] -> cs <= ov ->
  forall acc, chunk_pages fuel pages cs ov acc = None.
Proof.
  intros Hin Hwords Hov.
  assert (0 < Py.len (Py.split (text p))) as Hlen.
  { destruct (Py.split (text p)); [congruence | unfold Py.len; simpl; lia]. }
  induction pages as [|q pages IH]; intros acc; [destruct Hin|].
  simpl. destruct Hin as [->|Hin].
  - now rewrite chunk_page_runs_forever.
  - destruct (chunk_page fuel _ _ cs ov 0 acc); [now apply IH | reflexivity].
Qed.

Lemma chunk_pages_terminate fuel cs ov pages :
  ov < cs ->
  (forall p, In p pages -> Py.len (Py.split (text p)) <= Z.of_nat fuel) ->
  forall acc, exists out, chunk_pages fuel pages cs ov acc = Some out.
Proof.
  intros Hov. induction pages as [|p pages IH]; intros Hfuel acc; simpl.
  - now exists acc.
  - destruct (chunk_page_terminates fuel (Py.split (text p)) (page_num p)
                cs ov Hov 0 acc) as [out ->].
    + specialize (Hfuel p (or_introl eq_refl)). lia.
    + apply IH. intros q Hq. apply Hfuel. now right.
Qed.

End ChunkFacts.


(** C2 (as amended).  A page whose words fit in one window and leave no
    second window start (word count at most [chunk_size] and at most
    [chunk_size - overlap]) contributes exactly one chunk, the page's words
    joined by single spaces, when that text is longer than 50 characters
    after trimming, and no chunk otherwise; the chunks of the pages before
    and after it are unchanged around it. *)
Theorem chunk_single_window fuel before p after cs ov cb ca tr :
  Py.len (Py.split (text p)) <= cs ->
  Py.len (Py.split (text p)) <= cs - ov ->
  (1 <= fuel)%nat ->
  chunk_pages fuel before cs ov [] = Some cb ->
  chunk_pages fuel after cs ov [] = Some ca ->
  fst (chunk_text_with_pages fuel (before ++ p :: after) cs ov tr) =
  Ok (cb
      ++ (let joined := Py.join (Py.lit " ") (Py.split (text p)) in
          if Py.len (Py.strip joined) >? 50
          then [{| chunk_text := joined; chunk_page_num := page_num p |}]
          else [])
      ++ ca).
Proof.
  intros Hcs Hstep Hfuel Hb Ha.
  unfold chunk_text_with_pages.
  rewrite ChunkFacts.chunk_pages_app, Hb.
  change (chunk_pages fuel (p :: after) cs ov cb)
    with (match chunk_page fuel (Py.split (text p)) (page_num p)
                  cs ov 0 cb with
          | Some c => chunk_pages fuel after cs ov c
          | None => None
          end).
  rewrite (ChunkFacts.chunk_page_single_window fuel _ (page_num p) cs ov cb
             Hcs Hstep Hfuel).
  rewrite ChunkFacts.chunk_pages_appends, Ha. simpl.
  now rewrite <- app_assoc.
Qed.

Lemma chunk_single_window_witness :
  fst (chunk_text_with_pages 1 [Sample.two_line_page] 600 100 []) =
  Ok [{| chunk_text :=
           Py.lit "Wheat rust is treated with fungicide sprays. Apply in early spring.";
         chunk_page_num := 1 |}].
Proof.
  refine (eq_trans
            (chunk_single_window 1 [] Sample.two_line_page [] 600 100 [] [] []
               _ _ _ eq_refl eq_refl) _).
  - vm_compute. discriminate.
  - vm_compute. discriminate.
  - lia.
  - vm_compute. reflexivity.
Defined.

(** C2 as stated fails twice.  A page of 550 words fits the window of 600
    but yields two chunks, because the second window start (500) is still
    inside the page; and the chunk of a two-line page is not its trimmed
    text, because the line break has become a space. *)
Lemma chunk_single_window_counterexample :
  (Py.len (Py.split (text Sample.long_page)) <= 600 /\
   exists c1 c2,
     fst (chunk_text_with_pages 600 [Sample.long_page] 600 100 []) =
     Ok [c1; c2])
  /\
  (Py.len (Py.split (text Sample.two_line_page)) <= 600 /\
   Py.len (Py.strip (text Sample.two_line_page)) > 50 /\
   exists c,
     fst (chunk_text_with_pages 600 [Sample.two_line_page] 600 100 []) =
     Ok [c] /\
     chunk_text c <> Py.strip (text Sample.two_line_page)).
Proof.
  split; [split | split; [|split]].
  - vm_compute. discriminate.
  - eexists. eexists. vm_compute. reflexivity.
  - vm_compute. discriminate.
  - vm_compute. reflexivity.
  - eexists. split; [vm_compute; reflexivity|].
    intros H. apply (f_equal (fun s => nth 44 s 0%N)) in H.
    vm_compute in H. discriminate.
Qed.

(** C3 (the code at the failing input).  With [overlap = chunk_size] on a
    page of one word the call is not rejected and its loop never ends:
    whatever the number of turns allowed, it is still running. *)
Theorem chunk_overlap_equal_never_returns :
  forall fuel tr,
  chunk_text_with_pages fuel
    [{| text := Py.lit "soil"; page_num := 1 |}] 100 100 tr = (Diverge, tr).
Proof.
  intros fuel tr. unfold chunk_text_with_pages.
  rewrite (ChunkFacts.chunk_pages_diverge fuel 100 100
             {| text := Py.lit "soil"; page_num := 1 |}).
  - reflexivity.
  - now left.
  - vm_compute. discriminate.
  - lia.
Qed.

(** The same for every call with [overlap >= chunk_size] that reaches a
    page with at least one word. *)
Lemma chunk_overlap_not_less_never_returns fuel pages cs ov p tr :
  In p pages -> Py.split (text p) <> [] -> cs <= ov ->
  chunk_text_with_pages fuel pages cs ov tr = (Diverge, tr).
Proof.
  intros Hin Hw Hov. unfold chunk_text_with_pages.
  now rewrite (ChunkFacts.chunk_pages_diverge fuel cs ov p pages Hin Hw Hov).
Qed.

(** The second half of C3: with [overlap < chunk_size] the call returns,
    once the loop is given as many turns as the longest page has words. *)
Lemma chunk_overlap_less_returns fuel pages cs ov tr :
  ov < cs ->
  (forall p, In p pages -> Py.len (Py.split (text p)) <= Z.of_nat fuel) ->
  exists chunks,
    chunk_text_with_pages fuel pages cs ov tr =
    (Ok chunks,
     tr ++ [Log INFO (CreatedChunks (Py.len chunks) (Py.len pages))]).
Proof.
  intros Hov Hfuel. unfold chunk_text_with_pages.
  destruct (ChunkFacts.chunk_pages_terminate fuel cs ov pages Hov Hfuel [])
    as [chunks ->].
  now exists chunks.
Qed.

(** The scenario of the specification: 50 words, then 1200 words, with the
    default window of 600 and overlap of 100, give one chunk and then three
    (window starts 0, 500, 1000). *)
Example chunk_two_pages :
  option_map (List.map (fun c => (chunk_page_num c,
                                   Py.len (Py.split (chunk_text c)))))
    (chunk_pages 3
       [ {| text := Py.join (Py.lit " ") (repeat (Py.lit "soil") 50);
            page_num := 1 |};
         {| text := Py.join (Py.lit " ") (repeat (Py.lit "soil") 1200);
            page_num := 2 |} ]
       default_chunk_size default_overlap [])
  = Some [(1, 50); (2, 600); (2, 600); (2, 200)].
Proof. vm_compute. reflexivity. Qed.
(* ===================================================================== *)
(** ** The monad *)
(* ===================================================================== *)

Section MonadFacts.

Context {A B : Type}.

Lemma bind_ok (m : M A) (f : A -> M B) tr a tr' :
  m tr = (Ok a, tr') -> (m ≫= f) tr = f a tr'.
Proof. intros H. unfold mbind, M_bind. now rewrite H. Qed.

Lemma bind_raise (m : M A) (f : A -> M B) tr e tr' :
  m tr = (Raise e, tr') -> (m ≫= f) tr = (Raise e, tr').
Proof. intros H. unfold mbind, M_bind. now rewrite H. Qed.



End MonadFacts.

(** A loop whose body has no effect and cannot fail is a fold. *)
Lemma for_each_pure {A S : Type} (body : A -> S -> M S) (step : A -> S -> S)
    (l : list A) :
  (forall x s tr, In x l -> body x s tr = (Ok (step x s), tr)) ->
  forall acc tr,
  for_each l body acc tr = (Ok (fold_left (fun s x => step x s) l acc), tr).
Proof.
  induction l as [|x l IH]; intros Hbody acc tr; simpl; [reflexivity|].
  rewrite (bind_ok _ _ tr (step x acc) tr) by (apply Hbody; now left).
  apply IH. intros y s tr' Hy. apply Hbody. now right.
Qed.

Lemma fold_left_snoc {A B : Type} (f : A -> B) (l : list A) :
  forall acc, fold_left (fun s x => s ++ [f x]) l acc = acc ++ List.map f l.
Proof.
  induction l as [|x l IH]; intros acc; simpl.
  - now rewrite app_nil_r.
  - rewrite IH, <- app_assoc. reflexivity.
Qed.

(* ===================================================================== *)
(** ** UTF-8, the digest and its hexadecimal digits *)
(* ===================================================================== *)

Module EncodeFacts.

Lemma encode_char_scalar c :
  Utf8.scalar_value c = true <-> exists bs, Utf8.encode_char c = Some bs.
Proof.
  unfold Utf8.scalar_value, Utf8.encode_char. cbv zeta.
  repeat match goal with
         | |- context [Z.ltb ?a ?b] => destruct (Z.ltb_spec a b)
         | |- context [Z.leb ?a ?b] => destruct (Z.leb_spec a b)
         | |- context [N.ltb ?a ?b] => destruct (N.ltb_spec a b)
         end; simpl;
    try lia;
    (split; [intros ?; try discriminate; eauto
            | intros [bs Hbs]; try discriminate; reflexivity]).
Qed.

(** [text.encode()] succeeds exactly on sequences of scalar values. *)
Lemma encode_unicode_text s :
  Utf8.unicode_text s <-> exists data, Utf8.encode s = Some data.
Proof.
  unfold Utf8.unicode_text. induction s as [|c s IH]; simpl.
  - split; [eauto | constructor].
  - split.
    + intros H. inversion H as [|? ? Hc Hs]; subst.
      apply encode_char_scalar in Hc. destruct Hc as [bs ->].
      apply IH in Hs. destruct Hs as [rest ->]. eauto.
    + intros [data H].
      destruct (Utf8.encode_char c) as [bs|] eqn:Hc; [|discriminate].
      destruct (Utf8.encode s) as [rest|] eqn:Hs; [|discriminate].
      constructor.
      * apply encode_char_scalar. eauto.
      * apply IH. eauto.
Qed.

Lemma encode_not_unicode_text s :
  ~ Utf8.unicode_text s <-> Utf8.encode s = None.
Proof.
  rewrite encode_unicode_text. destruct (Utf8.encode s).
  - split; [intros H; exfalso; eauto | discriminate].
  - split; [reflexivity | intros _ [d Hd]; discriminate].
Qed.

End EncodeFacts.

Module DigestFacts.
Import Sha256.

(** The digests of the empty message and of [abc] are the published
    ones. *)
Example hexdigest_empty :
  hexdigest [] =
  Py.lit "e3b0c44298fc1c149afbf4c8996fb92427ae41e4649b934ca495991b7852b855".
Proof. vm_compute. reflexivity. Qed.

Example hexdigest_abc :
  hexdigest [97; 98; 99] =
  Py.lit "ba7816bf8f01cfea414140de5dae2223b00361a396177a9cb410ff61f20015ad".
Proof. vm_compute. reflexivity. Qed.

Lemma round_length st kw : length st = 8%nat -> length (round st kw) = 8%nat.
Proof.
  intros H. do 9 (destruct st as [|? st]; try discriminate H). reflexivity.
Qed.

Lemma rounds_length kws : forall st,
  length st = 8%nat -> length (fold_left round kws st) = 8%nat.
Proof.
  induction kws as [|kw kws IH]; intros st H; simpl; [assumption|].
  apply IH. now apply round_length.
Qed.

Lemma compress_length h block :
  length h = 8%nat -> length (compress h block) = 8%nat.
Proof.
  intros H. unfold compress. rewrite length_map, length_combine.
  rewrite rounds_length by assumption. rewrite H. reflexivity.
Qed.

Lemma digest_words_length msg : length (digest_words msg) = 8%nat.
Proof.
  unfold digest_words.
  generalize (blocks_of (Nat.div (Nat.div (length (pad msg)) 4) 16)
                (words_of (Nat.div (length (pad msg)) 4) (pad msg))).
  assert (length H0 = 8%nat) as Hh by reflexivity. revert Hh.
  generalize H0. intros h Hh blocks. revert h Hh.
  induction blocks as [|b blocks IH]; intros h Hh; simpl; [assumption|].
  apply IH. now apply compress_length.
Qed.

Lemma hex_digit_value d : 0 <= d <= 15 -> Hex.digit_value (hex_digit d) = Some d.
Proof.
  intros H.
  assert (d = 0 \/ d = 1 \/ d = 2 \/ d = 3 \/ d = 4 \/ d = 5 \/ d = 6 \/ d = 7
          \/ d = 8 \/ d = 9 \/ d = 10 \/ d = 11 \/ d = 12 \/ d = 13 \/ d = 14
          \/ d = 15) as Hd by lia.
  repeat (destruct Hd as [->|Hd]; [reflexivity|]). now subst.
Qed.

Lemma nibble_range x : 0 <= Z.land x 15 <= 15.
Proof.
  assert (Z.land x 15 = x mod 16) as ->.
  { change 15 with (Z.ones 4). now rewrite Z.land_ones by lia. }
  pose proof (Z.mod_pos_bound x 16). lia.
Qed.

Lemma hex_word_digits w : length (hex_word w) = 8%nat /\ Forall Hex.is_digit (hex_word w).
Proof.
  unfold hex_word. split; [now rewrite length_map|].
  apply Forall_map. apply Forall_forall. intros k _.
  eexists. split; [apply nibble_range | apply hex_digit_value, nibble_range].
Qed.

Lemma flat_map_hex ws :
  length (flat_map hex_word ws) = (8 * length ws)%nat
  /\ Forall Hex.is_digit (flat_map hex_word ws).
Proof.
  induction ws as [|w ws [IHl IHf]]; cbn [flat_map];
    [split; [reflexivity|constructor]|].
  destruct (hex_word_digits w) as [Hl Hf]. split.
  - rewrite length_app, Hl, IHl. cbn [length]. lia.
  - apply Forall_app. now split.
Qed.

(** The digest is 64 hexadecimal digits, whatever the message. *)
Lemma hexdigest_digits msg :
  Py.len (hexdigest msg) = 64 /\ Forall Hex.is_digit (hexdigest msg).
Proof.
  unfold hexdigest. destruct (flat_map_hex (digest_words msg)) as [Hl Hf].
  split; [|assumption].
  unfold Py.len. rewrite Hl, digest_words_length. reflexivity.
Qed.

End DigestFacts.

(* ===================================================================== *)
(** ** [generate_embedding] *)
(* ===================================================================== *)

Module EmbeddingFacts.

Lemma in_range n i : In i (Text.range n) <-> 0 <= i < Z.of_nat n.
Proof.
  unfold Text.range. rewrite in_map_iff. split.
  - intros [k [<- Hk]]. apply in_seq in Hk. lia.
  - intros H. exists (Z.to_nat i). split; [lia | apply in_seq; lia].
Qed.

Lemma nth_range n k d : (k < n)%nat -> nth k (Text.range n) d = Z.of_nat k.
Proof.
  intros H. unfold Text.range.
  rewrite (nth_indep _ d (Z.of_nat 0)) by now rewrite length_map, length_seq.
  rewrite map_nth, seq_nth by assumption. reflexivity.
Qed.

Lemma nth_map {A B : Type} (f : A -> B) (l : list A) n d d' :
  (n < length l)%nat -> nth n (List.map f l) d = f (nth n l d').
Proof.
  revert n. induction l as [|x l IH]; intros [|n] H; simpl in *;
    try lia; [reflexivity|]. apply IH. lia.
Qed.

(** A slice inside the list is what [firstn] and [skipn] give. *)
Lemma slice_inside {A : Type} (l : list A) lo hi :
  0 <= lo <= Py.len l -> lo <= hi ->
  Py.slice l lo hi = firstn (Z.to_nat (hi - lo)) (skipn (Z.to_nat lo) l).
Proof.
  intros Hlo Hhi. unfold Py.slice, Py.clamp.
  replace (lo <? 0) with false by (symmetry; apply Z.ltb_ge; lia).
  replace (hi <? 0) with false by (symmetry; apply Z.ltb_ge; lia).
  rewrite (Z.min_l lo) by lia.
  destruct (Z_le_gt_dec hi (Py.len l)).
  - now rewrite Z.min_l by lia.
  - rewrite Z.min_r by lia.
    rewrite !firstn_all2; [reflexivity | |];
      rewrite length_skipn; unfold Py.len in *; lia.
Qed.

Lemma slice_Forall {A : Type} (P : A -> Prop) (l : list A) lo hi :
  Forall P l -> Forall P (Py.slice l lo hi).
Proof. intros H. unfold Py.slice. now apply Forall_take, Forall_drop. Qed.

(** The window of turn [i] on a digest of 64 characters: two characters,
    except at the last position, where the slice stops at the end of the
    digest and holds one. *)
Lemma hash_window_shape h i :
  Py.len h = 64 ->
  hash_window h i = firstn 2 (skipn (Z.to_nat (i mod 64)) h)
  /\ Py.len (hash_window h i) = (if i mod 64 <? 63 then 2 else 1).
Proof.
  intros Hlen. unfold hash_window. cbv zeta. rewrite Hlen.
  pose proof (Z.mod_pos_bound i 64 ltac:(lia)) as Hk.
  split.
  - rewrite slice_inside by lia.
    now replace (i mod 64 + 2 - i mod 64) with 2 by lia.
  - rewrite slice_length by lia. rewrite Hlen.
    destruct (Z.ltb_spec (i mod 64) 63); lia.
Qed.

(** One or two hexadecimal digits are read as a number below 256, and a
    single digit as a number below 16. *)
Lemma int16_digits s :
  Forall Hex.is_digit s -> (1 <= Py.len s <= 2) ->
  exists b, Hex.int16 s = Some b /\ 0 <= b <= 255
            /\ (Py.len s = 1 -> 0 <= b <= 15).
Proof.
  intros Hs Hlen. unfold Py.len in Hlen.
  destruct s as [|c1 [|c2 [|c3 s]]]; simpl in Hlen; try lia.
  - inversion Hs as [|? ? [d1 [Hd1 E1]] _]; subst.
    exists d1. unfold Hex.int16, Hex.value_from. rewrite E1.
    split; [f_equal; lia | split; [lia | intros _; lia]].
  - inversion Hs as [|? ? [d1 [Hd1 E1]] Hs']; subst.
    inversion Hs' as [|? ? [d2 [Hd2 E2]] _]; subst.
    exists (16 * d1 + d2). unfold Hex.int16, Hex.value_from. rewrite E1, E2.
    split; [f_equal; lia | split; [lia |]].
    unfold Py.len. simpl. lia.
Qed.

Lemma hash_window_value h i :
  Py.len h = 64 -> Forall Hex.is_digit h ->
  exists b, Hex.int16 (hash_window h i) = Some b /\ 0 <= b <= 255
            /\ (i mod 64 = 63 -> 0 <= b <= 15).
Proof.
  intros Hlen Hh.
  destruct (hash_window_shape h i Hlen) as [_ Hw].
  destruct (int16_digits (hash_window h i)) as [b [Hb [Hr Hone]]].
  - unfold hash_window. now apply slice_Forall.
  - rewrite Hw. destruct (i mod 64 <? 63); lia.
  - exists b. split; [assumption | split; [assumption|]].
    intros Hk. apply Hone. rewrite Hw, Hk. reflexivity.
Qed.

(** Every byte is normalised into [-0.99, 1.01] (checked on the 256
    bytes). *)
Lemma component_range b :
  0 <= b <= 255 ->
  PrimFloat.leb (-0.99)%float (component b) = true
  /\ PrimFloat.leb (component b) 1.01%float = true.
Proof.
  intros Hb.
  assert (forallb (fun b => PrimFloat.leb (-0.99)%float (component b)
                            && PrimFloat.leb (component b) 1.01%float)
                  (Text.range 256) = true) as Hall
    by (vm_compute; reflexivity).
  rewrite forallb_forall in Hall.
  specialize (Hall b). rewrite in_range in Hall.
  apply andb_true_iff. apply Hall. lia.
Qed.

(** The fallback has no effect and depends on the text only: it raises on
    a text without UTF-8 encoding, and otherwise gives one component per
    turn, computed from the window of that turn. *)
Lemma fallback_embedding_value text data tr :
  Utf8.encode text = Some data ->
  fallback_embedding text tr =
  (Ok (List.map
         (fun i => component
                     (default 0 (Hex.int16
                                   (hash_window (Sha256.hexdigest data) i))))
         (Text.range 1024)),
   tr).
Proof.
  intros Hdata. unfold fallback_embedding. rewrite Hdata.
  destruct (DigestFacts.hexdigest_digits data) as [Hlen Hdig].
  rewrite (for_each_pure _
             (fun i s =>
                s ++ [component
                        (default 0 (Hex.int16
                                      (hash_window (Sha256.hexdigest data) i)))])).
  - now rewrite fold_left_snoc.
  - intros i s tr' _. unfold fallback_component. rewrite Hlen.
    change (64 =? 0) with false. cbv iota.
    destruct (hash_window_value _ i Hlen Hdig) as [b [-> _]].
    reflexivity.
Qed.

Lemma fallback_embedding_raises text tr :
  Utf8.encode text = None ->
  fallback_embedding text tr = (Raise UnicodeEncodeError, tr).
Proof. intros H. unfold fallback_embedding. now rewrite H. Qed.

(** The two paths of [generate_embedding]. *)
Lemma generate_embedding_success svc text tr native :
  ollama_embeddings svc tr embedding_model text = Returns native ->
  generate_embedding svc text tr =
  (let embedding :=
     if Py.len native <? 1024
     then native ++ repeat 0%float (Z.to_nat (1024 - Py.len native))
     else if Py.len native >? 1024 then Py.slice_to native 1024
     else native in
   (Ok embedding,
    tr ++ [OllamaEmbeddings embedding_model text]
       ++ [Log DEBUG (GeneratedEmbedding (Py.len embedding))])).
Proof.
  intros H. unfold generate_embedding, try_except, embeddings, call.
  unfold mbind, M_bind, log, emit, mret, M_ret. rewrite H. cbv zeta.
  now rewrite <- app_assoc.
Qed.

Lemma generate_embedding_failure svc text tr e :
  ollama_embeddings svc tr embedding_model text = Fails e ->
  generate_embedding svc text tr =
  let tr1 := tr ++ [OllamaEmbeddings embedding_model text]
                ++ [Log ERROR (EmbeddingGenerationFailed e)] in
  match fallback_embedding text tr1 with
  | (Ok embedding, _) =>
      (Ok embedding, tr1 ++ [Log WARNING UsingFallbackEmbedding])
  | (Raise e', _) => (Raise e', tr1)
  | (Diverge, _) => (Diverge, tr1)
  end.
Proof.
  intros H. unfold generate_embedding, try_except, embeddings, call.
  unfold mbind, M_bind, log, emit, mret, M_ret. rewrite H. cbv zeta.
  rewrite <- app_assoc.
  destruct (Utf8.encode text) as [data|] eqn:Hdata.
  - rewrite !(fallback_embedding_value text data) by assumption. reflexivity.
  - rewrite !fallback_embedding_raises by assumption. reflexivity.
Qed.

Lemma padded_length (native : list float) :
  Py.len (if Py.len native <? 1024
          then native ++ repeat 0%float (Z.to_nat (1024 - Py.len native))
          else if Py.len native >? 1024 then Py.slice_to native 1024
          else native) = 1024.
Proof.
  destruct (Z.ltb_spec (Py.len native) 1024).
  - rewrite len_app. unfold Py.len in *. rewrite repeat_length. lia.
  - destruct (Z.gtb_spec (Py.len native) 1024); [|lia].
    unfold Py.slice_to. rewrite slice_length by lia. lia.
Qed.

Lemma slice_to_firstn {A : Type} (l : list A) n :
  0 <= n <= Py.len l -> Py.slice_to l n = firstn (Z.to_nat n) l.
Proof.
  intros H. unfold Py.slice_to. rewrite slice_inside by lia.
  now rewrite Z.sub_0_r.
Qed.

(** The conversion of a byte value to a [float] is the exact one. *)
Lemma float_of_byte b :
  0 <= b <= 255 ->
  Text.float_of_int b = PrimFloat.of_uint63 (Uint63.of_Z b).
Proof.
  intros Hb. rewrite <- (Z2Nat.id b) by lia.
  assert (Z.to_nat b < 256)%nat as Hn by lia.
  generalize dependent (Z.to_nat b). clear. intros n Hn.
  do 256 (destruct n as [|n]; [vm_compute; reflexivity|]). lia.
Qed.

End EmbeddingFacts.


(** C1 (as amended).  When the embedding model returns a vector, whatever
    the text, [generate_embedding] returns exactly 1024 components: the
    native vector followed by zeros when it is shorter, the native vector
    itself at 1024, its first 1024 components when it is longer.  When the
    call fails and the text has a UTF-8 encoding (it is a sequence of
    Unicode scalar values), the fallback vector has exactly 1024
    components too. *)
Theorem generate_embedding_length svc text tr :
  (forall native,
     ollama_embeddings svc tr embedding_model text = Returns native ->
     exists v tr',
       generate_embedding svc text tr = (Ok v, tr') /\ Py.len v = 1024 /\
       (Py.len native < 1024 ->
        v = native ++ repeat 0%float (Z.to_nat (1024 - Py.len native))) /\
       (Py.len native = 1024 -> v = native) /\
       (Py.len native > 1024 -> v = firstn 1024 native))
  /\
  (forall e,
     ollama_embeddings svc tr embedding_model text = Fails e ->
     Utf8.unicode_text text ->
     exists v tr',
       generate_embedding svc text tr = (Ok v, tr') /\ Py.len v = 1024).
Proof.
  split.
  - intros native H.
    rewrite (EmbeddingFacts.generate_embedding_success svc text tr native H).
    cbv zeta. eexists. eexists. split; [reflexivity|].
    split; [apply EmbeddingFacts.padded_length|].
    repeat split; intros Hn.
    + now replace (Py.len native <? 1024) with true
        by (symmetry; apply Z.ltb_lt; lia).
    + replace (Py.len native <? 1024) with false
        by (symmetry; apply Z.ltb_ge; lia).
      now replace (Py.len native >? 1024) with false
        by (symmetry; rewrite Z.gtb_ltb; apply Z.ltb_ge; lia).
    + replace (Py.len native <? 1024) with false
        by (symmetry; apply Z.ltb_ge; lia).
      replace (Py.len native >? 1024) with true
        by (symmetry; rewrite Z.gtb_ltb; apply Z.ltb_lt; lia).
      apply EmbeddingFacts.slice_to_firstn. lia.
  - intros e H Htext.
    apply EncodeFacts.encode_unicode_text in Htext. destruct Htext as [data Hd].
    rewrite (EmbeddingFacts.generate_embedding_failure svc text tr e H).
    cbv zeta. rewrite (EmbeddingFacts.fallback_embedding_value text data)
      by assumption.
    eexists. eexists. split; [reflexivity|].
    unfold Py.len, Text.range. now rewrite !length_map, length_seq.
Qed.

Lemma generate_embedding_length_witness :
  (exists v tr',
     generate_embedding (Sample.online 1025 [] 0 0 []) (Py.lit "soil") []
     = (Ok v, tr') /\ Py.len v = 1024)
  /\
  (exists v tr',
     generate_embedding Sample.offline (Py.lit "soil") [] = (Ok v, tr')
     /\ Py.len v = 1024).
Proof.
  split.
  - destruct (proj1 (generate_embedding_length
                       (Sample.online 1025 [] 0 0 []) (Py.lit "soil") [])
                    (repeat 1%float 1025) eq_refl)
      as [v [tr' [H1 [H2 _]]]].
    exists v, tr'. now split.
  - apply (proj2 (generate_embedding_length Sample.offline (Py.lit "soil") [])
                 Sample.down eq_refl).
    apply EncodeFacts.encode_unicode_text. eexists. vm_compute. reflexivity.
Defined.

(** C1 as stated fails on a text that has no UTF-8 encoding (here a lone
    surrogate, U+D800): when the model call fails, [text.encode()] raises
    inside the handler and no vector is returned. *)
Lemma generate_embedding_length_counterexample :
  generate_embedding Sample.offline [55296%N] [] =
  (Raise UnicodeEncodeError,
   [ OllamaEmbeddings embedding_model [55296%N];
     Log ERROR (EmbeddingGenerationFailed Sample.down) ]).
Proof. vm_compute. reflexivity. Qed.

(** The boundary dimensions 1023, 1024 and 1025. *)
Example generate_embedding_boundaries :
  List.map
    (fun dim =>
       fst (generate_embedding (Sample.online dim [] 0 0 []) (Py.lit "soil") []))
    [1023; 1024; 1025]%nat
  = [ Ok (repeat 1%float 1023 ++ [0%float]);
      Ok (repeat 1%float 1024);
      Ok (repeat 1%float 1024) ].
Proof. vm_compute. reflexivity. Qed.



(** C9 (as amended).  For a text with UTF-8 bytes [data], component [n] of
    the fallback vector comes from the slice of the digest that starts at
    position [n mod 64] and is two characters wide: the two hexadecimal
    digits at that position and the next one, or, at position 63, the last
    digit alone (the slice stops at the end of the digest, it does not wrap
    around).  The slice is read as a number [b] in base 16 (at most 255,
    and at most 15 at position 63) and the component is
    [(b / 255.0 * 2 - 1) + 0.01], with [b] converted exactly, which lies in
    [-0.99, 1.01]. *)
Theorem fallback_component_value text data tr :
  Utf8.encode text = Some data ->
  exists v,
    fallback_embedding text tr = (Ok v, tr) /\ Py.len v = 1024 /\
    forall n, (n < 1024)%nat ->
      let k := Z.of_nat n mod 64 in
      let window := firstn 2 (skipn (Z.to_nat k) (Sha256.hexdigest data)) in
      exists b,
        Hex.int16 window = Some b
        /\ nth n v 0%float
           = (Text.float_of_int b / 255.0 * 2 - 1 + 0.01)%float
        /\ Text.float_of_int b = PrimFloat.of_uint63 (Uint63.of_Z b)
        /\ Py.len window = (if k <? 63 then 2 else 1)
        /\ 0 <= b <= 255 /\ (k = 63 -> b <= 15)
        /\ PrimFloat.leb (-0.99)%float
             (Text.float_of_int b / 255.0 * 2 - 1 + 0.01)%float = true
        /\ PrimFloat.leb (Text.float_of_int b / 255.0 * 2 - 1 + 0.01)%float
                         1.01%float = true.
Proof.
  intros Hd. eexists. split; [|split].
  - exact (EmbeddingFacts.fallback_embedding_value text data tr Hd).
  - unfold Py.len, Text.range. now rewrite !length_map, length_seq.
  - intros n Hn k window.
    destruct (DigestFacts.hexdigest_digits data) as [Hlen Hdig].
    destruct (EmbeddingFacts.hash_window_shape _ (Z.of_nat n) Hlen)
      as [Hw Hwl].
    fold k in Hw, Hwl. fold window in Hw. rewrite Hw in Hwl.
    destruct (EmbeddingFacts.hash_window_value _ (Z.of_nat n) Hlen Hdig)
      as [b [Hb [Hr Hlast]]].
    fold k in Hlast.
    exists b. split; [now rewrite <- Hw|].
    split.
    { rewrite (EmbeddingFacts.nth_map _ _ n 0%float 0)
        by (unfold Text.range; now rewrite length_map, length_seq).
      rewrite (EmbeddingFacts.nth_range 1024 n 0 Hn), Hb. reflexivity. }
    split; [now apply EmbeddingFacts.float_of_byte|].
    split; [assumption|]. split; [assumption|].
    split; [intros Hk; apply Hlast in Hk; lia|].
    exact (EmbeddingFacts.component_range b Hr).
Qed.

Lemma fallback_component_value_witness :
  exists v,
    fallback_embedding (Py.lit "abc") [] = (Ok v, [])
    /\ Py.len v = 1024
    /\ nth 0 v 0%float = (186 / 255.0 * 2 - 1 + 0.01)%float
    /\ nth 63 v 0%float = (13 / 255.0 * 2 - 1 + 0.01)%float.
Proof.
  destruct (fallback_component_value (Py.lit "abc") [97; 98; 99] [] eq_refl)
    as [v [Hv [Hlen Hn]]].
  exists v. split; [exact Hv|]. split; [exact Hlen|]. split.
  - destruct (Hn 0%nat ltac:(lia)) as [b [Hb [Hc _]]].
    vm_compute in Hb. injection Hb as <-.
    exact (eq_trans Hc eq_refl).
  - destruct (Hn 63%nat ltac:(lia)) as [b [Hb [Hc _]]].
    vm_compute in Hb. injection Hb as <-.
    exact (eq_trans Hc eq_refl).
Defined.

(** C9 as stated fails at the last position of the digest.  For the text
    [abc] the digest ends in [d] and starts with [b]: window 63 is the one
    character [d], component 63 is computed from 13, and not from the two
    characters [db] (219) that wrapping around the digest would give. *)
Lemma fallback_component_counterexample :
  exists v,
    fst (fallback_embedding (Py.lit "abc") []) = Ok v
    /\ hash_window (Sha256.hexdigest [97; 98; 99]) 63 = Py.lit "d"
    /\ nth 63 v 0%float = (13 / 255.0 * 2 - 1 + 0.01)%float
    /\ Hex.int16 [ nth 63 (Sha256.hexdigest [97; 98; 99]) 0%N;
                   nth 0 (Sha256.hexdigest [97; 98; 99]) 0%N ] = Some 219
    /\ nth 63 v 0%float <> (219 / 255.0 * 2 - 1 + 0.01)%float.
Proof.
  eexists. split; [vm_compute; reflexivity|].
  split; [vm_compute; reflexivity|].
  split; [vm_compute; reflexivity|].
  split; [vm_compute; reflexivity|].
  intros H. apply (f_equal (fun x => PrimFloat.ltb x 0%float)) in H.
  vm_compute in H. discriminate.
Qed.

(* ===================================================================== *)
(** ** Computations that end *)
(* ===================================================================== *)

Section Halting.

Context {A B : Type}.

Lemma halts_ret (a : A) : halts (mret a).
Proof. intros tr. exists tr. left. now exists a. Qed.

Lemma halts_raise (e : exn) : halts (raise e : M A).
Proof. intros tr. exists tr. right. now exists e. Qed.

Lemma halts_bind (m : M A) (f : A -> M B) :
  halts m -> (forall a, halts (f a)) -> halts (m ≫= f).
Proof.
  intros Hm Hf tr. destruct (Hm tr) as [tr1 [[a Ha]|[e He]]].
  - rewrite (bind_ok _ _ _ _ _ Ha). apply Hf.
  - rewrite (bind_raise _ _ _ _ _ He). exists tr1. right. now exists e.
Qed.

Lemma halts_call ev (answer : trace -> reply A) : halts (call ev answer).
Proof.
  intros tr. unfold call. exists (tr ++ [ev]).
  destruct (answer tr) as [a|e]; [left; now exists a | right; now exists e].
Qed.



End Halting.

Lemma halts_emit ev : halts (emit ev).
Proof. intros tr. exists (tr ++ [ev]). left. now exists tt. Qed.





(* ===================================================================== *)
(** ** [extract_entities_with_llm] *)
(* ===================================================================== *)

Module ExtractFacts.





End ExtractFacts.




(** A well-formed answer is returned as parsed. *)
Example extract_entities_parsed :
  fst (extract_entities_with_llm
         (Sample.online 768 (Py.lit "Sure: {} is all.") 0 0 [])
         Sample.rt (Py.lit "Wheat rust") [])
  = Ok (PDict []).
Proof. vm_compute. reflexivity. Qed.

(* ===================================================================== *)
(** ** [answer_question] *)
(* ===================================================================== *)

Module AnswerFacts.

(** A match whose stored text has at most 100 characters leaves the
    context and the sources as they are. *)
Lemma collect_short matches :
  Forall (fun m => Py.len (default [] (md_text m)) <= 100) matches ->
  forall acc, fold_left collect_match matches acc = acc.
Proof.
  induction 1 as [|m matches Hm _ IH]; intros acc; simpl; [reflexivity|].
  rewrite IH. unfold collect_match.
  replace (Py.len (default [] (md_text m)) >? 100) with false;
    [reflexivity|].
  symmetry. rewrite Z.gtb_ltb. apply Z.ltb_ge. exact Hm.
Qed.

(** [generate_embedding] only adds events, and none is a chat call. *)
Lemma generate_embedding_trace svc text tr :
  exists evs,
    snd (generate_embedding svc text tr) = tr ++ evs
    /\ forallb (fun ev => negb (is_chat ev)) evs = true.
Proof.
  destruct (ollama_embeddings svc tr embedding_model text) as [native|e] eqn:H.
  - rewrite (EmbeddingFacts.generate_embedding_success _ _ _ _ H).
    cbv zeta. eexists. split; [reflexivity|reflexivity].
  - rewrite (EmbeddingFacts.generate_embedding_failure _ _ _ _ H).
    cbv zeta.
    destruct (fallback_embedding text _) as [[v|e'|] tr1]; simpl.
    + rewrite <- !app_assoc. eexists. split; reflexivity.
    + eexists. split; reflexivity.
    + eexists. split; reflexivity.
Qed.

Lemma forallb_app' {A : Type} (f : A -> bool) l1 l2 :
  forallb f l1 = true -> forallb f l2 = true -> forallb f (l1 ++ l2) = true.
Proof. intros H1 H2. rewrite forallb_app, H1, H2. reflexivity. Qed.

(** So does [query_vector_search]. *)
Lemma query_vector_search_trace svc query top_k tr :
  exists evs,
    snd (query_vector_search svc query top_k tr) = tr ++ evs
    /\ forallb (fun ev => negb (is_chat ev)) evs = true.
Proof.
  destruct (generate_embedding_trace svc query tr) as [evs [Htr Hno]].
  unfold query_vector_search, mbind, M_bind.
  destruct (generate_embedding svc query tr) as [[v|e|] tr1];
    simpl in Htr; subst tr1.
  - unfold call. exists (evs ++ [PineconeQuery v top_k]).
    rewrite app_assoc.
    split; [destruct (pinecone_query svc _ v top_k); reflexivity|].
    now apply forallb_app'.
  - now exists evs.
  - now exists evs.
Qed.

End AnswerFacts.


(** C5.  When the vector search returns matches none of which has a
    stored text longer than 100 characters, [answer_question] returns the
    fixed message, and the trace is the one the search left: the events
    added since the call are those of the search, and no chat call is
    among them. *)
Theorem answer_question_no_context svc rt question tr matches tr1 :
  query_vector_search svc question 10 tr = (Ok matches, tr1) ->
  Forall (fun m => Py.len (default [] (md_text m)) <= 100) matches ->
  answer_question svc rt question tr = (Ok not_found_message, tr1)
  /\ exists evs,
       tr1 = tr ++ evs /\ forallb (fun ev => negb (is_chat ev)) evs = true.
Proof.
  intros Hsearch Hshort. split.
  - unfold answer_question.
    rewrite (bind_ok _ _ _ _ _ Hsearch).
    rewrite (AnswerFacts.collect_short matches Hshort). reflexivity.
  - destruct (AnswerFacts.query_vector_search_trace svc question 10 tr)
      as [evs [Htr Hno]].
    rewrite Hsearch in Htr. now exists evs.
Qed.

Lemma answer_question_no_context_witness :
  answer_question
    (Sample.online 768 (Py.lit "unused") 0 0
       [ {| md_text := Some (Py.lit "UOT 633.1");
            md_original_filename := Some (Py.lit "wheat.pdf");
            md_doc_id := None; md_page_num := Some 1 |};
         {| md_text := None; md_original_filename := None;
            md_doc_id := None; md_page_num := None |} ])
    Sample.rt (Py.lit "What treats wheat rust?") []
  = (Ok not_found_message,
     [ OllamaEmbeddings embedding_model (Py.lit "What treats wheat rust?");
       Log DEBUG (GeneratedEmbedding 1024);
       PineconeQuery (repeat 1%float 768 ++ repeat 0%float 256) 10 ]).
Proof.
  refine (proj1 (answer_question_no_context _ Sample.rt _ [] _ _ _ _)).
  - vm_compute. reflexivity.
  - repeat constructor; vm_compute; discriminate.
Defined.

(** With a qualifying text the language model is called. *)
Example answer_question_with_context :
  let long_text := Py.join (Py.lit " ") (repeat (Py.lit "fungicide") 12) in
  let svc :=
    Sample.online 768 (Py.lit "Fungicide sprays in early spring.") 0 0
      [ {| md_text := Some long_text;
           md_original_filename := Some (Py.lit "wheat.pdf");
           md_doc_id := None; md_page_num := Some 3 |} ] in
  fst (answer_question svc Sample.rt (Py.lit "What treats wheat rust?") [])
  = Ok (Py.lit "Fungicide sprays in early spring." ++ Text.nl ++ Text.nl
        ++ sources_heading ++ Py.lit "wheat.pdf (" ++ page_prefix
        ++ Py.lit "3)")
  /\ existsb is_chat
       (snd (answer_question svc Sample.rt
               (Py.lit "What treats wheat rust?") [])) = true.
Proof. split; vm_compute; reflexivity. Qed.

(* ===================================================================== *)
(** ** Labels of the graph schema *)
(* ===================================================================== *)

Module LabelFacts.

Lemma contains_char_In c s : Py.contains_char c s = false <-> ~ In c s.
Proof.
  unfold Py.contains_char. induction s as [|d s IH]; simpl.
  - split; [intros _ [] | reflexivity].
  - rewrite orb_false_iff, IH, N.eqb_neq. split.
    + intros [Hd Hs] [->|Hin]; [now apply Hd | now apply Hs].
    + intros H. split; [intros -> | intros Hin]; apply H; [now left | now right].
Qed.

Lemma lstrip_In c s : In c (Py.lstrip s) -> In c s.
Proof.
  induction s as [|d s IH]; simpl; [trivial|].
  destruct (Py.isspace d); [intros H; right; now apply IH | trivial].
Qed.

Lemma strip_In c s : In c (Py.strip s) -> In c s.
Proof.
  unfold Py.strip, Py.rstrip. intros H.
  apply lstrip_In. apply in_rev. apply lstrip_In. now apply in_rev in H.
Qed.

(** The first piece of [split(sep)] holds no separator. *)
Lemma split_on_first sep s :
  forall cur, ~ In sep cur ->
  ~ In sep (hd [] (Py.split_on_from sep cur s)).
Proof.
  induction s as [|c s IH]; intros cur Hcur; simpl; [assumption|].
  destruct (N.eqb_spec c sep) as [->|Hne]; simpl; [assumption|].
  apply IH. intros Hin. apply in_app_or in Hin.
  destruct Hin as [Hin|[->|[]]]; [now apply Hcur | now apply Hne].
Qed.

(** [split(sep)] on a text whose first separator comes after [first]. *)
Lemma split_on_cut sep first rest :
  ~ In sep first ->
  forall cur,
  Py.split_on_from sep cur (first ++ sep :: rest)
  = (cur ++ first) :: Py.split_on_from sep [] rest.
Proof.
  induction first as [|c first IH]; intros Hno cur; simpl.
  - now rewrite N.eqb_refl, app_nil_r.
  - destruct (N.eqb_spec c sep) as [E|Hne];
      [exfalso; apply Hno; now left|].
    rewrite IH by (intros Hin; apply Hno; now right).
    now rewrite <- app_assoc.
Qed.

Lemma contains_char_middle c first rest :
  Py.contains_char c (first ++ c :: rest) = true.
Proof.
  unfold Py.contains_char. rewrite existsb_app. simpl.
  now rewrite N.eqb_refl, orb_true_r.
Qed.

Lemma replace_In a b s d :
  In d (Py.replace a b s) -> (d = b /\ In a s) \/ (d <> a /\ In d s).
Proof.
  unfold Py.replace. rewrite in_map_iff. intros [c [Hc Hin]].
  destruct (N.eqb_spec c a) as [E|Hne]; subst.
  - left. now split.
  - right. now split.
Qed.

(** What [upper] needs of the character table: the upper case of a
    character beyond ASCII holds neither a space nor a pipe. *)
Lemma upper_In (db : Text.ucd) s d :
  (forall c x, Text.ascii c = false -> In x (Text.ucd_upper db c) ->
     x <> space /\ x <> pipe) ->
  ~ In space s -> ~ In pipe s ->
  In d (Text.upper db s) -> d <> space /\ d <> pipe.
Proof.
  intros Hdb Hsp Hpi. unfold Text.upper. rewrite in_flat_map.
  intros [c [Hc Hd]].
  destruct (Text.ascii c) eqn:Hascii; [|now apply (Hdb c)].
  destruct Hd as [<-|[]].
  assert (c <> space) by (intros ->; now apply Hsp).
  assert (c <> pipe) by (intros ->; now apply Hpi).
  unfold Text.ascii_lower_letter, space, pipe in *.
  destruct (N.leb_spec 97 c); destruct (N.leb_spec c 122); simpl;
    split; lia.
Qed.

End LabelFacts.


(** C6 (as amended).  What the two sanitizers guarantee.  The label of an
    entity is never empty, starts with a letter and holds no pipe; a type
    that has no pipe and starts with a letter is used as it is, whatever
    its other characters.  A type that holds a pipe is cut before its
    first pipe and trimmed: the label is that first alternative when it
    starts with a letter.  In every other case (no type, an empty type, a
    type or a first alternative that is empty or does not start with a
    letter) the label is [Entity].  The type of a relationship, given a character
    table whose upper-case mappings introduce no space and no pipe, holds
    no space and no pipe and has at least 2 characters: it is the
    upper-cased text with spaces and pipes replaced by underscores, or
    [RELATED_TO] when that text is shorter than 2 characters. *)
Theorem labels_sanitized rt :
  (forall e,
     (exists c r, entity_label rt e = c :: r
                  /\ Text.isalpha (unicode rt) c = true)
     /\ Py.contains_char pipe (entity_label rt e) = false
     /\ (forall c r,
           e_type e = Some (c :: r) ->
           Py.contains_char pipe (c :: r) = false ->
           Text.isalpha (unicode rt) c = true ->
           entity_label rt e = c :: r)
     /\ (forall first rest,
           e_type e = Some (first ++ pipe :: rest) ->
           Py.contains_char pipe first = false ->
           entity_label rt e =
           match Py.strip first with
           | c :: r =>
               if Text.isalpha (unicode rt) c then c :: r
               else Py.lit "Entity"
           | [] => Py.lit "Entity"
           end)
     /\ (e_type e = None \/ e_type e = Some [] ->
         entity_label rt e = Py.lit "Entity")
     /\ (forall c r,
           e_type e = Some (c :: r) ->
           Py.contains_char pipe (c :: r) = false ->
           Text.isalpha (unicode rt) c = false ->
           entity_label rt e = Py.lit "Entity"))
  /\
  ((forall c x, Text.ascii c = false ->
      In x (Text.ucd_upper (unicode rt) c) -> x <> space /\ x <> pipe) ->
   forall rel,
     Py.contains_char space (relationship_label rt rel) = false
     /\ Py.contains_char pipe (relationship_label rt rel) = false
     /\ 2 <= Py.len (relationship_label rt rel)
     /\ relationship_label rt rel =
        (let upper_cased :=
           Text.upper (unicode rt)
             (Py.replace pipe underscore
                (Py.replace space underscore (r_type rel))) in
         if Py.len upper_cased <? 2 then Py.lit "RELATED_TO"
         else upper_cased)).
Proof.
  split.
  - intros e. unfold entity_label. cbv zeta.
    set (t := default (Py.lit "Entity") (e_type e)).
    split; [|split; [|split; [|split; [|split]]]].
    + destruct (if Py.contains_char pipe t then _ else _) as [|c r];
        [eexists; eexists; split; reflexivity|].
      destruct (Text.isalpha (unicode rt) c) eqn:Hc.
      * exists c, r. now split.
      * eexists. eexists. split; reflexivity.
    + assert (Py.contains_char pipe
                (if Py.contains_char pipe t
                 then Py.strip (hd [] (Py.split_on pipe t)) else t) = false)
        as Hno.
      { destruct (Py.contains_char pipe t) eqn:Hp; [|assumption].
        apply LabelFacts.contains_char_In. intros Hin.
        apply LabelFacts.strip_In in Hin.
        apply (LabelFacts.split_on_first pipe t []) in Hin; [trivial|].
        intros []. }
      destruct (if Py.contains_char pipe t then _ else _) as [|c r];
        [reflexivity|].
      destruct (Text.isalpha (unicode rt) c); [assumption | reflexivity].
    + intros c r Ht Hp Hc. subst t. rewrite Ht. simpl default.
      rewrite Hp, Hc. reflexivity.
    + intros first rest Ht Hp. subst t. rewrite Ht. simpl default.
      rewrite LabelFacts.contains_char_middle. unfold Py.split_on.
      rewrite (LabelFacts.split_on_cut pipe first rest)
        by (now apply LabelFacts.contains_char_In).
      cbn [hd app]. destruct (Py.strip first); reflexivity.
    + intros [Ht|Ht]; subst t; rewrite Ht; reflexivity.
    + intros c r Ht Hp Hc. subst t. rewrite Ht. simpl default.
      rewrite Hp, Hc. reflexivity.
  - intros Hdb rel. unfold relationship_label. cbv zeta.
    set (u := Text.upper (unicode rt) _).
    assert (forall d, In d u -> d <> space /\ d <> pipe) as Hu.
    { intros d Hd. subst u.
      refine (LabelFacts.upper_In (unicode rt) _ d Hdb _ _ Hd).
      - intros Hin. apply LabelFacts.replace_In in Hin.
        destruct Hin as [[Heq _]|[_ Hin]]; [discriminate Heq|].
        apply LabelFacts.replace_In in Hin.
        destruct Hin as [[Heq _]|[Hne _]]; [discriminate Heq | now apply Hne].
      - intros Hin. apply LabelFacts.replace_In in Hin.
        destruct Hin as [[Heq _]|[Hne _]]; [discriminate Heq | now apply Hne]. }
    assert ((Py.len u =? 0) || (Py.len u <? 2) = (Py.len u <? 2)) as ->.
    { destruct (Z.eqb_spec (Py.len u) 0) as [E|_]; [|reflexivity].
      rewrite E. reflexivity. }
    destruct (Z.ltb_spec (Py.len u) 2) as [Hlt|Hge].
    + repeat split; reflexivity || (vm_compute; discriminate).
    + split; [|split; [|split; [assumption | reflexivity]]];
        apply LabelFacts.contains_char_In; intros Hin;
        destruct (Hu _ Hin) as [H1 H2]; congruence.
Qed.

Lemma labels_sanitized_witness :
  Py.contains_char space
    (relationship_label Sample.rt
       {| r_from := Py.lit "fungicide"; r_to := Py.lit "wheat rust";
          r_type := Py.lit "is used|against" |}) = false
  /\ entity_label Sample.rt
       {| e_name := Py.lit "wheat rust"; e_type := Some (Py.lit "Disease");
          e_description := None |} = Py.lit "Disease"
  /\ entity_label Sample.rt
       {| e_name := Py.lit "wheat rust";
          e_type := Some (Py.lit " Disease |Crop|Chemical");
          e_description := None |} = Py.lit "Disease"
  /\ entity_label Sample.rt
       {| e_name := Py.lit "wheat rust"; e_type := Some (Py.lit "|Crop");
          e_description := None |} = Py.lit "Entity"
  /\ entity_label Sample.rt
       {| e_name := Py.lit "wheat rust"; e_type := Some (Py.lit "2nd crop");
          e_description := None |} = Py.lit "Entity".
Proof.
  split; [|split; [|split; [|split]]].
  - refine (proj1 (proj2 (labels_sanitized Sample.rt) _ _)).
    intros c x Hc [<-|[]]. unfold Text.ascii, space, pipe in *.
    apply N.ltb_ge in Hc. split; lia.
  - refine (proj1 (proj2 (proj2 (proj1 (labels_sanitized Sample.rt)
              {| e_name := Py.lit "wheat rust";
                 e_type := Some (Py.lit "Disease");
                 e_description := None |})))
              68%N (Py.lit "isease") eq_refl _ _); vm_compute; reflexivity.
  - refine (eq_trans
              (proj1 (proj2 (proj2 (proj2 (proj1 (labels_sanitized Sample.rt)
                 {| e_name := Py.lit "wheat rust";
                    e_type := Some (Py.lit " Disease |Crop|Chemical");
                    e_description := None |}))))
                 (Py.lit " Disease ") (Py.lit "Crop|Chemical") eq_refl _) _);
      vm_compute; reflexivity.
  - refine (eq_trans
              (proj1 (proj2 (proj2 (proj2 (proj1 (labels_sanitized Sample.rt)
                 {| e_name := Py.lit "wheat rust";
                    e_type := Some (Py.lit "|Crop");
                    e_description := None |}))))
                 [] (Py.lit "Crop") eq_refl _) _);
      vm_compute; reflexivity.
  - refine (proj2 (proj2 (proj2 (proj2 (proj2 (proj1
              (labels_sanitized Sample.rt)
              {| e_name := Py.lit "wheat rust";
                 e_type := Some (Py.lit "2nd crop");
                 e_description := None |})))))
              50%N (Py.lit "nd crop") eq_refl _ _); vm_compute; reflexivity.
Defined.

(** C6 as stated fails: a type that holds a space or a hyphen goes into
    the query text as the model wrote it (upper-cased for a relationship),
    although it is not a name that Cypher accepts without escaping.  This
    holds for every character table. *)
Lemma labels_sanitized_counterexample :
  (forall rt,
     entity_label rt
       {| e_name := Py.lit "wheat rust";
          e_type := Some (Py.lit "Plant Disease");
          e_description := None |} = Py.lit "Plant Disease")
  /\ plain_name (Py.lit "Plant Disease") = false
  /\ (forall rt,
        relationship_label rt
          {| r_from := Py.lit "wheat"; r_to := Py.lit "loam";
             r_type := Py.lit "grows-in" |} = Py.lit "GROWS-IN")
  /\ plain_name (Py.lit "GROWS-IN") = false.
Proof.
  split; [|split; [|split]].
  - intros rt. vm_compute. reflexivity.
  - vm_compute. reflexivity.
  - intros rt. vm_compute. reflexivity.
  - vm_compute. reflexivity.
Qed.

(** The cases the sanitizers handle. *)
Example labels_handled :
  List.map (fun t => entity_label Sample.rt
                       {| e_name := []; e_type := t; e_description := None |})
    [ Some (Py.lit "Crop|Disease|Technique|Chemical"); Some (Py.lit " Crop ");
      Some []; Some (Py.lit "1st"); None ]
  = [ Py.lit "Crop"; Py.lit "Entity"; Py.lit "Entity"; Py.lit "Entity";
      Py.lit "Entity" ]
  /\ List.map (fun t => relationship_label Sample.rt
                          {| r_from := []; r_to := []; r_type := t |})
       [ Py.lit "treats"; Py.lit "TREATS|AFFECTS"; Py.lit "is part of";
         Py.lit "x"; [] ]
     = [ Py.lit "TREATS"; Py.lit "TREATS_AFFECTS"; Py.lit "IS_PART_OF";
         Py.lit "RELATED_TO"; Py.lit "RELATED_TO" ].
Proof. split; vm_compute; reflexivity. Qed.

(* ===================================================================== *)
(** ** [store_in_neo4j] *)
(* ===================================================================== *)

Module StoreFacts.

(** One relationship: it always returns; it adds no event when an endpoint
    is unresolved, and otherwise its query, followed by a warning when the
    query fails. *)
Lemma store_relationship_events (svc : services) (rt : runtime)
    (entity_ids : gmap Py.str pyval) (rel : relationship) (tr : trace) :
  exists evs,
    store_relationship svc rt entity_ids rel tt tr = (Ok tt, tr ++ evs)
    /\ List.filter is_run evs =
       (if Dyn.truthy (default PNone (entity_ids !! r_from rel))
           && Dyn.truthy (default PNone (entity_ids !! r_to rel))
        then [ Neo4jRun
                 (merge_relationship_query (relationship_label rt rel))
                 [ (Py.lit "from_id", default PNone (entity_ids !! r_from rel));
                   (Py.lit "to_id", default PNone (entity_ids !! r_to rel)) ] ]
        else []).
Proof.
  unfold store_relationship. cbv zeta.
  destruct (Dyn.truthy _ && Dyn.truthy _).
  - unfold try_except, run, call, mbind, M_bind, log, emit, mret, M_ret.
    destruct (neo4j_run svc tr _ _) as [records|e].
    + eexists. split; reflexivity.
    + eexists. split; [now rewrite <- app_assoc | reflexivity].
  - exists []. split; [now rewrite app_nil_r | reflexivity].
Qed.

End StoreFacts.


(** C7.  A relationship with an endpoint name that is absent from the
    name-to-id mapping is skipped in silence: the step returns and leaves
    the trace as it was (no query, no log line, no exception).  And the
    loop over the relationships never raises, whatever the graph store
    answers: the queries it runs are exactly those of the relationships
    whose two endpoints are resolved, one each and in order, also after
    a query has failed. *)
Theorem relationships_skipped_not_fatal (svc : services) (rt : runtime)
    (entity_ids : gmap Py.str pyval) :
  (forall rel tr,
     entity_ids !! r_from rel = None \/ entity_ids !! r_to rel = None ->
     store_relationship svc rt entity_ids rel tt tr = (Ok tt, tr))
  /\
  (forall relationships tr,
     exists evs,
       for_each relationships (store_relationship svc rt entity_ids) tt tr
       = (Ok tt, tr ++ evs)
       /\ List.filter is_run evs =
          List.map
            (fun rel =>
               Neo4jRun
                 (merge_relationship_query (relationship_label rt rel))
                 [ (Py.lit "from_id",
                    default PNone (entity_ids !! r_from rel));
                   (Py.lit "to_id",
                    default PNone (entity_ids !! r_to rel)) ])
            (List.filter
               (fun rel =>
                  Dyn.truthy (default PNone (entity_ids !! r_from rel))
                  && Dyn.truthy (default PNone (entity_ids !! r_to rel)))
               relationships)).
Proof.
  split.
  - intros rel tr H. unfold store_relationship. cbv zeta.
    destruct H as [-> | ->]; simpl; [reflexivity|].
    now rewrite andb_false_r.
  - induction relationships as [|rel rels IH]; intros tr.
    + exists []. split; [simpl; now rewrite app_nil_r | reflexivity].
    + destruct (StoreFacts.store_relationship_events svc rt entity_ids rel tr)
        as [evs1 [H1 F1]].
      destruct (IH (tr ++ evs1)) as [evs2 [H2 F2]].
      exists (evs1 ++ evs2). split.
      * simpl for_each. rewrite (bind_ok _ _ _ _ _ H1), H2.
        now rewrite app_assoc.
      * rewrite List.filter_app, F1, F2. simpl List.filter.
        destruct (Dyn.truthy _ && Dyn.truthy _); reflexivity.
Qed.

Lemma relationships_skipped_not_fatal_witness :
  store_relationship Sample.no_edges Sample.rt
    {[ Py.lit "fungicide" := PStr (Py.lit "4:0") ]}
    {| r_from := Py.lit "fungicide"; r_to := Py.lit "barley";
       r_type := Py.lit "treats" |} tt []
  = (Ok tt, []).
Proof.
  apply (proj1 (relationships_skipped_not_fatal Sample.no_edges Sample.rt
                  {[ Py.lit "fungicide" := PStr (Py.lit "4:0") ]})).
  right. vm_compute. reflexivity.
Defined.

(** A whole batch against a graph store that refuses every edge: the
    first relationship is tried and its failure logged, the second has an
    unknown endpoint and leaves no event, the third is tried all the same,
    and the call returns. *)
Example store_in_neo4j_batch :
  let entities :=
    [ {| e_name := Py.lit "fungicide"; e_type := Some (Py.lit "Chemical");
         e_description := None |};
      {| e_name := Py.lit "rust"; e_type := Some (Py.lit "Plant Disease");
         e_description := Some (Py.lit "fungal") |} ] in
  let relationships :=
    [ {| r_from := Py.lit "fungicide"; r_to := Py.lit "rust";
         r_type := Py.lit "treats" |};
      {| r_from := Py.lit "fungicide"; r_to := Py.lit "barley";
         r_type := Py.lit "protects" |};
      {| r_from := Py.lit "rust"; r_to := Py.lit "fungicide";
         r_type := Py.lit "" |} ] in
  let ids := [ (Py.lit "from_id", PStr (Py.lit "4:0"));
               (Py.lit "to_id", PStr (Py.lit "4:0")) ] in
  store_in_neo4j Sample.no_edges Sample.rt entities relationships []
  = (Ok tt,
     [ Neo4jSession;
       Neo4jRun (merge_node_query (Py.lit "Chemical"))
         [ (Py.lit "name", PStr (Py.lit "fungicide"));
           (Py.lit "description", PStr []) ];
       Neo4jRun (merge_node_query (Py.lit "Plant Disease"))
         [ (Py.lit "name", PStr (Py.lit "rust"));
           (Py.lit "description", PStr (Py.lit "fungal")) ];
       Neo4jRun (merge_relationship_query (Py.lit "TREATS")) ids;
       Log WARNING (CouldNotCreateRelationship (Py.lit "TREATS") Sample.down);
       Neo4jRun (merge_relationship_query (Py.lit "RELATED_TO")) ids;
       Log WARNING
         (CouldNotCreateRelationship (Py.lit "RELATED_TO") Sample.down);
       Log INFO (StoredEntities 2 3);
       Neo4jClose ]).
Proof. vm_compute. reflexivity. Qed.

(* ===================================================================== *)
(** ** [get_statistics] *)
(* ===================================================================== *)

Module StatisticsFacts.


Lemma halts_field record k : halts (field record k).
Proof.
  unfold field. destruct record as [r|]; [|apply halts_raise].
  destruct (Dyn.assoc k r); [apply halts_ret | apply halts_raise].
Qed.


Lemma bind_inv {A B : Type} (m : M A) (f : A -> M B) tr b tr' :
  (m ≫= f) tr = (Ok b, tr') ->
  exists a tr1, m tr = (Ok a, tr1) /\ f a tr1 = (Ok b, tr').
Proof.
  unfold mbind, M_bind. destruct (m tr) as [[a|e|] tr1]; intros H;
    try discriminate H. now exists a, tr1.
Qed.




End StatisticsFacts.




(** Genuine statistics, and a result without records ([single()] is
    [None]), which ends in the fixed record as well. *)
Example get_statistics_genuine :
  fst (get_statistics (Sample.online 768 [] 120 35 [Sample.heading_match]) [])
  = Ok {| neo4j_nodes := PInt 120; neo4j_relationships := PInt 35;
          pinecone_vectors := PInt 1 |}.
Proof. vm_compute. reflexivity. Qed.

(* ===================================================================== *)
(** * Further properties *)
(* ===================================================================== *)

(* ===================================================================== *)
(** ** More on [strip], [split] and [join] *)
(* ===================================================================== *)

Module StripFacts.

Lemma lstrip_head s c r : Py.lstrip s = c :: r -> Py.isspace c = false.
Proof.
  induction s as [|d s IH]; simpl; [discriminate|].
  destruct (Py.isspace d) eqn:Hd; [exact IH|].
  intros H. injection H as -> _. exact Hd.
Qed.

Lemma lstrip_snoc l c :
  Py.isspace c = false -> Py.lstrip (l ++ [c]) = Py.lstrip l ++ [c].
Proof.
  intros Hc. induction l as [|d l IH]; simpl.
  - now rewrite Hc.
  - destruct (Py.isspace d); [exact IH | reflexivity].
Qed.

Lemma rstrip_cons c s :
  Py.isspace c = false -> Py.rstrip (c :: s) = c :: Py.rstrip s.
Proof.
  intros Hc. unfold Py.rstrip. simpl rev.
  rewrite lstrip_snoc by assumption. rewrite rev_app_distr. reflexivity.
Qed.

Lemma rstrip_snoc r d :
  Py.isspace d = false -> Py.rstrip (r ++ [d]) = r ++ [d].
Proof.
  intros Hd. unfold Py.rstrip. rewrite rev_app_distr. simpl.
  rewrite Hd. simpl. now rewrite rev_involutive.
Qed.

(** A string that starts and ends with a character that is no
    whitespace is its own trimmed form. *)
Lemma strip_id c r d r' :
  c :: r = r' ++ [d] -> Py.isspace c = false -> Py.isspace d = false ->
  Py.strip (c :: r) = c :: r.
Proof.
  intros E Hc Hd. unfold Py.strip. simpl. rewrite Hc.
  rewrite E. now apply rstrip_snoc.
Qed.

(** What [strip] returns is empty or starts and ends with a character
    that is no whitespace. *)
Lemma strip_ends s :
  Py.strip s = []
  \/ exists c r d r', Py.strip s = c :: r /\ c :: r = r' ++ [d]
                      /\ Py.isspace c = false /\ Py.isspace d = false.
Proof.
  unfold Py.strip. destruct (Py.lstrip s) as [|c t] eqn:Ht; [now left|].
  right. pose proof (lstrip_head _ _ _ Ht) as Hc.
  rewrite rstrip_cons by assumption.
  unfold Py.rstrip.
  destruct (Py.lstrip (rev t)) as [|d y] eqn:Hy.
  - exists c, [], c, []. simpl. repeat split; assumption.
  - pose proof (lstrip_head _ _ _ Hy) as Hd.
    exists c, (rev (d :: y)), d, (c :: rev y). simpl.
    repeat split; assumption.
Qed.

Lemma strip_idempotent s : Py.strip (Py.strip s) = Py.strip s.
Proof.
  destruct (strip_ends s) as [-> | [c [r [d [r' [-> [E [Hc Hd]]]]]]]];
    [reflexivity|].
  now apply (strip_id c r d r').
Qed.

(** The words of [split()] are not empty and hold no whitespace. *)
Lemma split_from_words s :
  forall cur,
  Forall (fun c => Py.isspace c = false) cur ->
  Forall (fun w => w <> [] /\ Forall (fun c => Py.isspace c = false) w)
         (Py.split_from cur s).
Proof.
  induction s as [|c s IH]; intros cur Hcur; simpl.
  - destruct cur; constructor; [|constructor]. split; [discriminate|assumption].
  - destruct (Py.isspace c) eqn:Hc.
    + destruct cur as [|x cur]; [apply IH; constructor|].
      constructor; [split; [discriminate|assumption] | apply IH; constructor].
    + apply IH. apply Forall_app. split; [assumption|].
      constructor; [assumption | constructor].
Qed.

Lemma split_words s :
  Forall (fun w => w <> [] /\ Forall (fun c => Py.isspace c = false) w)
         (Py.split s).
Proof. apply split_from_words. constructor. Qed.

Lemma join_head sep w ws c w' :
  w = c :: w' -> exists r, Py.join sep (w :: ws) = c :: r.
Proof. intros ->. destruct ws; simpl; eauto. Qed.

Lemma join_last sep ws :
  forall w w' d, w = w' ++ [d] ->
  exists r, Py.join sep (ws ++ [w]) = r ++ [d].
Proof.
  induction ws as [|x ws IH]; intros w w' d ->; simpl.
  - now exists w'.
  - destruct (IH (w' ++ [d]) w' d eq_refl) as [r Hr].
    destruct (ws ++ [w' ++ [d]]) eqn:E.
    + destruct ws; discriminate E.
    + rewrite Hr. exists (x ++ sep ++ r). now rewrite <- !app_assoc.
Qed.

(** Words joined by a separator have no whitespace at either end. *)
Lemma strip_join sep ws :
  Forall (fun w => w <> [] /\ Forall (fun c => Py.isspace c = false) w) ws ->
  Py.strip (Py.join sep ws) = Py.join sep ws.
Proof.
  intros Hws. destruct ws as [|w ws]; [reflexivity|].
  assert (exists c w', w = c :: w' /\ Py.isspace c = false) as [c [w' [Hw Hc]]].
  { inversion Hws as [|? ? [Hne Hall] _]; subst.
    destruct w as [|c w']; [congruence|].
    exists c, w'. split; [reflexivity|]. now inversion Hall. }
  destruct (exists_last (l := w :: ws) ltac:(discriminate)) as [init [z Hz]].
  assert (exists z' d, z = z' ++ [d] /\ Py.isspace d = false)
    as [z' [d [Hzd Hd]]].
  { assert (In z (w :: ws)) as Hin by (rewrite Hz; apply in_or_app; right; now left).
    rewrite List.Forall_forall in Hws. destruct (Hws z Hin) as [Hne Hall].
    destruct (exists_last Hne) as [z' [d ->]].
    exists z', d. split; [reflexivity|].
    rewrite List.Forall_forall in Hall. apply Hall. apply in_or_app. right. now left. }
  destruct (join_head sep w ws c w' Hw) as [r Hr].
  destruct (join_last sep init z z' d Hzd) as [r' Hr'].
  rewrite <- Hz in Hr'. rewrite Hr in *.
  now apply (strip_id c r d r').
Qed.

End StripFacts.

(* ===================================================================== *)
(** ** More on [chunk_text_with_pages] *)
(* ===================================================================== *)

Module ChunkMore.

(** A property of the chunk of every window that passes the length test
    holds of every chunk the loop adds. *)
Lemma chunk_page_invariant (P : chunk -> Prop) words pn cs ov :
  (forall i,
     (Py.len (Py.strip (Py.join (Py.lit " ") (Py.slice words i (i + cs))))
        >? 50) = true ->
     P {| chunk_text := Py.join (Py.lit " ") (Py.slice words i (i + cs));
          chunk_page_num := pn |}) ->
  forall fuel i acc out,
  chunk_page fuel words pn cs ov i acc = Some out ->
  Forall P acc -> Forall P out.
Proof.
  intros HP. induction fuel as [|fuel IH]; intros i acc out H Hacc.
  - destruct (Z_lt_le_dec i (Py.len words)).
    + now rewrite ChunkFacts.chunk_page_spent in H.
    + rewrite ChunkFacts.chunk_page_exit in H by assumption.
      now injection H as <-.
  - destruct (Z_lt_le_dec i (Py.len words)).
    + rewrite ChunkFacts.chunk_page_turn in H by assumption. cbv zeta in H.
      apply IH in H; [assumption|].
      destruct (Py.len _ >? 50) eqn:Hlen; [|assumption].
      apply Forall_app. split; [assumption|].
      constructor; [now apply HP | constructor].
    + rewrite ChunkFacts.chunk_page_exit in H by assumption.
      now injection H as <-.
Qed.

Lemma chunk_pages_invariant (P : chunk -> Prop) fuel cs ov pages :
  (forall p i,
     In p pages ->
     (Py.len (Py.strip (Py.join (Py.lit " ")
                          (Py.slice (Py.split (text p)) i (i + cs))))
        >? 50) = true ->
     P {| chunk_text :=
            Py.join (Py.lit " ") (Py.slice (Py.split (text p)) i (i + cs));
          chunk_page_num := page_num p |}) ->
  forall acc out,
  chunk_pages fuel pages cs ov acc = Some out ->
  Forall P acc -> Forall P out.
Proof.
  induction pages as [|p pages IH]; intros HP acc out H Hacc; simpl in H.
  - now injection H as <-.
  - destruct (chunk_page fuel _ _ cs ov 0 acc) as [acc'|] eqn:Hp;
      [|discriminate].
    apply (IH (fun q i Hq => HP q i (or_intror Hq)) acc' out H).
    apply (chunk_page_invariant P _ _ cs ov
             (fun i => HP p i (or_introl eq_refl)) fuel 0 acc acc' Hp Hacc).
Qed.

Lemma range_S n :
  Text.range (S n) = 0 :: List.map (Z.add 1) (Text.range n).
Proof.
  unfold Text.range. simpl. f_equal.
  rewrite <- seq_shift, !List.map_map.
  apply map_ext. intros k. lia.
Qed.

(** The loop from start [i]: the windows at [i], [i + step], ... below the
    number of words, those that pass the length test. *)
Lemma chunk_page_from words pn cs ov :
  ov < cs ->
  forall fuel i acc,
  Py.len words - i <= Z.of_nat fuel ->
  chunk_page fuel words pn cs ov i acc =
  Some (acc ++
        flat_map
          (fun s =>
             if Py.len (Py.strip (Py.join (Py.lit " ")
                                    (Py.slice words s (s + cs)))) >? 50
             then [{| chunk_text :=
                        Py.join (Py.lit " ") (Py.slice words s (s + cs));
                      chunk_page_num := pn |}]
             else [])
          (List.map (fun k => i + k * (cs - ov))
             (Text.range
                (Z.to_nat ((Py.len words - i + (cs - ov) - 1)
                           / (cs - ov)))))).
Proof.
  intros Hov.
  assert (forall i, Py.len words <= i ->
            Z.to_nat ((Py.len words - i + (cs - ov) - 1) / (cs - ov)) = 0%nat)
    as Hdone.
  { intros i Hi.
    assert ((Py.len words - i + (cs - ov) - 1) / (cs - ov) <= 0); [|lia].
    apply Z.lt_succ_r. apply Z.div_lt_upper_bound; lia. }
  induction fuel as [|fuel IH]; intros i acc Hfuel.
  - rewrite ChunkFacts.chunk_page_exit by lia.
    rewrite Hdone by lia. simpl. now rewrite app_nil_r.
  - destruct (Z_lt_le_dec i (Py.len words)) as [Hlt|Hge].
    + rewrite ChunkFacts.chunk_page_turn by assumption. cbv zeta.
      rewrite IH by lia.
      replace (Py.len words - i + (cs - ov) - 1)
        with (Py.len words - (i + (cs - ov)) + (cs - ov) - 1
              + 1 * (cs - ov)) by lia.
      rewrite Z.div_add by lia.
      assert (0 <= (Py.len words - (i + (cs - ov)) + (cs - ov) - 1)
                   / (cs - ov)) as Hq by (apply Z.div_pos; lia).
      rewrite Z2Nat.inj_add by lia.
      rewrite Nat.add_comm. change (Z.to_nat 1) with 1%nat.
      cbn [Nat.add]. rewrite range_S. cbn [List.map flat_map].
      rewrite List.map_map.
      replace (i + 0 * (cs - ov)) with i by lia.
      rewrite (map_ext (fun k => i + (1 + k) * (cs - ov))
                       (fun k => i + (cs - ov) + k * (cs - ov)))
        by (intros k; lia).
      f_equal. destruct (Py.len _ >? 50); [|reflexivity].
      now rewrite <- app_assoc.
    + rewrite ChunkFacts.chunk_page_exit by assumption.
      rewrite Hdone by assumption. simpl. now rewrite app_nil_r.
Qed.

Lemma window_starts_In n step s :
  0 < step ->
  In s (Rest.window_starts n step) <->
  exists k, s = k * step /\ 0 <= k /\ k * step < n.
Proof.
  intros Hstep. unfold Rest.window_starts. rewrite in_map_iff. split.
  - intros [k [<- Hk]]. apply EmbeddingFacts.in_range in Hk.
    exists k. split; [reflexivity|]. split; [lia|].
    destruct (Z_le_gt_dec n 0) as [Hn|Hn].
    + assert ((n + step - 1) / step <= 0); [|lia].
      apply Z.lt_succ_r. apply Z.div_lt_upper_bound; lia.
    + rewrite Z2Nat.id in Hk by (apply Z.div_pos; lia).
      assert (k <= (n + step - 1) / step - 1) as Hk' by lia.
      assert (step * ((n + step - 1) / step) <= n + step - 1)
        by (apply Z.mul_div_le; lia).
      nia.
  - intros [k [-> [Hk0 Hkn]]]. exists k. split; [reflexivity|].
    apply EmbeddingFacts.in_range. split; [assumption|].
    rewrite Z2Nat.id by (apply Z.div_pos; nia).
    assert (k + 1 <= (n + step - 1) / step); [|lia].
    apply Z.div_le_lower_bound; nia.
Qed.

End ChunkMore.

Lemma chunk_text_with_pages_inv fuel pages cs ov tr out :
  fst (chunk_text_with_pages fuel pages cs ov tr) = Ok out ->
  chunk_pages fuel pages cs ov [] = Some out.
Proof.
  unfold chunk_text_with_pages.
  destruct (chunk_pages fuel pages cs ov []) as [c|]; simpl;
    [intros H; now injection H as -> | discriminate].
Qed.

(** X1.  Every chunk returned is a window of the words of one of the
    pages given, joined by single spaces and tagged with the number of
    that page; its text has no whitespace at either end, so that it is
    itself longer than 50 characters. *)
Theorem chunks_are_page_windows fuel pages cs ov tr out :
  fst (chunk_text_with_pages fuel pages cs ov tr) = Ok out ->
  Forall
    (fun c =>
       (exists p i,
          In p pages /\ chunk_page_num c = page_num p
          /\ chunk_text c =
             Py.join (Py.lit " ") (Py.slice (Py.split (text p)) i (i + cs)))
       /\ Py.strip (chunk_text c) = chunk_text c
       /\ 50 < Py.len (chunk_text c))
    out.
Proof.
  intros H. apply chunk_text_with_pages_inv in H.
  refine (ChunkMore.chunk_pages_invariant _ fuel cs ov pages _ [] out H
            (List.Forall_nil _)).
  intros p i Hp Hlen. cbn [chunk_text chunk_page_num].
  assert (Py.strip (Py.join (Py.lit " ")
                      (Py.slice (Py.split (text p)) i (i + cs)))
          = Py.join (Py.lit " ") (Py.slice (Py.split (text p)) i (i + cs)))
    as Hstrip.
  { apply StripFacts.strip_join. apply EmbeddingFacts.slice_Forall.
    apply StripFacts.split_words. }
  split; [now exists p, i|]. split; [assumption|].
  rewrite Hstrip in Hlen. rewrite Z.gtb_ltb in Hlen. now apply Z.ltb_lt.
Qed.

Lemma chunks_are_page_windows_witness :
  Forall (fun c => chunk_page_num c = 1 /\ 50 < Py.len (chunk_text c))
    [{| chunk_text :=
          Py.lit "Wheat rust is treated with fungicide sprays. Apply in early spring.";
        chunk_page_num := 1 |}].
Proof.
  assert (fst (chunk_text_with_pages 1 [Sample.two_line_page] 600 100 [])
          = Ok [{| chunk_text :=
                     Py.lit "Wheat rust is treated with fungicide sprays. Apply in early spring.";
                   chunk_page_num := 1 |}]) as H
    by (vm_compute; reflexivity).
  apply chunks_are_page_windows in H.
  refine (List.Forall_impl _ _ H). intros c [[p [i [Hp [Hn _]]]] [_ Hlen]].
  split; [|exact Hlen]. destruct Hp as [<-|[]]. exact Hn.
Defined.

(** X2.  For [overlap < chunk_size] the call returns, page after page,
    the windows that start at 0, [step], [2 * step], ... below the number
    of words of the page ([step = chunk_size - overlap]), each
    [chunk_size] words wide, leaving out the windows whose trimmed text
    is not longer than 50 characters. *)
Theorem chunk_windows fuel pages cs ov tr :
  ov < cs ->
  (forall p, In p pages -> Py.len (Py.split (text p)) <= Z.of_nat fuel) ->
  fst (chunk_text_with_pages fuel pages cs ov tr) =
  Ok (flat_map
        (fun p =>
           flat_map
             (fun s =>
                if Py.len (Py.strip
                             (Py.join (Py.lit " ")
                                (Py.slice (Py.split (text p)) s (s + cs))))
                   >? 50
                then [{| chunk_text :=
                           Py.join (Py.lit " ")
                             (Py.slice (Py.split (text p)) s (s + cs));
                         chunk_page_num := page_num p |}]
                else [])
             (Rest.window_starts (Py.len (Py.split (text p))) (cs - ov)))
        pages).
Proof.
  intros Hov Hfuel. unfold chunk_text_with_pages.
  assert (forall acc,
            chunk_pages fuel pages cs ov acc =
            Some (acc ++
                  flat_map
                    (fun p =>
                       flat_map
                         (fun s =>
                            if Py.len (Py.strip
                                 (Py.join (Py.lit " ")
                                    (Py.slice (Py.split (text p)) s (s + cs))))
                               >? 50
                            then [{| chunk_text :=
                                       Py.join (Py.lit " ")
                                         (Py.slice (Py.split (text p)) s
                                                   (s + cs));
                                     chunk_page_num := page_num p |}]
                            else [])
                         (Rest.window_starts (Py.len (Py.split (text p)))
                                             (cs - ov)))
                    pages)) as Hall.
  { induction pages as [|p pages IH]; intros acc; simpl.
    - now rewrite app_nil_r.
    - rewrite (ChunkMore.chunk_page_from _ _ cs ov Hov fuel 0 acc)
        by (specialize (Hfuel p (or_introl eq_refl)); lia).
      rewrite IH by (intros q Hq; apply Hfuel; now right).
      rewrite <- app_assoc. unfold Rest.window_starts.
      rewrite Z.sub_0_r.
      replace (Py.len (Py.split (text p)) + (cs - ov) - 1)
        with (Py.len (Py.split (text p)) + (cs - ov) - 1) by reflexivity.
      reflexivity. }
  rewrite Hall. reflexivity.
Qed.

Lemma chunk_windows_witness :
  fst (chunk_text_with_pages 11 [Sample.two_line_page] 9 7 []) =
  Ok [{| chunk_text :=
           Py.lit "Wheat rust is treated with fungicide sprays. Apply in";
         chunk_page_num := 1 |};
      {| chunk_text :=
           Py.lit "is treated with fungicide sprays. Apply in early spring.";
         chunk_page_num := 1 |}].
Proof.
  refine (eq_trans (chunk_windows 11 [Sample.two_line_page] 9 7 [] _ _) _).
  - lia.
  - intros p [<-|[]]. vm_compute. discriminate.
  - vm_compute. reflexivity.
Defined.

(** X3.  With [0 <= overlap < chunk_size] no word is passed over: every
    word position of a page lies inside a window that the loop visits, and
    that window is among the chunks returned unless its trimmed text is
    not longer than 50 characters. *)
Theorem chunk_windows_cover fuel p cs ov :
  0 <= ov < cs ->
  Py.len (Py.split (text p)) <= Z.of_nat fuel ->
  exists out,
    chunk_page fuel (Py.split (text p)) (page_num p) cs ov 0 [] = Some out
    /\ forall j,
         0 <= j < Py.len (Py.split (text p)) ->
         exists s,
           0 <= s /\ s <= j < s + cs
           /\ ((Py.len (Py.strip
                          (Py.join (Py.lit " ")
                             (Py.slice (Py.split (text p)) s (s + cs))))
                >? 50) = true ->
               In {| chunk_text :=
                       Py.join (Py.lit " ")
                         (Py.slice (Py.split (text p)) s (s + cs));
                     chunk_page_num := page_num p |} out).
Proof.
  intros [Hov0 Hov] Hfuel. eexists. split.
  - rewrite (ChunkMore.chunk_page_from _ _ cs ov Hov fuel 0 []) by lia.
    reflexivity.
  - intros j Hj. exists (j / (cs - ov) * (cs - ov)).
    assert (0 < cs - ov) as Hstep by lia.
    pose proof (Z.mul_div_le j (cs - ov) Hstep) as Hle.
    pose proof (Z.mod_pos_bound j (cs - ov) Hstep) as Hmod.
    pose proof (Z.div_mod j (cs - ov) ltac:(lia)) as Hdm.
    assert (0 <= j / (cs - ov)) as Hk by (apply Z.div_pos; lia).
    split; [nia|]. split; [nia|].
    intros Hlen. simpl app. apply in_flat_map.
    exists (j / (cs - ov) * (cs - ov)). split.
    + apply in_map_iff. exists (j / (cs - ov)). split; [lia|].
      apply EmbeddingFacts.in_range. split; [assumption|].
      rewrite Z.sub_0_r.
      rewrite Z2Nat.id by (apply Z.div_pos; lia).
      assert (j / (cs - ov) + 1
              <= (Py.len (Py.split (text p)) + (cs - ov) - 1) / (cs - ov));
        [|lia].
      apply Z.div_le_lower_bound; nia.
    + rewrite Hlen. now left.
Qed.

Lemma chunk_windows_cover_witness :
  exists out,
    chunk_page 11 (Py.split (text Sample.two_line_page)) 1 8 3 0 [] = Some out
    /\ exists s, 0 <= s /\ s <= 9 < s + 8.
Proof.
  destruct (chunk_windows_cover 11 Sample.two_line_page 8 3 ltac:(lia))
    as [out [Hout Hcover]].
  - vm_compute. discriminate.
  - exists out. split; [exact Hout|].
    destruct (Hcover 9) as [s [H0 [Hs _]]].
    + vm_compute. split; [discriminate | reflexivity].
    + exists s. now split.
Defined.

(** X4.  Pages are chunked one after the other and independently: the
    chunks of two page lists in a row are the chunks of the first list
    followed by those of the second. *)
Theorem chunk_pages_concat fuel ps1 ps2 cs ov tr1 tr2 tr o1 o2 :
  fst (chunk_text_with_pages fuel ps1 cs ov tr1) = Ok o1 ->
  fst (chunk_text_with_pages fuel ps2 cs ov tr2) = Ok o2 ->
  fst (chunk_text_with_pages fuel (ps1 ++ ps2) cs ov tr) = Ok (o1 ++ o2).
Proof.
  intros H1 H2.
  apply chunk_text_with_pages_inv in H1. apply chunk_text_with_pages_inv in H2.
  unfold chunk_text_with_pages.
  rewrite ChunkFacts.chunk_pages_app, H1.
  rewrite ChunkFacts.chunk_pages_appends, H2. reflexivity.
Qed.

Lemma chunk_pages_concat_witness :
  fst (chunk_text_with_pages 1
         ([Sample.two_line_page] ++ [Sample.two_line_page]) 600 100 [])
  = Ok ([{| chunk_text :=
              Py.lit "Wheat rust is treated with fungicide sprays. Apply in early spring.";
            chunk_page_num := 1 |}]
        ++ [{| chunk_text :=
                 Py.lit "Wheat rust is treated with fungicide sprays. Apply in early spring.";
               chunk_page_num := 1 |}]).
Proof.
  apply (chunk_pages_concat 1 [Sample.two_line_page] [Sample.two_line_page]
           600 100 [] [] []); vm_compute; reflexivity.
Defined.

(* ===================================================================== *)
(** ** More on [generate_embedding] and [query_vector_search] *)
(* ===================================================================== *)

Module EmbeddingMore.

Lemma hash_window_period h i :
  Py.len h = 64 -> hash_window h (i + 64) = hash_window h i.
Proof.
  intros Hh. unfold hash_window. rewrite Hh.
  replace (i + 64) with (i + 1 * 64) by lia.
  now rewrite Z.mod_add by lia.
Qed.

Lemma fallback_nth text data tr :
  Utf8.encode text = Some data ->
  exists v,
    fallback_embedding text tr = (Ok v, tr) /\ Py.len v = 1024 /\
    forall n, (n < 1024)%nat ->
      nth n v 0%float =
      component (default 0 (Hex.int16
                              (hash_window (Sha256.hexdigest data)
                                           (Z.of_nat n)))).
Proof.
  intros Hd. eexists. split; [exact (EmbeddingFacts.fallback_embedding_value text data tr Hd)|].
  split.
  - unfold Py.len, Text.range. now rewrite !length_map, length_seq.
  - intros n Hn.
    rewrite (EmbeddingFacts.nth_map _ _ _ _ 0)
      by (unfold Text.range; now rewrite length_map, length_seq).
    now rewrite EmbeddingFacts.nth_range.
Qed.

End EmbeddingMore.

(** X5.  When the embedding model fails, the vector returned for a text
    that can be encoded repeats with period 64: it holds at most 64
    different values, each 16 times. *)
Theorem fallback_embedding_period svc text tr e :
  ollama_embeddings svc tr embedding_model text = Fails e ->
  Utf8.unicode_text text ->
  exists v tr',
    generate_embedding svc text tr = (Ok v, tr')
    /\ Py.len v = 1024
    /\ forall n, (n + 64 < 1024)%nat ->
         nth (n + 64) v 0%float = nth n v 0%float.
Proof.
  intros Hfail Htext.
  apply EncodeFacts.encode_unicode_text in Htext. destruct Htext as [data Hd].
  rewrite (EmbeddingFacts.generate_embedding_failure svc text tr e Hfail).
  cbv zeta.
  destruct (EmbeddingMore.fallback_nth text data
              (tr ++ [OllamaEmbeddings embedding_model text]
                  ++ [Log ERROR (EmbeddingGenerationFailed e)]) Hd)
    as [v [Hv [Hlen Hnth]]].
  rewrite Hv. exists v. eexists. split; [reflexivity|]. split; [exact Hlen|].
  intros n Hn. rewrite !Hnth by lia.
  replace (Z.of_nat (n + 64)) with (Z.of_nat n + 64) by lia.
  rewrite EmbeddingMore.hash_window_period; [reflexivity|].
  apply DigestFacts.hexdigest_digits.
Qed.

Lemma fallback_embedding_period_witness :
  exists v tr',
    generate_embedding Sample.offline (Py.lit "soil") [] = (Ok v, tr')
    /\ Py.len v = 1024
    /\ nth 104 v 0%float = nth 40 v 0%float.
Proof.
  destruct (fallback_embedding_period Sample.offline (Py.lit "soil") []
              Sample.down eq_refl)
    as [v [tr' [Hv [Hlen Hper]]]].
  - apply EncodeFacts.encode_unicode_text. eexists. vm_compute. reflexivity.
  - exists v, tr'. split; [exact Hv|]. split; [exact Hlen|].
    exact (Hper 40%nat ltac:(lia)).
Defined.

(** X6.  The vector index is queried at most once per search (the events
    of a search hold at most one index query), always with
    a vector of exactly 1024 components and with the [top_k] given; for a
    query that can be encoded the index is always reached, and when it is
    not reached the search ends with the encoding error. *)
Theorem query_vector_search_query svc query top_k tr :
  exists evs,
    snd (query_vector_search svc query top_k tr) = tr ++ evs
    /\ (length (List.filter Rest.is_query evs) <= 1)%nat
    /\ (forall v k, In (PineconeQuery v k) evs ->
          Py.len v = 1024 /\ k = top_k)
    /\ (Utf8.unicode_text query ->
        exists v, In (PineconeQuery v top_k) evs)
    /\ ((forall v k, ~ In (PineconeQuery v k) evs) ->
        fst (query_vector_search svc query top_k tr)
        = Raise UnicodeEncodeError).
Proof.
  unfold query_vector_search.
  destruct (ollama_embeddings svc tr embedding_model query)
    as [native|e] eqn:Hmodel.
  - pose proof (EmbeddingFacts.generate_embedding_success svc query tr native
                  Hmodel) as Hgen.
    cbv zeta in Hgen.
    pose proof (EmbeddingFacts.padded_length native) as Hlen.
    set (v := if Py.len native <? 1024
              then native ++ repeat 0%float (Z.to_nat (1024 - Py.len native))
              else if Py.len native >? 1024 then Py.slice_to native 1024
                   else native) in *.
    clearbody v.
    rewrite (bind_ok _ _ _ _ _ Hgen). unfold call.
    exists ([OllamaEmbeddings embedding_model query]
            ++ [Log DEBUG (GeneratedEmbedding (Py.len v))]
            ++ [PineconeQuery v top_k]).
    split; [destruct (pinecone_query svc _ v top_k); simpl;
            now rewrite <- !app_assoc|].
    split; [cbn [app List.filter Rest.is_query length]; lia|].
    split; [|split].
    + intros w k [H|[H|[H|[]]]]; try discriminate.
      injection H as <- <-. now split.
    + intros _. exists v. simpl. tauto.
    + intros H. exfalso. apply (H v top_k). simpl. tauto.
  - pose proof (EmbeddingFacts.generate_embedding_failure svc query tr e
                  Hmodel) as Hgen.
    cbv zeta in Hgen.
    destruct (Utf8.encode query) as [data|] eqn:Hd.
    + rewrite (EmbeddingFacts.fallback_embedding_value query data _ Hd) in Hgen.
      match type of Hgen with
      | _ = (Ok ?w, _) => set (v := w) in *
      end.
      assert (Py.len v = 1024) as Hlen
        by (unfold v, Py.len, Text.range; now rewrite !length_map, length_seq).
      clearbody v.
      rewrite (bind_ok _ _ _ _ _ Hgen). unfold call.
      exists ([OllamaEmbeddings embedding_model query]
              ++ [Log ERROR (EmbeddingGenerationFailed e)]
              ++ [Log WARNING UsingFallbackEmbedding]
              ++ [PineconeQuery v top_k]).
      split; [destruct (pinecone_query svc _ v top_k); simpl;
              now rewrite <- !app_assoc|].
      split; [cbn [app List.filter Rest.is_query length]; lia|].
      split; [|split].
      * intros w k [H|[H|[H|[H|[]]]]]; try discriminate.
        injection H as <- <-. now split.
      * intros _. exists v. simpl. tauto.
      * intros H. exfalso. apply (H v top_k). simpl. tauto.
    + rewrite (EmbeddingFacts.fallback_embedding_raises query _ Hd) in Hgen.
      rewrite (bind_raise _ _ _ _ _ Hgen).
      exists ([OllamaEmbeddings embedding_model query]
              ++ [Log ERROR (EmbeddingGenerationFailed e)]).
      split; [reflexivity|].
      split; [cbn [app List.filter Rest.is_query length]; lia|].
      split; [|split].
      * intros w k [H|[H|[]]]; discriminate.
      * intros Htext. apply EncodeFacts.encode_unicode_text in Htext.
        destruct Htext as [data Hdata]. congruence.
      * intros _. reflexivity.
Qed.

Lemma query_vector_search_query_witness :
  exists v,
    In (PineconeQuery v 3)
       (snd (query_vector_search Sample.offline (Py.lit "wheat rust") 3 []))
    /\ Py.len v = 1024.
Proof.
  destruct (query_vector_search_query Sample.offline (Py.lit "wheat rust") 3 [])
    as [evs [Htr [_ [Hdim [Hreach _]]]]].
  destruct Hreach as [v Hv].
  - apply EncodeFacts.encode_unicode_text. eexists. vm_compute. reflexivity.
  - exists v. rewrite Htr. split; [exact Hv|]. exact (proj1 (Hdim v 3 Hv)).
Defined.

(* ===================================================================== *)
(** ** [extract_text_from_pdf] *)
(* ===================================================================== *)

Module XFacts.
Import Rest.

Lemma xbind_ok {A B : Type} (m : X A) (f : A -> X B) tr a tr' :
  m tr = (Ok a, tr') -> (m ≫= f) tr = f a tr'.
Proof. intros H. unfold mbind, X_bind. now rewrite H. Qed.

Lemma xbind_raise {A B : Type} (m : X A) (f : A -> X B) tr e tr' :
  m tr = (Raise e, tr') -> (m ≫= f) tr = (Raise e, tr').
Proof. intros H. unfold mbind, X_bind. now rewrite H. Qed.

Lemma xbind_inv {A B : Type} (m : X A) (f : A -> X B) tr b tr' :
  (m ≫= f) tr = (Ok b, tr') ->
  exists a t, m tr = (Ok a, t) /\ f a t = (Ok b, tr').
Proof.
  unfold mbind, X_bind. destruct (m tr) as [[a|e|] t]; try discriminate.
  intros H. now exists a, t.
Qed.

Lemma xfor_each_app {A S : Type} (body : A -> S -> X S) (l1 l2 : list A) :
  forall acc tr,
  xfor_each (l1 ++ l2) body acc tr =
  match xfor_each l1 body acc tr with
  | (Ok acc', tr') => xfor_each l2 body acc' tr'
  | other => other
  end.
Proof.
  induction l1 as [|x l1 IH]; intros acc tr; [reflexivity|].
  simpl. unfold mbind, X_bind.
  destruct (body x acc tr) as [[a|e|] t]; [apply IH | reflexivity..].
Qed.

Lemma core_events_app a b :
  core_events (a ++ b) = core_events a ++ core_events b.
Proof. unfold core_events. apply flat_map_app. Qed.

Lemma core_events_Core evs : core_events (List.map Core evs) = evs.
Proof.
  induction evs as [|ev evs IH]; [reflexivity|]. simpl. now rewrite IH.
Qed.

(** A lifted method adds, as [Core] events, what it adds to the events of
    its own kind. *)
Lemma lift_run {A : Type} (m : M A) xtr r evs :
  m (core_events xtr) = (r, core_events xtr ++ evs) ->
  lift m xtr = (r, xtr ++ List.map Core evs).
Proof.
  intros H. unfold lift. rewrite H.
  now rewrite skipn_app, Nat.sub_diag, skipn_all, skipn_O.
Qed.

Lemma combine_fst {A B : Type} (ks : list A) :
  forall l : list B, length ks = length l -> List.map fst (combine ks l) = ks.
Proof.
  induction ks as [|k ks IH]; intros [|x l] Hlen; simpl in *;
    try reflexivity; try discriminate.
  f_equal. apply IH. now injection Hlen.
Qed.

Lemma combine_snd {A B : Type} (ks : list A) :
  forall l : list B, length ks = length l -> List.map snd (combine ks l) = l.
Proof.
  induction ks as [|k ks IH]; intros [|x l] Hlen; simpl in *;
    try reflexivity; try discriminate.
  f_equal. apply IH. now injection Hlen.
Qed.

Lemma range_length n : length (Text.range n) = n.
Proof. unfold Text.range. now rewrite length_map, length_seq. Qed.

Lemma enumerate_fst {A : Type} (l : list A) :
  List.map fst (enumerate l) = Text.range (length l).
Proof. apply combine_fst, range_length. Qed.

Lemma enumerate_snd {A : Type} (l : list A) :
  List.map snd (enumerate l) = l.
Proof. apply combine_snd, range_length. Qed.

Lemma enumerate_length {A : Type} (l : list A) :
  length (enumerate l) = length l.
Proof.
  unfold enumerate, Text.range.
  rewrite length_combine, length_map, length_seq. lia.
Qed.

Lemma enumerate_nth {A : Type} (l : list A) i d :
  (i < length l)%nat -> nth i (enumerate l) (0, d) = (Z.of_nat i, nth i l d).
Proof.
  intros Hi. unfold enumerate.
  rewrite combine_nth
    by (unfold Text.range; now rewrite length_map, length_seq).
  now rewrite EmbeddingFacts.nth_range.
Qed.

Lemma enumerate_In {A : Type} (l : list A) k x :
  In (k, x) (enumerate l) ->
  0 <= k < Py.len l /\ nth_error l (Z.to_nat k) = Some x.
Proof.
  intros H. destruct (In_nth _ _ (0, x) H) as [i [Hi Hnth]].
  rewrite enumerate_length in Hi. rewrite enumerate_nth in Hnth by exact Hi.
  injection Hnth as <- Hx. unfold Py.len. split; [lia|].
  rewrite Nat2Z.id, (nth_error_nth' l x Hi). now rewrite Hx.
Qed.

End XFacts.

Module ExtractTextFacts.
Import Rest.

(** The body of the loop over the page indices. *)
Lemma read_pages (doc : list (reply Py.str)) (kts : list (Z * Py.str)) :
  Forall (fun kt => nth_error doc (Z.to_nat (fst kt)) = Some (Returns (snd kt)))
         kts ->
  forall acc tr,
  xfor_each (List.map fst kts)
    (fun page_num pages_data =>
       match nth_error doc (Z.to_nat page_num) with
       | None => xraise (ExternalError (Py.lit "page not in document"))
       | Some (Fails e) => xraise e
       | Some (Returns text) =>
           mret (pages_data ++ [{| text := text;
                                   GraphRAG.page_num := page_num + 1 |}])
       end) acc tr =
  (Ok (acc ++ List.map (fun kt => {| text := snd kt;
                                     GraphRAG.page_num := fst kt + 1 |}) kts),
   tr).
Proof.
  induction 1 as [|[k t] kts Hk _ IH]; intros acc tr; simpl.
  - now rewrite app_nil_r.
  - simpl in Hk. unfold mbind, X_bind. rewrite Hk.
    unfold mret at 1, X_ret at 1. rewrite IH.
    now rewrite <- app_assoc.
Qed.

Lemma read_pages_invariant (P : page -> Prop) (doc : list (reply Py.str)) :
  forall ks acc tr out tr',
  xfor_each ks
    (fun page_num pages_data =>
       match nth_error doc (Z.to_nat page_num) with
       | None => xraise (ExternalError (Py.lit "page not in document"))
       | Some (Fails e) => xraise e
       | Some (Returns text) =>
           mret (pages_data ++ [{| text := text;
                                   GraphRAG.page_num := page_num + 1 |}])
       end) acc tr = (Ok out, tr') ->
  (forall k t, In k ks -> P {| text := t; GraphRAG.page_num := k + 1 |}) ->
  Forall P acc -> Forall P out.
Proof.
  induction ks as [|k ks IH]; intros acc tr out tr' H HP Hacc; simpl in H.
  - injection H as <- _. exact Hacc.
  - apply XFacts.xbind_inv in H. destruct H as [a [t [Hk Hrest]]].
    apply (IH a t out tr' Hrest).
    + intros k' t' Hin. apply HP. now right.
    + destruct (nth_error doc (Z.to_nat k)) as [[text|e]|]; try discriminate.
      injection Hk as <- _. apply Forall_app. split; [exact Hacc|].
      constructor; [|constructor]. apply HP. now left.
Qed.

Lemma page_count_le (doc : list (reply Py.str)) max_pages :
  (Z.to_nat (Z.min max_pages (Py.len doc)) <= length doc)%nat.
Proof. unfold Py.len. lia. Qed.

End ExtractTextFacts.

(** X7.  When the document opens and each of its first
    [min(max_pages, len(doc))] pages can be read, these pages are returned
    in order with their texts, numbered from 1; the document is closed,
    and the log line reports the characters read and the value of
    [max_pages] itself, also for a document with fewer pages.  Pages
    beyond [max_pages] are not read. *)
Theorem extract_text_pages more pdf_path max_pages tr doc texts :
  Rest.fitz_open more tr pdf_path = Returns doc ->
  firstn (Z.to_nat (Z.min max_pages (Py.len doc))) doc
  = List.map Returns texts ->
  Rest.extract_text_from_pdf more pdf_path max_pages tr =
  (Ok (List.map (fun kt => {| text := snd kt; page_num := fst kt + 1 |})
                (Rest.enumerate texts)),
   tr ++ [ Rest.FitzOpen pdf_path; Rest.FitzClose;
           Rest.XLog INFO
             (Rest.ExtractedCharacters
                (Rest.sum (List.map Py.len texts)) max_pages
                (Rest.basename pdf_path)) ]).
Proof.
  intros Hopen Hfirst. unfold Rest.extract_text_from_pdf.
  assert (Rest.xcall (Rest.FitzOpen pdf_path)
            (fun tr => Rest.fitz_open more tr pdf_path) tr
          = (Ok doc, tr ++ [Rest.FitzOpen pdf_path])) as Hcall
    by (unfold Rest.xcall; now rewrite Hopen).
  rewrite (XFacts.xbind_ok _ _ _ _ _ Hcall).
  assert (length texts = Z.to_nat (Z.min max_pages (Py.len doc))) as Hlen.
  { apply (f_equal (@length _)) in Hfirst.
    rewrite length_map, length_firstn in Hfirst.
    pose proof (ExtractTextFacts.page_count_le doc max_pages). lia. }
  rewrite <- Hlen, <- XFacts.enumerate_fst.
  erewrite XFacts.xbind_ok; cycle 1.
  { apply ExtractTextFacts.read_pages. apply List.Forall_forall.
    intros [k t] Hin. simpl.
    apply XFacts.enumerate_In in Hin. destruct Hin as [Hk Hnth].
    unfold Py.len in Hk.
    assert (nth_error (firstn (length texts) doc) (Z.to_nat k)
            = nth_error doc (Z.to_nat k)) as Hdoc.
    { rewrite nth_error_firstn.
      destruct (Nat.ltb_spec (Z.to_nat k) (length texts)); [reflexivity|lia]. }
    rewrite <- Hdoc, Hlen, Hfirst, nth_error_map, Hnth. reflexivity. }
  simpl app at 1. unfold Rest.xlog, Rest.xemit, mbind, Rest.X_bind, mret, Rest.X_ret.
  assert (List.map (fun p : page => Py.len (text p))
            (List.map (fun kt : Z * Py.str =>
                         {| text := snd kt; page_num := fst kt + 1 |})
                      (Rest.enumerate texts))
          = List.map Py.len texts) as Hsum.
  { transitivity (List.map Py.len (List.map snd (Rest.enumerate texts))).
    - rewrite !List.map_map. reflexivity.
    - now rewrite XFacts.enumerate_snd. }
  rewrite app_nil_l, Hsum, <- !app_assoc. reflexivity.
Qed.

Lemma extract_text_pages_witness :
  Rest.extract_text_from_pdf Fixture.ready (Py.lit "docs/wheat.pdf") 2 [] =
  (Ok [ {| text := text Sample.two_line_page; page_num := 1 |};
        {| text := Py.lit "Barley."; page_num := 2 |} ],
   [ Rest.FitzOpen (Py.lit "docs/wheat.pdf"); Rest.FitzClose;
     Rest.XLog INFO (Rest.ExtractedCharacters 74 2 (Py.lit "wheat.pdf")) ]).
Proof.
  exact (extract_text_pages Fixture.ready (Py.lit "docs/wheat.pdf") 2 []
           Fixture.three_pages [text Sample.two_line_page; Py.lit "Barley."]
           eq_refl eq_refl).
Defined.

(** X8.  A page that cannot be read ends the call with the reader's
    error: no page is returned, nothing is logged, and the document that
    was opened is not closed. *)
Theorem extract_text_unreadable_page more pdf_path max_pages tr texts e rest :
  Rest.fitz_open more tr pdf_path
  = Returns (List.map Returns texts ++ Fails e :: rest) ->
  Py.len texts < max_pages ->
  Rest.extract_text_from_pdf more pdf_path max_pages tr =
  (Raise e, tr ++ [Rest.FitzOpen pdf_path]).
Proof.
  intros Hopen Hmax. unfold Rest.extract_text_from_pdf.
  set (doc := List.map Returns texts ++ Fails e :: rest) in *.
  assert (Rest.xcall (Rest.FitzOpen pdf_path)
            (fun tr => Rest.fitz_open more tr pdf_path) tr
          = (Ok doc, tr ++ [Rest.FitzOpen pdf_path])) as Hcall
    by (unfold Rest.xcall; now rewrite Hopen).
  rewrite (XFacts.xbind_ok _ _ _ _ _ Hcall).
  assert (exists m, Z.to_nat (Z.min max_pages (Py.len doc))
                    = (length texts + S m)%nat) as [m Hm].
  { exists (Z.to_nat (Z.min max_pages (Py.len doc)) - length texts - 1)%nat.
    unfold doc, Py.len in *. rewrite length_app, length_map. simpl. lia. }
  rewrite Hm. unfold Text.range. rewrite seq_app, List.map_app.
  simpl seq. simpl List.map.
  fold (Text.range (length texts)). rewrite <- (XFacts.enumerate_fst texts).
  apply XFacts.xbind_raise.
  rewrite XFacts.xfor_each_app.
  rewrite ExtractTextFacts.read_pages.
  - simpl. unfold mbind, Rest.X_bind. rewrite Nat2Z.id.
    unfold doc at 1.
    rewrite nth_error_app2 by (rewrite length_map; lia).
    rewrite length_map, Nat.sub_diag. reflexivity.
  - apply List.Forall_forall. intros [k t] Hin. simpl.
    apply XFacts.enumerate_In in Hin. destruct Hin as [Hk Hnth].
    unfold doc. unfold Py.len in Hk.
    rewrite nth_error_app1 by (rewrite length_map; lia).
    now rewrite nth_error_map, Hnth.
Qed.

Lemma extract_text_unreadable_page_witness :
  Rest.extract_text_from_pdf Fixture.broken (Py.lit "docs/wheat.pdf") 10 [] =
  (Raise Sample.down, [Rest.FitzOpen (Py.lit "docs/wheat.pdf")])
  /\ existsb Rest.is_fitz_close
       (snd (Rest.extract_text_from_pdf Fixture.broken
               (Py.lit "docs/wheat.pdf") 10 [])) = false.
Proof.
  assert (Rest.extract_text_from_pdf Fixture.broken (Py.lit "docs/wheat.pdf")
            10 []
          = (Raise Sample.down, [Rest.FitzOpen (Py.lit "docs/wheat.pdf")]))
    as H.
  { apply (extract_text_unreadable_page Fixture.broken
             (Py.lit "docs/wheat.pdf") 10 [] [Py.lit "Wheat."] Sample.down []).
    - reflexivity.
    - vm_compute. reflexivity. }
  split; [exact H|]. rewrite H. reflexivity.
Defined.

(** X9.  Reading a document and chunking its pages gives chunks whose
    page numbers all lie between 1 and [min(max_pages, len(doc))]. *)
Theorem extracted_chunks_page_numbers more pdf_path max_pages xtr doc pages
    xtr' fuel cs ov tr chunks :
  Rest.fitz_open more xtr pdf_path = Returns doc ->
  Rest.extract_text_from_pdf more pdf_path max_pages xtr = (Ok pages, xtr') ->
  fst (chunk_text_with_pages fuel pages cs ov tr) = Ok chunks ->
  Forall (fun c => 1 <= chunk_page_num c <= Z.min max_pages (Py.len doc))
         chunks.
Proof.
  intros Hopen Hextract Hchunk.
  assert (Forall (fun p => 1 <= page_num p <= Z.min max_pages (Py.len doc))
                 pages) as Hpages.
  { unfold Rest.extract_text_from_pdf in Hextract.
    apply XFacts.xbind_inv in Hextract.
    destruct Hextract as [doc' [t1 [Hcall Hrest]]].
    unfold Rest.xcall in Hcall. rewrite Hopen in Hcall.
    injection Hcall as <- <-.
    apply XFacts.xbind_inv in Hrest.
    destruct Hrest as [pages' [t2 [Hloop Hrest]]].
    unfold Rest.xlog, Rest.xemit, mbind, Rest.X_bind, mret, Rest.X_ret in Hrest.
    injection Hrest as <- _.
    refine (ExtractTextFacts.read_pages_invariant _ doc _ [] _ pages' t2
              Hloop _ (List.Forall_nil _)).
    intros k t Hin. simpl. apply EmbeddingFacts.in_range in Hin.
    pose proof (len_nonneg doc). lia. }
  apply chunk_text_with_pages_inv in Hchunk.
  refine (ChunkMore.chunk_pages_invariant _ fuel cs ov pages _ [] chunks
            Hchunk (List.Forall_nil _)).
  intros p i Hp _. simpl.
  exact (proj1 (List.Forall_forall _ pages) Hpages p Hp).
Qed.

Lemma extracted_chunks_page_numbers_witness :
  Forall (fun c => 1 <= chunk_page_num c <= 2)
    [{| chunk_text :=
          Py.lit "Wheat rust is treated with fungicide sprays. Apply in early spring.";
        chunk_page_num := 1 |}].
Proof.
  refine (extracted_chunks_page_numbers Fixture.ready (Py.lit "docs/wheat.pdf")
            2 [] Fixture.three_pages
            [ {| text := text Sample.two_line_page; page_num := 1 |};
              {| text := Py.lit "Barley."; page_num := 2 |} ]
            _ 1 600 100 [] _ eq_refl _ _).
  - vm_compute. reflexivity.
  - vm_compute. reflexivity.
Defined.

(* ===================================================================== *)
(** ** [store_in_pinecone] *)
(* ===================================================================== *)

Module DecFacts.

Lemma lit_ascii_from (l : list ascii) :
  Forall (fun a => (N_of_ascii a < 128)%N) l ->
  Py.utf8_decode_from 0 0%N (List.map N_of_ascii l) = List.map N_of_ascii l.
Proof.
  induction 1 as [|a l Ha _ IH]; [reflexivity|]. simpl List.map.
  cbn [Py.utf8_decode_from].
  destruct (N.ltb_spec (N_of_ascii a) 128); [|lia]. now rewrite IH.
Qed.

Lemma uint_ascii u :
  Forall (fun a => (N_of_ascii a < 128)%N)
         (list_ascii_of_string (NilEmpty.string_of_uint u)).
Proof.
  induction u; simpl; constructor; try assumption; reflexivity.
Qed.

Lemma int_ascii d :
  Forall (fun a => (N_of_ascii a < 128)%N)
         (list_ascii_of_string (NilZero.string_of_int d)).
Proof.
  destruct d as [u|u]; unfold NilZero.string_of_int, NilZero.string_of_uint.
  - destruct u; try apply uint_ascii. repeat constructor.
  - simpl. constructor; [reflexivity|].
    destruct u; try apply uint_ascii. repeat constructor.
Qed.

Lemma to_int_nonnil z :
  Z.to_int z <> Decimal.Pos Decimal.Nil /\ Z.to_int z <> Decimal.Neg Decimal.Nil.
Proof.
  destruct z as [|p|p]; simpl; split; try discriminate;
    intros H; injection H; apply DecimalPos.Unsigned.to_uint_nonnil.
Qed.

(** [str] of an integer determines the integer. *)
Lemma dec_inj i j : Text.dec i = Text.dec j -> i = j.
Proof.
  unfold Text.dec, Py.lit. rewrite !lit_ascii_from by apply int_ascii.
  intros H.
  apply (f_equal (List.map ascii_of_N)) in H.
  rewrite !List.map_map in H.
  rewrite !(List.map_ext _ (fun a => a) ascii_N_embedding), !List.map_id in H.
  apply (f_equal string_of_list_ascii) in H.
  rewrite !string_of_list_ascii_of_string in H.
  apply (f_equal NilZero.int_of_string) in H.
  rewrite !NilZero.isi in H by apply to_int_nonnil.
  injection H as H. apply (f_equal Z.of_int) in H.
  now rewrite !DecimalZ.of_to in H.
Qed.

Lemma range_NoDup n : List.NoDup (Text.range n).
Proof.
  unfold Text.range. apply NoDup_map_NoDup_ForallPairs; [|apply seq_NoDup].
  intros a b _ _. apply Nat2Z.inj.
Qed.

End DecFacts.

Module PineconeFacts.
Import Rest.

Lemma generate_embedding_cases svc text tr :
  exists r evs,
    generate_embedding svc text tr = (r, tr ++ evs)
    /\ ((exists v, r = Ok v /\ Py.len v = 1024)
        \/ (r = Raise UnicodeEncodeError /\ ~ Utf8.unicode_text text)).
Proof.
  destruct (ollama_embeddings svc tr embedding_model text)
    as [native|e] eqn:Hmodel.
  - rewrite (EmbeddingFacts.generate_embedding_success svc text tr native
               Hmodel). cbv zeta.
    pose proof (EmbeddingFacts.padded_length native) as Hlen.
    match type of Hlen with Py.len ?w = _ => set (v := w) in * end.
    clearbody v. eexists. eexists. split; [reflexivity|].
    left. now exists v.
  - rewrite (EmbeddingFacts.generate_embedding_failure svc text tr e Hmodel).
    cbv zeta. destruct (Utf8.encode text) as [data|] eqn:Hd.
    + rewrite (EmbeddingFacts.fallback_embedding_value text data _ Hd).
      match goal with
      | |- context [Ok ?w] => set (v := w)
      end.
      assert (Py.len v = 1024) as Hlen
        by (unfold v, Py.len, Text.range; now rewrite !length_map, length_seq).
      clearbody v. eexists. eexists. split.
      * rewrite <- app_assoc. reflexivity.
      * left. now exists v.
    + rewrite (EmbeddingFacts.fallback_embedding_raises text _ Hd).
      eexists. eexists. split; [reflexivity|]. right. split; [reflexivity|].
      now apply EncodeFacts.encode_not_unicode_text.
Qed.

(** The loop over the chunks: a vector per chunk, unless a text cannot be
    encoded. *)
Lemma store_chunks svc doc_id original_filename
    (entries : list (Z * chunk_data)) :
  forall acc xtr,
  exists r evs,
    xfor_each entries (store_chunk svc doc_id original_filename) acc xtr
    = (r, xtr ++ List.map Core evs)
    /\ ((exists vs,
           r = Ok (acc ++ vs)
           /\ List.map v_id vs
              = List.map (fun e => vector_id doc_id (fst e)) entries
           /\ List.map v_metadata vs
              = List.map (fun e => metadata doc_id original_filename (fst e)
                                     (text_of (snd e)) (page_of (snd e)))
                         entries
           /\ Forall (fun v => Py.len (v_values v) = 1024) vs)
        \/ (r = Raise UnicodeEncodeError
            /\ Exists (fun e => ~ Utf8.unicode_text (text_of (snd e)))
                      entries)).
Proof.
  induction entries as [|[i c] entries IH]; intros acc xtr.
  - exists (Ok acc), []. simpl. rewrite app_nil_r. split; [reflexivity|].
    left. exists []. rewrite app_nil_r. repeat split. constructor.
  - cbn [xfor_each].
    destruct (generate_embedding_cases svc (text_of c) (core_events xtr))
      as [r [evs [Hgen Hr]]].
    apply XFacts.lift_run in Hgen.
    assert (store_chunk svc doc_id original_filename (i, c) acc xtr =
            match r with
            | Ok embedding =>
                (Ok (acc ++ [{| v_id := vector_id doc_id i;
                                v_values := embedding;
                                v_metadata :=
                                  metadata doc_id original_filename i
                                    (text_of c) (page_of c) |}]),
                 xtr ++ List.map Core evs)
            | Raise e => (Raise e, xtr ++ List.map Core evs)
            | Diverge => (Diverge, xtr ++ List.map Core evs)
            end) as Hstep.
    { unfold store_chunk. destruct c as [t p|t]; cbn [text_of page_of] in *;
        unfold mbind, X_bind; rewrite Hgen; now destruct r. }
    unfold mbind at 1, X_bind at 1. rewrite Hstep.
    destruct Hr as [[v [-> Hv]]|[-> Hbad]].
    + destruct (IH (acc ++ [{| v_id := vector_id doc_id i;
                               v_values := v;
                               v_metadata :=
                                 metadata doc_id original_filename i
                                   (text_of c) (page_of c) |}])
                   (xtr ++ List.map Core evs))
        as [r' [evs' [Hloop Hr']]].
      exists r', (evs ++ evs'). rewrite Hloop.
      split; [now rewrite List.map_app, app_assoc|].
      destruct Hr' as [[vs [-> [Hid [Hmeta Hdim]]]]|[-> Hbad]].
      * left. eexists (_ :: vs). rewrite <- app_assoc. split; [reflexivity|].
        simpl. rewrite Hid, Hmeta. repeat split. now constructor.
      * right. split; [reflexivity|]. now apply Exists_cons_tl.
    + exists (Raise UnicodeEncodeError), evs. split; [reflexivity|].
      right. split; [reflexivity|]. now apply Exists_cons_hd.
Qed.

Lemma filter_upsert_core evs : List.filter is_upsert (List.map Core evs) = [].
Proof. induction evs as [|ev evs IH]; [reflexivity | exact IH]. Qed.

Lemma vector_id_NoDup doc_id n :
  List.NoDup (List.map (vector_id doc_id) (Text.range n)).
Proof.
  apply NoDup_map_NoDup_ForallPairs; [|apply DecFacts.range_NoDup].
  intros i j _ _ H. unfold vector_id in H.
  apply app_inv_head in H. apply app_inv_head in H.
  now apply DecFacts.dec_inj.
Qed.

(** What [store_in_pinecone] does, in full. *)
Lemma store_in_pinecone_cases svc more chunks doc_id original_filename tr :
  exists evs,
    (store_in_pinecone svc more chunks doc_id original_filename tr
     = (Raise UnicodeEncodeError, tr ++ List.map Core evs)
     /\ Exists (fun c => ~ Utf8.unicode_text (text_of c)) chunks)
    \/ exists vectors,
         store_in_pinecone svc more chunks doc_id original_filename tr
         = match pinecone_upsert more (tr ++ List.map Core evs) vectors with
           | Returns _ =>
               (Ok tt,
                tr ++ List.map Core evs
                   ++ [ PineconeUpsert vectors;
                        XLog INFO (StoredVectors (Py.len chunks)) ])
           | Fails e =>
               (Raise e, tr ++ List.map Core evs ++ [PineconeUpsert vectors])
           end
         /\ List.map v_id vectors
            = List.map (vector_id doc_id) (Text.range (length chunks))
         /\ List.map v_metadata vectors
            = List.map (fun e => metadata doc_id original_filename (fst e)
                                   (text_of (snd e)) (page_of (snd e)))
                       (enumerate chunks)
         /\ Forall (fun v => Py.len (v_values v) = 1024) vectors.
Proof.
  unfold store_in_pinecone.
  destruct (store_chunks svc doc_id original_filename (enumerate chunks) [] tr)
    as [r [evs [Hloop Hr]]].
  exists evs. destruct Hr as [[vs [-> [Hid [Hmeta Hdim]]]]|[-> Hbad]].
  - right. exists vs. simpl app in Hloop.
    rewrite (XFacts.xbind_ok _ _ _ _ _ Hloop).
    split; [|split; [|split]]; try assumption.
    + unfold xcall, xlog, xemit, mbind, X_bind.
      assert (Py.len vs = Py.len chunks) as Hlen.
      { apply (f_equal (@length _)) in Hid.
        rewrite !length_map, XFacts.enumerate_length in Hid.
        unfold Py.len. now rewrite Hid. }
      destruct (pinecone_upsert more _ vs).
      * rewrite Hlen, <- !app_assoc. reflexivity.
      * now rewrite <- app_assoc.
    + rewrite Hid, <- XFacts.enumerate_fst, List.map_map. reflexivity.
  - left. rewrite (XFacts.xbind_raise _ _ _ _ _ Hloop). split; [reflexivity|].
    apply List.Exists_exists in Hbad. destruct Hbad as [[k c] [Hin Hbad]].
    apply List.Exists_exists. exists c. split; [|exact Hbad].
    apply XFacts.enumerate_In in Hin. destruct Hin as [_ Hnth].
    now apply nth_error_In in Hnth.
Qed.

End PineconeFacts.



(** X11.  A call upserts all of its chunks or none: there is at most one
    upsert, it carries exactly one vector per chunk, and the ids of these
    vectors are pairwise different.  When no upsert is made, the call has
    ended with the encoding error of a chunk text, and the embeddings
    computed before it are dropped. *)
Theorem store_in_pinecone_all_or_nothing svc more chunks doc_id
    original_filename tr :
  exists evs,
    snd (Rest.store_in_pinecone svc more chunks doc_id original_filename tr)
    = tr ++ evs
    /\ (length (List.filter Rest.is_upsert evs) <= 1)%nat
    /\ (forall vectors,
          In (Rest.PineconeUpsert vectors) evs ->
          Py.len vectors = Py.len chunks
          /\ List.NoDup (List.map Rest.v_id vectors))
    /\ (List.filter Rest.is_upsert evs = [] ->
        fst (Rest.store_in_pinecone svc more chunks doc_id original_filename tr)
        = Raise UnicodeEncodeError
        /\ Exists (fun c => ~ Utf8.unicode_text (Rest.text_of c)) chunks).
Proof.
  destruct (PineconeFacts.store_in_pinecone_cases svc more chunks doc_id
              original_filename tr)
    as [evs [[Hrun Hbad]|[vectors [Hrun [Hid _]]]]].
  - exists (List.map Rest.Core evs). rewrite Hrun.
    split; [reflexivity|].
    rewrite PineconeFacts.filter_upsert_core. split; [simpl; lia|].
    split; [|now intros _].
    intros vectors Hin. apply in_map_iff in Hin.
    destruct Hin as [ev [Hev _]]. discriminate.
  - assert (Py.len vectors = Py.len chunks
            /\ List.NoDup (List.map Rest.v_id vectors)) as Hvectors.
    { split.
      - apply (f_equal (@length _)) in Hid.
        rewrite !length_map, XFacts.range_length in Hid.
        unfold Py.len. now rewrite Hid.
      - rewrite Hid. apply PineconeFacts.vector_id_NoDup. }
    assert (forall tail vs,
              In (Rest.PineconeUpsert vs)
                 (List.map Rest.Core evs ++ Rest.PineconeUpsert vectors :: tail) ->
              (forall w, ~ In (Rest.PineconeUpsert w) tail) ->
              vs = vectors) as Honly.
    { intros tail vs Hin Htail. apply in_app_or in Hin.
      destruct Hin as [Hin|[Hin|Hin]].
      - apply in_map_iff in Hin. destruct Hin as [ev [Hev _]]. discriminate.
      - now injection Hin.
      - exfalso. exact (Htail vs Hin). }
    destruct (Rest.pinecone_upsert more (tr ++ List.map Rest.Core evs) vectors).
    + exists (List.map Rest.Core evs
              ++ [ Rest.PineconeUpsert vectors;
                   Rest.XLog INFO (Rest.StoredVectors (Py.len chunks)) ]).
      rewrite Hrun. split; [reflexivity|].
      rewrite List.filter_app, PineconeFacts.filter_upsert_core.
      split; [simpl; lia|]. split; [|discriminate].
      intros vs Hin. rewrite (Honly _ vs Hin); [exact Hvectors|].
      intros w [Hw|[]]. discriminate.
    + exists (List.map Rest.Core evs ++ [Rest.PineconeUpsert vectors]).
      rewrite Hrun. split; [reflexivity|].
      rewrite List.filter_app, PineconeFacts.filter_upsert_core.
      split; [simpl; lia|]. split; [|discriminate].
      intros vs Hin. rewrite (Honly _ vs Hin); [exact Hvectors|].
      intros w [].
Qed.

Lemma store_in_pinecone_all_or_nothing_witness :
  fst (Rest.store_in_pinecone Sample.offline Fixture.ready
         [ Rest.ChunkStr (Py.lit "Rye"); Rest.ChunkStr [55296%N] ]
         (Py.lit "doc7") None [])
  = Raise UnicodeEncodeError
  /\ existsb Rest.is_upsert
       (snd (Rest.store_in_pinecone Sample.offline Fixture.ready
               [ Rest.ChunkStr (Py.lit "Rye"); Rest.ChunkStr [55296%N] ]
               (Py.lit "doc7") None [])) = false.
Proof.
  destruct (store_in_pinecone_all_or_nothing Sample.offline Fixture.ready
              [ Rest.ChunkStr (Py.lit "Rye"); Rest.ChunkStr [55296%N] ]
              (Py.lit "doc7") None [])
    as [evs [Htr [_ [_ Hnone]]]].
  split.
  - apply Hnone. change ([] ++ evs) with evs in Htr. rewrite <- Htr.
    vm_compute. reflexivity.
  - vm_compute. reflexivity.
Defined.

(* ===================================================================== *)
(** ** More on [extract_entities_with_llm] *)
(* ===================================================================== *)

Module ExtractMore.

Lemma slice_to_take {A : Type} (l : list A) n :
  0 <= n -> Py.slice_to l n = firstn (Z.to_nat n) l.
Proof.
  intros Hn. destruct (Z.le_gt_cases n (Py.len l)) as [Hle|Hgt].
  - apply EmbeddingFacts.slice_to_firstn. lia.
  - unfold Py.slice_to. rewrite slice_whole by lia.
    rewrite firstn_all2; [reflexivity|]. unfold Py.len in Hgt. lia.
Qed.

Lemma slice_to_idempotent {A : Type} (l : list A) n :
  0 <= n -> Py.slice_to (Py.slice_to l n) n = Py.slice_to l n.
Proof.
  intros Hn. rewrite !slice_to_take by exact Hn.
  rewrite firstn_firstn. now rewrite Nat.min_id.
Qed.

End ExtractMore.

(** X12.  Only the first 1000 characters of the text reach the language
    model: the call behaves on a text exactly as on its first 1000
    characters. *)
Theorem extract_entities_reads_prefix svc rt text tr :
  extract_entities_with_llm svc rt text tr
  = extract_entities_with_llm svc rt (Py.slice_to text 1000) tr.
Proof.
  unfold extract_entities_with_llm.
  assert (extraction_prompt (Py.slice_to text 1000) = extraction_prompt text)
    as ->; [|reflexivity].
  unfold extraction_prompt.
  now rewrite ExtractMore.slice_to_idempotent by lia.
Qed.

(** X13.  A call makes exactly one call to a collaborator, the chat call
    to [gemma:2b] with the extraction prompt, and writes at most one log
    line after it; when it writes none, or an error line, its result is
    the empty extraction. *)
Theorem extract_entities_one_call svc rt text tr :
  exists logs,
    snd (extract_entities_with_llm svc rt text tr)
    = tr ++ OllamaChat (Py.lit "gemma:2b") (extraction_prompt text)
                       extraction_options :: logs
    /\ ((logs = []
         /\ fst (extract_entities_with_llm svc rt text tr)
            = Ok empty_extraction)
        \/ (exists e,
              logs = [Log ERROR (EntityExtractionFailed e)]
              /\ fst (extract_entities_with_llm svc rt text tr)
                 = Ok empty_extraction)
        \/ (exists n result,
              logs = [Log DEBUG (ExtractedEntities n)]
              /\ fst (extract_entities_with_llm svc rt text tr) = Ok result)).
Proof.
  unfold extract_entities_with_llm.
  set (prompt := extraction_prompt text). clearbody prompt.
  set (model := Py.lit "gemma:2b"). clearbody model.
  set (k_message := Py.lit "message"). clearbody k_message.
  set (k_content := Py.lit "content"). clearbody k_content.
  set (k_entities := Py.lit "entities"). clearbody k_entities.
  set (nothing := empty_extraction). clearbody nothing.
  assert (forall e,
            exists logs,
              (tr ++ [OllamaChat model prompt extraction_options])
              ++ [Log ERROR (EntityExtractionFailed e)]
              = tr ++ OllamaChat model prompt extraction_options :: logs
              /\ ((logs = [] /\ Ok nothing = Ok nothing)
                  \/ (exists e',
                        logs = [Log ERROR (EntityExtractionFailed e')]
                        /\ Ok nothing = Ok nothing)
                  \/ (exists (n : Z) (result : pyval),
                        logs = [Log DEBUG (ExtractedEntities n)]
                        /\ Ok nothing = Ok result))) as Hfail.
  { intros e. exists [Log ERROR (EntityExtractionFailed e)].
    split; [now rewrite <- app_assoc|]. right. left. now exists e. }
  unfold try_except, chat, call, Dyn.getitem, of_reply, log, emit,
    mbind, M_bind, mret, M_ret, raise.
  destruct (ollama_chat svc tr model prompt extraction_options)
    as [response|e]; cbn [fst snd]; [|exact (Hfail e)].
  destruct (Dyn.item response k_message) as [message|e]; cbn [fst snd];
    [|exact (Hfail e)].
  destruct (Dyn.item message k_content) as [content|e]; cbn [fst snd];
    [|exact (Hfail e)].
  destruct content as [| | | |content| |]; cbn [Dyn.as_str fst snd];
    unfold raise, mret, M_ret; try exact (Hfail AttributeError).
  destruct ((Py.find 123%N content >=? 0)
            && (Py.rfind 125%N content + 1 >? Py.find 123%N content));
    cbn [fst snd]; [|exists []; split; [reflexivity|now left]].
  destruct (json_loads rt _) as [result|e]; cbn [fst snd];
    [|exact (Hfail e)].
  destruct result as [| | | | | |d]; cbn [Dyn.get fst snd];
    unfold raise, mret, M_ret; try exact (Hfail AttributeError).
  destruct (default (PList []) (Dyn.assoc k_entities d)) as [| | | |s|l|d'];
    cbn [Dyn.len fst snd]; unfold raise, mret, M_ret;
    try exact (Hfail TypeError);
    (eexists; split; [rewrite <- app_assoc; reflexivity|];
     right; right; eexists; eexists; split; reflexivity).
Qed.

(** X14.  A decoded JSON object is returned as it is, whatever keys it
    holds, when its ['entities'] value is a list or is absent; when that
    value is [null], a number or a boolean, the object is dropped: the
    error is logged and the empty extraction returned. *)
Theorem extract_entities_decoded svc rt text tr response message content d :
  ollama_chat svc tr (Py.lit "gemma:2b") (extraction_prompt text)
              extraction_options = Returns response ->
  Dyn.item response (Py.lit "message") = Returns message ->
  Dyn.item message (Py.lit "content") = Returns (PStr content) ->
  (Py.find 123%N content >=? 0)
  && (Py.rfind 125%N content + 1 >? Py.find 123%N content) = true ->
  json_loads rt (Py.slice content (Py.find 123%N content)
                          (Py.rfind 125%N content + 1))
  = Returns (PDict d) ->
  let called :=
    tr ++ [OllamaChat (Py.lit "gemma:2b") (extraction_prompt text)
                      extraction_options] in
  (Dyn.assoc (Py.lit "entities") d = None ->
   extract_entities_with_llm svc rt text tr
   = (Ok (PDict d), called ++ [Log DEBUG (ExtractedEntities 0)]))
  /\ (forall l,
        Dyn.assoc (Py.lit "entities") d = Some (PList l) ->
        extract_entities_with_llm svc rt text tr
        = (Ok (PDict d), called ++ [Log DEBUG (ExtractedEntities (Py.len l))]))
  /\ (forall v,
        Dyn.assoc (Py.lit "entities") d = Some v ->
        v = PNone \/ (exists b, v = PBool b) \/ (exists z, v = PInt z)
        \/ (exists f, v = PFloat f) ->
        extract_entities_with_llm svc rt text tr
        = (Ok empty_extraction,
           called ++ [Log ERROR (EntityExtractionFailed TypeError)])).
Proof.
  intros Hchat Hmessage Hcontent Hbraces Hjson called. subst called.
  unfold extract_entities_with_llm.
  set (prompt := extraction_prompt text) in *. clearbody prompt.
  set (model := Py.lit "gemma:2b") in *. clearbody model.
  set (k_message := Py.lit "message") in *. clearbody k_message.
  set (k_content := Py.lit "content") in *. clearbody k_content.
  set (k_entities := Py.lit "entities") in *. clearbody k_entities.
  set (nothing := empty_extraction). clearbody nothing.
  unfold try_except, chat, call, Dyn.getitem, of_reply, log, emit,
    mbind, M_bind, mret, M_ret, raise.
  rewrite Hchat, Hmessage, Hcontent. cbn [Dyn.as_str]. unfold mret, M_ret.
  rewrite Hbraces, Hjson. cbn [Dyn.get]. unfold mret, M_ret.
  split; [|split].
  - intros ->. reflexivity.
  - intros l ->. reflexivity.
  - intros v -> [->|[[b ->]|[[z ->]|[f ->]]]]; reflexivity.
Qed.

Lemma extract_entities_decoded_witness :
  extract_entities_with_llm
    (Sample.online 768 (Py.lit "Here: {...}") 0 0 [])
    (Fixture.decoding
       (PDict [ (Py.lit "entities", PNone);
                (Py.lit "relationships", PList [PStr (Py.lit "r")]) ]))
    (Py.lit "Wheat rust") []
  = (Ok empty_extraction,
     [ OllamaChat (Py.lit "gemma:2b") (extraction_prompt (Py.lit "Wheat rust"))
                  extraction_options;
       Log ERROR (EntityExtractionFailed TypeError) ]).
Proof.
  refine (proj2 (proj2
            (extract_entities_decoded
               (Sample.online 768 (Py.lit "Here: {...}") 0 0 [])
               (Fixture.decoding
                  (PDict [ (Py.lit "entities", PNone);
                           (Py.lit "relationships",
                            PList [PStr (Py.lit "r")]) ]))
               (Py.lit "Wheat rust") [] _ _ (Py.lit "Here: {...}") _
               eq_refl eq_refl eq_refl _ eq_refl))
            PNone _ (or_introl eq_refl)).
  - vm_compute. reflexivity.
  - vm_compute. reflexivity.
Defined.

(* ===================================================================== *)
(** ** More on [store_in_neo4j]; [query_graph] *)
(* ===================================================================== *)

Module StoreMore.

Lemma halts_for_each {A S : Type} (body : A -> S -> M S) (l : list A) :
  (forall x acc, halts (body x acc)) -> forall acc, halts (for_each l body acc).
Proof.
  intros Hbody. induction l as [|x l IH]; intros acc; simpl.
  - apply halts_ret.
  - apply halts_bind; [apply Hbody | exact IH].
Qed.

Lemma halts_try {A : Type} (body : M A) (handler : exn -> M A) :
  halts body -> (forall e, halts (handler e)) ->
  halts (try_except body handler).
Proof.
  intros Hb Hh tr. unfold try_except.
  destruct (Hb tr) as [tr1 [[a ->]|[e ->]]].
  - exists tr1. left. now exists a.
  - apply Hh.
Qed.

Lemma halts_store_entity svc rt e ids : halts (store_entity svc rt e ids).
Proof.
  unfold store_entity. apply halts_bind; [apply halts_call|].
  intros result. destruct (single result) as [[|c r]|]; try apply halts_ret.
  apply halts_bind; [apply StatisticsFacts.halts_field|].
  intros id. apply halts_ret.
Qed.

Lemma halts_store_relationship svc rt ids rel u :
  halts (store_relationship svc rt ids rel u).
Proof.
  unfold store_relationship. cbv zeta.
  destruct (Dyn.truthy _ && Dyn.truthy _); [|apply halts_ret].
  apply halts_try.
  - apply halts_bind; [apply halts_call | intros _; apply halts_ret].
  - intros e. apply halts_emit.
Qed.

Lemma halts_store_body svc rt entities relationships :
  halts (entity_ids ← for_each entities (store_entity svc rt) ∅;
         for_each relationships (store_relationship svc rt entity_ids) tt;;
         log INFO (StoredEntities (Z.of_nat (size entity_ids))
                                  (Py.len relationships))).
Proof.
  apply halts_bind.
  - apply halts_for_each. intros e ids. apply halts_store_entity.
  - intros ids. apply halts_bind.
    + apply halts_for_each. intros rel u. apply halts_store_relationship.
    + intros _. apply halts_emit.
Qed.

(** Leaving the [with] block is the last thing that happens. *)
Lemma closing_last {A : Type} svc (body : M A) tr :
  halts body ->
  exists r pre,
    closing svc body tr = (r, pre ++ [Neo4jClose]) /\ r <> Diverge.
Proof.
  intros Hb. unfold closing, call, mbind, M_bind, mret, M_ret, raise.
  destruct (Hb tr) as [tr1 [[a ->]|[e ->]]];
    destruct (neo4j_close svc tr1) as [[]|e'];
    eexists; exists tr1; split; try reflexivity; discriminate.
Qed.

Lemma session_refused {A : Type} svc (body : M A) tr e :
  neo4j_session svc tr = Fails e ->
  with_session svc body tr = (Raise e, tr ++ [Neo4jSession]).
Proof.
  intros H. unfold with_session, call, mbind, M_bind. now rewrite H.
Qed.

Lemma session_opened {A : Type} svc (body : M A) tr :
  neo4j_session svc tr = Returns tt ->
  with_session svc body tr = closing svc body (tr ++ [Neo4jSession]).
Proof.
  intros H. unfold with_session, call, mbind, M_bind. now rewrite H.
Qed.

Lemma entity_ids_size svc rt entities :
  forall acc tr ids tr',
  for_each entities (store_entity svc rt) acc tr = (Ok ids, tr') ->
  (size ids <= size acc + length entities)%nat.
Proof.
  induction entities as [|e entities IH]; intros acc tr ids tr' H; simpl in H.
  - injection H as -> _. simpl. lia.
  - apply StatisticsFacts.bind_inv in H. destruct H as [acc' [t [He Hrest]]].
    apply IH in Hrest.
    assert (size acc' <= S (size acc))%nat; [|simpl; lia].
    unfold store_entity in He.
    apply StatisticsFacts.bind_inv in He. destruct He as [result [t1 [_ He]]].
    destruct (single result) as [[|c r]|].
    + injection He as <- _. lia.
    + apply StatisticsFacts.bind_inv in He. destruct He as [node [t2 [_ He]]].
      injection He as <- _. rewrite map_size_insert.
      destruct (acc !! e_name e); unfold id; lia.
    + injection He as <- _. lia.
Qed.

Lemma store_entity_fails svc rt e ids tr err :
  neo4j_run svc tr (merge_node_query (entity_label rt e))
    [ (Py.lit "name", PStr (e_name e));
      (Py.lit "description", PStr (default [] (e_description e))) ]
  = Fails err ->
  store_entity svc rt e ids tr =
  (Raise err,
   tr ++ [ Neo4jRun (merge_node_query (entity_label rt e))
             [ (Py.lit "name", PStr (e_name e));
               (Py.lit "description",
                PStr (default [] (e_description e))) ] ]).
Proof.
  intros H. unfold store_entity. cbv zeta. apply bind_raise.
  unfold run, call. now rewrite H.
Qed.

End StoreMore.

Module EntityLoop.
Import Rest.

Lemma for_each_app {A S : Type} (body : A -> S -> M S) (l1 l2 : list A) :
  forall acc tr,
  for_each (l1 ++ l2) body acc tr =
  match for_each l1 body acc tr with
  | (Ok acc', tr') => for_each l2 body acc' tr'
  | other => other
  end.
Proof.
  induction l1 as [|x l1 IH]; intros acc tr; [reflexivity|].
  simpl. unfold mbind, M_bind.
  destruct (body x acc tr) as [[a|e|] t]; [apply IH | reflexivity..].
Qed.

(** One entity whose query is answered: what is stored. *)
Lemma store_entity_ok svc rt e acc tr acc' tr' :
  store_entity svc rt e acc tr = (Ok acc', tr') ->
  exists records,
    neo4j_run svc tr (merge_node_query (entity_label rt e)) (entity_params e)
    = Returns records
    /\ tr' = tr ++ [entity_run rt e]
    /\ ((exists c r id,
           single records = Some (c :: r)
           /\ acc' = <[e_name e := id]> acc)
        \/ ((forall c r, single records <> Some (c :: r)) /\ acc' = acc)).
Proof.
  unfold store_entity, run, call, entity_run, entity_params. cbv zeta.
  set (query := merge_node_query (entity_label rt e)). clearbody query.
  set (params := [(Py.lit "name", PStr (e_name e)); _]). clearbody params.
  unfold mbind at 1, M_bind at 1.
  destruct (neo4j_run svc tr query params) as [records|err];
    [|discriminate].
  intros H. exists records. split; [reflexivity|].
  destruct (single records) as [[|c r]|] eqn:Hs.
  - injection H as <- <-. split; [reflexivity|]. right.
    split; [intros c r; discriminate | reflexivity].
  - apply StatisticsFacts.bind_inv in H. destruct H as [id [t [Hfield H]]].
    injection H as <- <-.
    assert (t = tr ++ [Neo4jRun query params]) as ->.
    { unfold field in Hfield.
      destruct (Dyn.assoc _ (c :: r)); [|discriminate].
      now injection Hfield. }
    split; [reflexivity|]. left. now exists c, r, id.
  - injection H as <- <-. split; [reflexivity|]. right.
    split; [intros c r; discriminate | reflexivity].
Qed.

(** One entity whose query is answered with no record or with a record
    that has an id is stored. *)
Lemma store_entity_stored svc rt e acc tr records :
  neo4j_run svc tr (merge_node_query (entity_label rt e)) (entity_params e)
  = Returns records ->
  (forall c r, single records = Some (c :: r) ->
     exists id, Dyn.assoc (Py.lit "id") (c :: r) = Some id) ->
  exists acc',
    store_entity svc rt e acc tr = (Ok acc', tr ++ [entity_run rt e]).
Proof.
  intros Hrun Hid.
  unfold store_entity, run, call, entity_run, entity_params in *. cbv zeta.
  set (query := merge_node_query (entity_label rt e)) in *. clearbody query.
  set (params := [(Py.lit "name", PStr (e_name e)); _]) in *. clearbody params.
  unfold mbind at 1, M_bind at 1. rewrite Hrun.
  destruct (single records) as [[|c r]|] eqn:Hs;
    try (eexists; reflexivity).
  destruct (Hid c r eq_refl) as [id Hassoc].
  unfold field, mbind, M_bind. rewrite Hassoc. eexists. reflexivity.
Qed.

(** The loop over entities whose queries are all answered. *)
Lemma entities_stored svc rt entities :
  forall acc pre,
  (forall i e, nth_error entities i = Some e ->
     exists records,
       neo4j_run svc (pre ++ List.map (entity_run rt) (firstn i entities))
         (merge_node_query (entity_label rt e)) (entity_params e)
       = Returns records
       /\ forall c r, single records = Some (c :: r) ->
            exists id, Dyn.assoc (Py.lit "id") (c :: r) = Some id) ->
  exists ids,
    for_each entities (store_entity svc rt) acc pre
    = (Ok ids, pre ++ List.map (entity_run rt) entities).
Proof.
  induction entities as [|e0 rest IH]; intros acc pre H.
  - exists acc. simpl. now rewrite app_nil_r.
  - destruct (H 0%nat e0 eq_refl) as [records [Hrun Hid]].
    simpl in Hrun. rewrite app_nil_r in Hrun.
    destruct (store_entity_stored svc rt e0 acc pre records Hrun Hid)
      as [acc' Hstep].
    destruct (IH acc' (pre ++ [entity_run rt e0])) as [ids Hloop].
    { intros i e Hnth. destruct (H (S i) e Hnth) as [records' [Hrun' Hid']].
      exists records'. split; [|exact Hid'].
      simpl in Hrun'. now rewrite <- app_assoc. }
    exists ids. cbn [for_each]. rewrite (bind_ok _ _ _ _ _ Hstep), Hloop.
    now rewrite <- app_assoc.
Qed.

(** The names resolved by the loop: those of the entities whose query
    gave a record. *)
Lemma entities_resolved svc rt entities :
  forall (acc : gmap Py.str pyval) pre ids tr',
  for_each entities (store_entity svc rt) acc pre = (Ok ids, tr') ->
  forall name,
    is_Some (ids !! name) <->
    is_Some (acc !! name)
    \/ exists i e records c r,
         nth_error entities i = Some e /\ e_name e = name
         /\ neo4j_run svc
              (pre ++ List.map (entity_run rt) (firstn i entities))
              (merge_node_query (entity_label rt e)) (entity_params e)
            = Returns records
         /\ single records = Some (c :: r).
Proof.
  induction entities as [|e0 rest IH]; intros acc pre ids tr' H name.
  - injection H as <- _. split; [now left|].
    intros [Hacc|[i [e [records [c [r [Hnth _]]]]]]]; [exact Hacc|].
    destruct i; discriminate.
  - cbn [for_each] in H. apply StatisticsFacts.bind_inv in H.
    destruct H as [acc' [t [Hstep Hrest]]].
    apply store_entity_ok in Hstep.
    destruct Hstep as [records [Hrun [-> Hacc']]].
    rewrite (IH acc' _ ids tr' Hrest name). split.
    + intros [Hin|[i [e [records' [c [r [Hnth [Hname [Hrun' Hs]]]]]]]]].
      * destruct Hacc' as [[c [r [id [Hs ->]]]]|[_ ->]]; [|now left].
        apply lookup_insert_is_Some in Hin.
        destruct Hin as [<-|[_ Hin]]; [|now left].
        right. exists 0%nat, e0, records, c, r.
        simpl. rewrite app_nil_r. now repeat split.
      * right. exists (S i), e, records', c, r.
        simpl. rewrite <- app_assoc in Hrun'. now repeat split.
    + intros [Hin|[i [e [records' [c [r [Hnth [Hname [Hrun' Hs]]]]]]]]].
      * left. destruct Hacc' as [[c [r [id [Hs ->]]]]|[_ ->]]; [|exact Hin].
        apply lookup_insert_is_Some.
        destruct (decide (e_name e0 = name)) as [E|Hne];
          [now left | right; now split].
      * destruct i as [|i].
        -- simpl in Hnth. injection Hnth as <-.
           simpl in Hrun'. rewrite app_nil_r in Hrun'.
           rewrite Hrun in Hrun'. injection Hrun' as <-.
           left. destruct Hacc' as [[c' [r' [id [_ ->]]]]|[Hnone _]].
           ++ apply lookup_insert_is_Some. left. exact Hname.
           ++ exfalso. exact (Hnone c r Hs).
        -- right. exists i, e, records', c, r.
           simpl in Hnth, Hrun'. rewrite <- app_assoc.
           now repeat split.
Qed.

(** The keys of a mapping as a list. *)
Lemma keys_of (ids : gmap Py.str pyval) :
  exists names : list Py.str,
    List.NoDup names
    /\ length names = size ids
    /\ forall name, In name names <-> is_Some (ids !! name).
Proof.
  exists (List.map fst (map_to_list ids)). split; [|split].
  - apply NoDup_ListNoDup. apply (NoDup_fst_map_to_list ids).
  - rewrite length_map. apply length_map_to_list.
  - intros name. rewrite in_map_iff. split.
    + intros [[k v] [<- Hin]]. apply list_elem_of_In in Hin.
      apply elem_of_map_to_list in Hin. now exists v.
    + intros [v Hv]. exists (name, v). split; [reflexivity|].
      apply list_elem_of_In. now apply elem_of_map_to_list.
Qed.

End EntityLoop.

(** X15.  Unlike a failing relationship, a failing entity query is not
    caught.  When the queries of the entities before it were answered (each
    with no record, or with a record that has an id) and the query of an
    entity fails, the call ends with the store's error right there: the
    events after the session was opened are the queries of the entities up
    to the failing one and the closing of the session.  No later entity
    and no relationship is sent, and nothing is logged. *)
Theorem store_in_neo4j_entity_failure svc rt before e after relationships tr
    err :
  neo4j_session svc tr = Returns tt ->
  (forall i e_i, nth_error before i = Some e_i ->
     exists records,
       neo4j_run svc
         (tr ++ Neo4jSession
             :: List.map (Rest.entity_run rt) (firstn i before))
         (merge_node_query (entity_label rt e_i)) (Rest.entity_params e_i)
       = Returns records
       /\ forall c r, single records = Some (c :: r) ->
            exists id, Dyn.assoc (Py.lit "id") (c :: r) = Some id) ->
  neo4j_run svc
    (tr ++ Neo4jSession :: List.map (Rest.entity_run rt) before)
    (merge_node_query (entity_label rt e)) (Rest.entity_params e)
  = Fails err ->
  neo4j_close svc
    (tr ++ Neo4jSession :: List.map (Rest.entity_run rt) (before ++ [e]))
  = Returns tt ->
  store_in_neo4j svc rt (before ++ e :: after) relationships tr =
  (Raise err,
   tr ++ Neo4jSession
      :: List.map (Rest.entity_run rt) (before ++ [e]) ++ [Neo4jClose]).
Proof.
  intros Hsession Hbefore Hrun Hclose. unfold store_in_neo4j.
  rewrite (StoreMore.session_opened _ _ _ Hsession).
  assert (forall l, tr ++ Neo4jSession :: l = (tr ++ [Neo4jSession]) ++ l)
    as Hshift by (intros l; now rewrite <- app_assoc).
  destruct (EntityLoop.entities_stored svc rt before ∅ (tr ++ [Neo4jSession]))
    as [ids Hloop].
  { intros i e_i Hnth. destruct (Hbefore i e_i Hnth) as [records [Hr Hid]].
    exists records. split; [|exact Hid]. now rewrite <- Hshift. }
  rewrite Hshift in Hrun.
  pose proof (StoreMore.store_entity_fails svc rt e ids _ err Hrun) as Hstep.
  assert (for_each (before ++ e :: after) (store_entity svc rt) ∅
            (tr ++ [Neo4jSession])
          = (Raise err,
             (tr ++ [Neo4jSession])
             ++ List.map (Rest.entity_run rt) (before ++ [e]))) as Hall.
  { rewrite EntityLoop.for_each_app, Hloop. cbn [for_each].
    rewrite (bind_raise _ _ _ _ _ Hstep).
    now rewrite List.map_app, app_assoc. }
  rewrite Hshift in Hclose.
  unfold closing. rewrite (bind_raise _ _ _ _ _ Hall).
  unfold call, mbind, M_bind, raise. rewrite Hclose.
  rewrite <- !app_assoc. reflexivity.
Qed.

Lemma store_in_neo4j_entity_failure_witness :
  store_in_neo4j Fixture.one_write Sample.rt
    [ {| e_name := Py.lit "rust"; e_type := None; e_description := None |};
      {| e_name := Py.lit "wheat"; e_type := Some (Py.lit "Crop");
         e_description := None |};
      {| e_name := Py.lit "barley"; e_type := None; e_description := None |} ]
    [ {| r_from := Py.lit "rust"; r_to := Py.lit "wheat";
         r_type := Py.lit "affects" |} ] []
  = (Raise Sample.down,
     [ Neo4jSession;
       Neo4jRun (merge_node_query (Py.lit "Entity"))
         [ (Py.lit "name", PStr (Py.lit "rust"));
           (Py.lit "description", PStr []) ];
       Neo4jRun (merge_node_query (Py.lit "Crop"))
         [ (Py.lit "name", PStr (Py.lit "wheat"));
           (Py.lit "description", PStr []) ];
       Neo4jClose ]).
Proof.
  refine (eq_trans
            (store_in_neo4j_entity_failure Fixture.one_write Sample.rt
               [ {| e_name := Py.lit "rust"; e_type := None;
                    e_description := None |} ]
               {| e_name := Py.lit "wheat"; e_type := Some (Py.lit "Crop");
                  e_description := None |}
               [ {| e_name := Py.lit "barley"; e_type := None;
                    e_description := None |} ]
               [ {| r_from := Py.lit "rust"; r_to := Py.lit "wheat";
                    r_type := Py.lit "affects" |} ] [] Sample.down
               eq_refl _ eq_refl eq_refl) _).
  - intros [|[|i]] e_i Hnth; simpl in Hnth; try discriminate Hnth.
    exists [ [ (Py.lit "id", PStr (Py.lit "4:0")) ] ].
    split; [reflexivity|]. intros c r Hs. injection Hs as <- <-.
    now exists (PStr (Py.lit "4:0")).
  - vm_compute. reflexivity.
Defined.

(** X16.  When the call returns, the last line it logged before closing
    the session reports two numbers.  The first is the number of resolved
    entity names: the different names of the entities whose query gave a
    record, which is at most the number of entities given.  The second is
    the number of relationships given, however many of them were skipped
    or failed. *)
Theorem store_in_neo4j_log svc rt entities relationships tr tr' :
  store_in_neo4j svc rt entities relationships tr = (Ok tt, tr') ->
  exists pre names,
    tr' = pre ++ [ Log INFO (StoredEntities (Py.len names)
                                            (Py.len relationships));
                   Neo4jClose ]
    /\ List.NoDup names
    /\ (forall name,
          In name names <->
          exists i e records c r,
            nth_error entities i = Some e /\ e_name e = name
            /\ neo4j_run svc
                 (tr ++ Neo4jSession
                     :: List.map (Rest.entity_run rt) (firstn i entities))
                 (merge_node_query (entity_label rt e))
                 (Rest.entity_params e)
               = Returns records
            /\ single records = Some (c :: r))
    /\ 0 <= Py.len names <= Py.len entities.
Proof.
  unfold store_in_neo4j, with_session. intros H.
  apply StatisticsFacts.bind_inv in H. destruct H as [[] [t1 [Hcall H]]].
  assert (t1 = tr ++ [Neo4jSession]) as ->.
  { unfold call in Hcall. destruct (neo4j_session svc tr); [|discriminate].
    now injection Hcall. }
  unfold closing in H.
  destruct (for_each entities (store_entity svc rt) ∅ (tr ++ [Neo4jSession]))
    as [[ids|e|] t2] eqn:Hentities.
  - rewrite (bind_ok _ _ _ _ _ Hentities) in H.
    destruct (for_each relationships (store_relationship svc rt ids) tt t2)
      as [[[]|e|] t3] eqn:Hrels.
    + rewrite (bind_ok _ _ _ _ _ Hrels) in H.
      unfold log, emit, call, mbind, M_bind, mret, M_ret in H.
      destruct (neo4j_close svc _); [|discriminate H].
      injection H as <-.
      destruct (EntityLoop.keys_of ids) as [names [Hnd [Hlen Hkeys]]].
      assert (Py.len names = Z.of_nat (size ids)) as Hn
        by (unfold Py.len; now rewrite Hlen).
      exists t3, names. rewrite Hn.
      split; [now rewrite <- app_assoc|]. split; [exact Hnd|]. split.
      * intros name. rewrite Hkeys.
        rewrite (EntityLoop.entities_resolved svc rt entities ∅ _ ids t2
                   Hentities name).
        split.
        -- intros [Hin|[i [e [records [c [r [Hnth [Hname [Hrun Hs]]]]]]]]].
           ++ exfalso. now apply lookup_empty_is_Some in Hin.
           ++ exists i, e, records, c, r. rewrite <- app_assoc in Hrun.
              now repeat split.
        -- intros [i [e [records [c [r [Hnth [Hname [Hrun Hs]]]]]]]].
           right. exists i, e, records, c, r. rewrite <- app_assoc.
           now repeat split.
      * apply StoreMore.entity_ids_size in Hentities.
        rewrite map_size_empty in Hentities. unfold Py.len. lia.
    + rewrite (bind_raise _ _ _ _ _ Hrels) in H.
      unfold call, mbind, M_bind, raise in H.
      destruct (neo4j_close svc _); discriminate H.
    + exfalso. unfold mbind, M_bind in H. rewrite Hrels in H. discriminate H.
  - rewrite (bind_raise _ _ _ _ _ Hentities) in H.
    unfold call, mbind, M_bind, raise in H.
    destruct (neo4j_close svc _); discriminate H.
  - exfalso. unfold mbind, M_bind in H. rewrite Hentities in H. discriminate H.
Qed.

Lemma store_in_neo4j_log_witness :
  exists pre names,
    snd (store_in_neo4j Sample.no_edges Sample.rt
           [ {| e_name := Py.lit "rust"; e_type := None;
                e_description := None |};
             {| e_name := Py.lit "rust"; e_type := Some (Py.lit "Disease");
                e_description := None |} ]
           [ {| r_from := Py.lit "rust"; r_to := Py.lit "rust";
                r_type := Py.lit "affects" |} ] [])
    = pre ++ [Log INFO (StoredEntities (Py.len names) 1); Neo4jClose]
    /\ List.NoDup names
    /\ In (Py.lit "rust") names
    /\ (forall name, In name names -> name = Py.lit "rust").
Proof.
  destruct (store_in_neo4j_log Sample.no_edges Sample.rt
              [ {| e_name := Py.lit "rust"; e_type := None;
                   e_description := None |};
                {| e_name := Py.lit "rust"; e_type := Some (Py.lit "Disease");
                   e_description := None |} ]
              [ {| r_from := Py.lit "rust"; r_to := Py.lit "rust";
                   r_type := Py.lit "affects" |} ] []
              (snd (store_in_neo4j Sample.no_edges Sample.rt
                      [ {| e_name := Py.lit "rust"; e_type := None;
                           e_description := None |};
                        {| e_name := Py.lit "rust";
                           e_type := Some (Py.lit "Disease");
                           e_description := None |} ]
                      [ {| r_from := Py.lit "rust"; r_to := Py.lit "rust";
                           r_type := Py.lit "affects" |} ] [])))
    as [pre [names [Htr [Hnd [Hnames _]]]]].
  - vm_compute. reflexivity.
  - exists pre, names. split; [exact Htr|]. split; [exact Hnd|]. split.
    + apply Hnames.
      exists 0%nat,
        {| e_name := Py.lit "rust"; e_type := None; e_description := None |},
        [ [ (Py.lit "id", PStr (Py.lit "4:0")) ] ],
        (Py.lit "id", PStr (Py.lit "4:0")), [].
      repeat split.
    + intros name Hin. apply Hnames in Hin.
      destruct Hin as [i [e [records [c [r [Hnth [Hname _]]]]]]].
      destruct i as [|[|[|i]]]; simpl in Hnth; try discriminate Hnth;
        injection Hnth as <-; now rewrite <- Hname.
Defined.

(** X17.  The session is never left open: when it cannot be opened
    nothing else is attempted, and once it is open the call always ends,
    with a result or an exception, and closing the session is the last
    thing it does. *)
Theorem store_in_neo4j_closes_session svc rt entities relationships tr :
  (forall e,
     neo4j_session svc tr = Fails e ->
     store_in_neo4j svc rt entities relationships tr
     = (Raise e, tr ++ [Neo4jSession]))
  /\ (neo4j_session svc tr = Returns tt ->
      exists r pre,
        store_in_neo4j svc rt entities relationships tr
        = (r, pre ++ [Neo4jClose])
        /\ r <> Diverge).
Proof.
  split.
  - intros e He. unfold store_in_neo4j. now apply StoreMore.session_refused.
  - intros Hs. unfold store_in_neo4j.
    rewrite (StoreMore.session_opened _ _ _ Hs).
    apply StoreMore.closing_last, StoreMore.halts_store_body.
Qed.

Lemma store_in_neo4j_closes_session_witness :
  store_in_neo4j Sample.offline Sample.rt
    [ {| e_name := Py.lit "rust"; e_type := None; e_description := None |} ]
    [] []
  = (Raise Sample.down, [Neo4jSession]).
Proof.
  exact (proj1 (store_in_neo4j_closes_session Sample.offline Sample.rt
                  [ {| e_name := Py.lit "rust"; e_type := None;
                       e_description := None |} ] [] [])
               Sample.down eq_refl).
Defined.

(** X18.  [query_graph] has no handler of its own.  It sends one query
    with the name as its only parameter and returns the records as they
    come; an error of the store reaches the caller after the session is
    closed, and a session that cannot be opened is reported without any
    query being sent. *)
Theorem query_graph_outcomes svc entity_name tr :
  (forall e,
     neo4j_session svc tr = Fails e ->
     Rest.query_graph svc entity_name tr = (Raise e, tr ++ [Neo4jSession]))
  /\ (neo4j_session svc tr = Returns tt ->
      neo4j_close svc
        (tr ++ [ Neo4jSession;
                 Neo4jRun Rest.graph_query
                   [ (Py.lit "name", PStr entity_name) ] ])
      = Returns tt ->
      Rest.query_graph svc entity_name tr =
      (match neo4j_run svc (tr ++ [Neo4jSession]) Rest.graph_query
               [ (Py.lit "name", PStr entity_name) ] with
       | Returns records => Ok records
       | Fails e => Raise e
       end,
       tr ++ [ Neo4jSession;
               Neo4jRun Rest.graph_query [ (Py.lit "name", PStr entity_name) ];
               Neo4jClose ])).
Proof.
  split.
  - intros e He. unfold Rest.query_graph. now apply StoreMore.session_refused.
  - intros Hs Hclose. unfold Rest.query_graph.
    rewrite (StoreMore.session_opened _ _ _ Hs).
    set (k_name := Py.lit "name") in *. clearbody k_name.
    set (query := Rest.graph_query) in *. clearbody query.
    unfold closing, run, call, mbind, M_bind, mret, M_ret, raise.
    destruct (neo4j_run svc _ query _) as [records|e];
      rewrite <- app_assoc; cbn [app]; rewrite Hclose;
      rewrite <- app_assoc; reflexivity.
Qed.

Lemma query_graph_outcomes_witness :
  Rest.query_graph Sample.no_edges (Py.lit "rust") [] =
  (Ok [ [ (Py.lit "id", PStr (Py.lit "4:0")) ] ],
   [ Neo4jSession;
     Neo4jRun Rest.graph_query [ (Py.lit "name", PStr (Py.lit "rust")) ];
     Neo4jClose ]).
Proof.
  exact (proj2 (query_graph_outcomes Sample.no_edges (Py.lit "rust") [])
               eq_refl eq_refl).
Defined.

(* ===================================================================== *)
(** ** More on [answer_question] *)
(* ===================================================================== *)

Module AnswerMore.


Lemma not_found_nonempty : not_found_message <> [].
Proof. intros H. vm_compute in H. discriminate H. Qed.

Lemma no_answer_nonempty : no_answer_message <> [].
Proof. intros H. vm_compute in H. discriminate H. Qed.

Lemma answer_error_nonempty : answer_error_message <> [].
Proof. intros H. vm_compute in H. discriminate H. Qed.

(** The part of [answer_question] after the search, when some text
    qualifies for the context. *)
Lemma answer_with_context svc rt question tr matches tr1 part parts d :
  query_vector_search svc question 10 tr = (Ok matches, tr1) ->
  fold_left collect_match matches ([], []) = (part :: parts, d) ->
  exists answer logs,
    answer_question svc rt question tr =
    (Ok answer,
     tr1 ++ OllamaChat answer_model
              (answer_prompt
                 (Py.join context_separator (Py.slice_to (part :: parts) 5))
                 question)
              answer_options :: logs)
    /\ answer <> []
    /\ (logs = []
        \/ exists e, logs = [Log ERROR (AnswerGenerationFailed e)]
                     /\ answer = answer_error_message).
Proof.
  intros Hsearch Hfold. unfold answer_question.
  rewrite (bind_ok _ _ _ _ _ Hsearch), Hfold.
  set (prompt := answer_prompt _ question). clearbody prompt.
  set (k_message := Py.lit "message"). clearbody k_message.
  set (k_content := Py.lit "content"). clearbody k_content.
  assert (forall e,
            exists answer logs,
              (Ok answer_error_message,
               (tr1 ++ [OllamaChat answer_model prompt answer_options])
               ++ [Log ERROR (AnswerGenerationFailed e)])
              = (Ok answer,
                 tr1 ++ OllamaChat answer_model prompt answer_options :: logs)
              /\ answer <> []
              /\ (logs = []
                  \/ exists e', logs = [Log ERROR (AnswerGenerationFailed e')]
                                /\ answer = answer_error_message)) as Hfail.
  { intros e. exists answer_error_message, [Log ERROR (AnswerGenerationFailed e)].
    split; [now rewrite <- app_assoc|].
    split; [exact answer_error_nonempty|]. right. now exists e. }
  unfold try_except, chat, call, Dyn.getitem, of_reply, log, emit,
    mbind, M_bind, mret, M_ret, raise.
  destruct (ollama_chat svc tr1 answer_model prompt answer_options)
    as [response|e]; [|exact (Hfail e)].
  destruct (Dyn.item response k_message) as [message|e]; [|exact (Hfail e)].
  destruct (Dyn.item message k_content) as [content|e]; [|exact (Hfail e)].
  destruct content as [| | | |content| |]; cbn [Dyn.as_str];
    unfold raise, mret, M_ret; try exact (Hfail AttributeError).
  eexists. exists []. split; [reflexivity|]. split; [|now left].
  destruct (with_sources d _); [exact no_answer_nonempty | discriminate].
Qed.



Lemma add_source_names filename page_num d x :
  In x (List.map fst (add_source filename page_num d)) <->
  x = filename \/ In x (List.map fst d).
Proof.
  induction d as [|[f pages] d IH]; simpl.
  - split; [intros [H|[]]; now left | intros [H|[]]; now left].
  - destruct (decide (f = filename)) as [->|Hne]; simpl.
    + split; [tauto|]. intros [->|H]; [now left | exact H].
    + rewrite IH. tauto.
Qed.

(** The sources gathered so far stay tidy: every file once, every page of
    a file once, and no page number below 1. *)
Lemma add_source_tidy filename page_num d :
  List.NoDup (List.map fst d)
  /\ Forall (fun entry => List.NoDup (snd entry)
                          /\ Forall (fun p => 0 < p) (snd entry)) d ->
  List.NoDup (List.map fst (add_source filename page_num d))
  /\ Forall (fun entry => List.NoDup (snd entry)
                          /\ Forall (fun p => 0 < p) (snd entry))
            (add_source filename page_num d).
Proof.
  induction d as [|[f pages] d IH]; intros [Hnames Hpages]; simpl.
  - split; [constructor; [intros []|constructor]|].
    constructor; [|constructor]. simpl.
    destruct (Z.gtb_spec page_num 0); split; repeat constructor;
      try (intros []); lia.
  - inversion Hnames as [|? ? Hnotin Hrest]; subst.
    inversion Hpages as [|? ? [Hnd Hpos] Htail]; subst. simpl in *.
    destruct (decide (f = filename)) as [->|Hne]; simpl.
    + split; [exact Hnames|]. constructor; [|exact Htail]. simpl.
      destruct (Z.gtb_spec page_num 0) as [Hp|Hp]; simpl; [|now split].
      destruct (existsb (Z.eqb page_num) pages) eqn:Hex; simpl; [now split|].
      split.
      * apply NoDup_app_remove_l with (l := []). simpl.
        apply List.NoDup_rev in Hnd.
        rewrite <- (rev_involutive (pages ++ [page_num])).
        apply List.NoDup_rev. rewrite rev_app_distr. simpl.
        constructor; [|exact Hnd].
        intros Hin. apply in_rev in Hin.
        assert (existsb (Z.eqb page_num) pages = true); [|congruence].
        apply existsb_exists. exists page_num. split; [exact Hin|].
        apply Z.eqb_refl.
      * apply Forall_app. split; [exact Hpos|]. constructor; [lia|constructor].
    + destruct (IH (conj Hrest Htail)) as [IHn IHp].
      split; [|constructor; [now split | exact IHp]].
      constructor; [|exact IHn].
      intros Hin. apply add_source_names in Hin.
      destruct Hin as [->|Hin]; [now apply Hne | now apply Hnotin].
Qed.

Lemma split_on_pieces sep s :
  forall cur, ~ In sep cur ->
  Forall (fun piece => ~ In sep piece) (Py.split_on_from sep cur s).
Proof.
  induction s as [|c s IH]; intros cur Hcur; simpl.
  - constructor; [exact Hcur | constructor].
  - destruct (N.eqb_spec c sep) as [E|Hne].
    + constructor; [exact Hcur|]. apply IH. intros [].
    + apply IH. intros Hin. apply in_app_or in Hin.
      destruct Hin as [Hin|[Hin|[]]]; [now apply Hcur | now apply Hne].
Qed.

End AnswerMore.

(** X19.  An error of the vector search is not caught: the call raises
    exactly when the search raises, with the same error and without
    anything further happening.  In every other case it returns a string
    that is not empty. *)
Theorem answer_question_raises_with_search svc rt question tr :
  (forall e tr1,
     query_vector_search svc question 10 tr = (Raise e, tr1) ->
     answer_question svc rt question tr = (Raise e, tr1))
  /\ (forall matches tr1,
        query_vector_search svc question 10 tr = (Ok matches, tr1) ->
        exists answer tr2,
          answer_question svc rt question tr = (Ok answer, tr2)
          /\ answer <> []).
Proof.
  split.
  - intros e tr1 H. unfold answer_question. now apply bind_raise.
  - intros matches tr1 H.
    destruct (fold_left collect_match matches ([], [])) as [[|part parts] d]
      eqn:Hfold.
    + exists not_found_message, tr1. split;
        [|exact AnswerMore.not_found_nonempty].
      unfold answer_question. rewrite (bind_ok _ _ _ _ _ H), Hfold.
      reflexivity.
    + destruct (AnswerMore.answer_with_context svc rt question tr matches tr1
                  part parts d H Hfold) as [answer [logs [Hrun [Hne _]]]].
      now exists answer, (tr1 ++ OllamaChat answer_model
              (answer_prompt
                 (Py.join context_separator (Py.slice_to (part :: parts) 5))
                 question)
              answer_options :: logs).
Qed.

Lemma answer_question_raises_with_search_witness :
  answer_question Sample.offline Sample.rt (Py.lit "What treats wheat rust?") []
  = (Raise Sample.down,
     snd (query_vector_search Sample.offline
            (Py.lit "What treats wheat rust?") 10 [])).
Proof.
  apply (proj1 (answer_question_raises_with_search Sample.offline Sample.rt
                  (Py.lit "What treats wheat rust?") [])).
  vm_compute. reflexivity.
Defined.



(** X21.  The sources gathered from the matches list every file once and
    every page of a file once, never hold a page number below 1, and
    include the file of every match whose text is longer than 100
    characters. *)
Theorem sources_are_tidy matches :
  let d := snd (fold_left collect_match matches ([], [])) in
  List.NoDup (List.map fst d)
  /\ Forall (fun entry => List.NoDup (snd entry)
                          /\ Forall (fun p => 0 < p) (snd entry)) d
  /\ forall m,
       In m matches ->
       (Py.len (default [] (md_text m)) >? 100) = true ->
       In (default (default unknown_source (md_doc_id m))
                   (md_original_filename m))
          (List.map fst d).
Proof.
  cbv zeta.
  assert (forall acc : list Py.str * sources,
            (List.NoDup (List.map fst (snd acc))
             /\ Forall (fun entry => List.NoDup (snd entry)
                                     /\ Forall (fun p => 0 < p) (snd entry))
                       (snd acc)) ->
            (List.NoDup
               (List.map fst (snd (fold_left collect_match matches acc)))
             /\ Forall (fun entry => List.NoDup (snd entry)
                                     /\ Forall (fun p => 0 < p) (snd entry))
                       (snd (fold_left collect_match matches acc)))
            /\ (forall x, In x (List.map fst (snd acc)) ->
                  In x (List.map fst
                          (snd (fold_left collect_match matches acc))))
            /\ forall m,
                 In m matches ->
                 (Py.len (default [] (md_text m)) >? 100) = true ->
                 In (default (default unknown_source (md_doc_id m))
                             (md_original_filename m))
                    (List.map fst
                       (snd (fold_left collect_match matches acc))))
    as Hall.
  { induction matches as [|m matches IH]; intros acc Hacc; simpl.
    - split; [exact Hacc|]. split; [tauto | intros m []].
    - assert (List.NoDup (List.map fst (snd (collect_match acc m)))
              /\ Forall (fun entry => List.NoDup (snd entry)
                                      /\ Forall (fun p => 0 < p) (snd entry))
                        (snd (collect_match acc m))) as Hstep.
      { unfold collect_match.
        destruct (Py.len (default [] (md_text m)) >? 100); simpl;
          [now apply AnswerMore.add_source_tidy | exact Hacc]. }
      destruct (IH (collect_match acc m) Hstep) as [Htidy [Hkeep Hin]].
      split; [exact Htidy|]. split.
      + intros x Hx. apply Hkeep. unfold collect_match.
        destruct (Py.len (default [] (md_text m)) >? 100); simpl;
          [|exact Hx].
        apply AnswerMore.add_source_names. now right.
      + intros m' [<-|Hm'] Hlong; [|now apply Hin].
        apply Hkeep. unfold collect_match. rewrite Hlong. simpl.
        apply AnswerMore.add_source_names. now left. }
  destruct (Hall ([], [])) as [[H1 H2] [_ H3]].
  - split; constructor.
  - split; [exact H1|]. split; [exact H2 | exact H3].
Qed.

Lemma sources_are_tidy_witness :
  let long_text := Py.join (Py.lit " ") (repeat (Py.lit "fungicide") 12) in
  let hit p :=
    {| md_text := Some long_text;
       md_original_filename := Some (Py.lit "wheat.pdf");
       md_doc_id := None; md_page_num := p |} in
  In (Py.lit "wheat.pdf")
     (List.map fst
        (snd (fold_left collect_match
                [hit (Some 3); hit None; hit (Some 3); hit (Some 0)]
                ([], [])))).
Proof.
  intros long_text hit.
  apply (proj2 (proj2 (sources_are_tidy
                         [hit (Some 3); hit None; hit (Some 3); hit (Some 0)]))
               (hit None)).
  - simpl. tauto.
  - vm_compute. reflexivity.
Defined.

(** X22.  The lines kept when the answer is cleaned are never empty, have
    no whitespace at either end, and hold no line break. *)
Theorem clean_lines_trimmed rt answer :
  Forall (fun line => line <> [] /\ Py.strip line = line
                      /\ ~ In 10%N line)
         (clean_lines rt answer).
Proof.
  unfold clean_lines.
  pose proof (AnswerMore.split_on_pieces 10%N answer [] (fun H => H)) as Hp.
  fold (Py.split_on 10%N answer) in Hp.
  induction Hp as [|line lines Hline _ IH]; simpl; [constructor|].
  apply Forall_app. split; [|exact IH].
  destruct (is_metadata_line rt line); [constructor|].
  destruct (Py.strip line) as [|c r] eqn:Hs; constructor; [|constructor].
  split; [discriminate|]. split.
  - rewrite <- Hs. apply StripFacts.strip_idempotent.
  - intros Hin. apply Hline. apply LabelFacts.strip_In. now rewrite Hs.
Qed.

(* ===================================================================== *)
(** ** More on [get_statistics] *)
(* ===================================================================== *)


